(** * Biometric wallet derivation and write-proposal signing

    A shallow embedding of the client-side biometric code of the
    Blockchain AEM starter content:

    - [login/clientlibs/js/biometric-wallet-creation.js]  (module [WalletCreation]),
    - the earlier passkey variant of the same file         (module [PasskeyWallet]),
    - the [BiometricManager] object                         (module [BiometricManager]).

    Byte arrays ([Uint8Array], [ArrayBuffer]) are lists of [byte]; binary
    strings are [string]s of 8-bit characters; the two Web Storage areas
    are finite maps from strings to strings.  Platform functions the
    scripts call ([crypto.subtle.digest], [btoa], [atob],
    [encodeURIComponent]) are written out after their standards; what the
    outside world answers (authenticator, server, wallet extension, the
    [ethers] global) is read from an explicit environment record. *)

From Stdlib Require Import ZArith Lia Strings.Byte Ascii String List.
From stdpp Require Import base strings pretty gmap list.
Import ListNotations.

Local Open Scope Z_scope.

(** ** Bytes *)

Definition byte_to_Z (b : byte) : Z := Z.of_N (Byte.to_N b).

(** Storing a number into a [Uint8Array] slot keeps its low eight bits. *)
Definition byte_of_Z (z : Z) : byte :=
  match Byte.of_N (Z.to_N (z mod 256)) with
  | Some b => b
  | None => x00
  end.

(** [new Uint8Array(n)]: n zero bytes. *)
Definition Uint8Array_new (n : nat) : list byte := repeat x00 n.

(** [a.slice(from, to)] on a typed array, for non-negative indices. *)
Definition slice {A} (from to : nat) (a : list A) : list A :=
  take (to - from)%nat (drop from a).

(** [target.set(src, offset)] for a source that fits (the only use in the
    scripts writes at most 32 bytes at offsets 0 and 32 of a 64-byte array). *)
Definition typed_set {A} (target src : list A) (offset : nat) : list A :=
  take offset target ++ src ++ drop (offset + length src)%nat target.

(** ** Hexadecimal: [b.toString(16).padStart(2, '0')] *)

Definition hex_digit (d : Z) : ascii :=
  if d <? 10 then ascii_of_N (Z.to_N (48 + d)) else ascii_of_N (Z.to_N (87 + d)).

Definition hex2 (b : byte) : string :=
  String (hex_digit (byte_to_Z b / 16)) (String (hex_digit (byte_to_Z b mod 16)) EmptyString).

(** [Array.from(bytes).map(b => b.toString(16).padStart(2, '0')).join('')] *)
Definition to_hex (bytes : list byte) : string :=
  fold_right (fun b acc => String.append (hex2 b) acc) EmptyString bytes.

(** ** SHA-256 (FIPS 180-4), the function behind
    [crypto.subtle.digest('SHA-256', data)] *)

Module SHA256.

Definition wrap (x : Z) : Z := x mod 2 ^ 32.
Definition add32 (x y : Z) : Z := wrap (x + y).
Definition rotr (n x : Z) : Z := Z.lor (Z.shiftr x n) (wrap (Z.shiftl x (32 - n))).
Definition not32 (x : Z) : Z := Z.lxor x (2 ^ 32 - 1).

Definition Ch (x y z : Z) : Z := Z.lxor (Z.land x y) (Z.land (not32 x) z).
Definition Maj (x y z : Z) : Z := Z.lxor (Z.lxor (Z.land x y) (Z.land x z)) (Z.land y z).
Definition bsig0 (x : Z) : Z := Z.lxor (Z.lxor (rotr 2 x) (rotr 13 x)) (rotr 22 x).
Definition bsig1 (x : Z) : Z := Z.lxor (Z.lxor (rotr 6 x) (rotr 11 x)) (rotr 25 x).
Definition ssig0 (x : Z) : Z := Z.lxor (Z.lxor (rotr 7 x) (rotr 18 x)) (Z.shiftr x 3).
Definition ssig1 (x : Z) : Z := Z.lxor (Z.lxor (rotr 17 x) (rotr 19 x)) (Z.shiftr x 10).

(** The round constants are the fractional parts of the cube roots of the
    first 64 primes, the initial state those of the square roots of the
    first 8; both tables are computed here rather than typed in. *)
Definition is_prime (n : Z) : bool :=
  (1 <? n) && forallb (fun d => negb (n mod d =? 0) || (n <=? d))
                      (map Z.of_nat (seq 2 (Z.to_nat (Z.sqrt n)))).

Definition primes64 : list Z :=
  Eval vm_compute in take 64 (filter (fun n => is_prime n = true) (map Z.of_nat (seq 2 320))).

(** Integer cube root, one bit at a time from bit [k-1] down. *)
Fixpoint icbrt_bits (k : nat) (n r : Z) : Z :=
  match k with
  | O => r
  | S k' =>
      let c := r + 2 ^ Z.of_nat k' in
      icbrt_bits k' n (if c * c * c <=? n then c else r)
  end.

Definition K : list Z :=
  Eval vm_compute in map (fun p => wrap (icbrt_bits 44 (p * 2 ^ 96) 0)) primes64.

Definition H0 : list Z :=
  Eval vm_compute in map (fun p => wrap (Z.sqrt (p * 2 ^ 64))) (take 8 primes64).

(** Padding: a one bit, zeros up to 56 mod 64 bytes, the bit length on 8 bytes. *)
Definition be_bytes (n : nat) (x : Z) : list Z :=
  map (fun i => (x / 2 ^ (8 * Z.of_nat i)) mod 256) (rev (seq 0 n)).

Definition pad (msg : list Z) : list Z :=
  let len := Z.of_nat (length msg) in
  msg ++ [128] ++ repeat 0 (Z.to_nat ((55 - len) mod 64)) ++ be_bytes 8 (8 * len).

Definition be_word (bs : list Z) : Z := fold_left (fun acc b => acc * 256 + b) bs 0.

Fixpoint words (n : nat) (bs : list Z) : list Z :=
  match n with
  | O => []
  | S n' => be_word (take 4 bs) :: words n' (drop 4 bs)
  end.

Fixpoint schedule (n : nat) (w : list Z) : list Z :=
  match n with
  | O => w
  | S n' =>
      let i := length w in
      let x := add32 (add32 (ssig1 (nth (i - 2) w 0)) (nth (i - 7) w 0))
                     (add32 (ssig0 (nth (i - 15) w 0)) (nth (i - 16) w 0)) in
      schedule n' (w ++ [x])
  end.

Definition state : Type := (Z * Z * Z * Z * Z * Z * Z * Z)%type.

Definition round (s : state) (kw : Z * Z) : state :=
  let '(a, b, c, d, e, f, g, h) := s in
  let t1 := add32 (add32 (add32 (add32 h (bsig1 e)) (Ch e f g)) (fst kw)) (snd kw) in
  let t2 := add32 (bsig0 a) (Maj a b c) in
  (add32 t1 t2, a, b, c, add32 d t1, e, f, g).

Definition compress (s : state) (block : list Z) : state :=
  let w := schedule 48 (words 16 block) in
  let '(a, b, c, d, e, f, g, h) := fold_left round (combine K w) s in
  let '(a0, b0, c0, d0, e0, f0, g0, h0) := s in
  (add32 a0 a, add32 b0 b, add32 c0 c, add32 d0 d,
   add32 e0 e, add32 f0 f, add32 g0 g, add32 h0 h).

Fixpoint blocks (n : nat) (bs : list Z) (s : state) : state :=
  match n with
  | O => s
  | S n' => blocks n' (drop 64 bs) (compress s (take 64 bs))
  end.

Definition init : state :=
  match H0 with
  | [a; b; c; d; e; f; g; h] => (a, b, c, d, e, f, g, h)
  | _ => (0, 0, 0, 0, 0, 0, 0, 0)
  end.

Definition out (s : state) : list byte :=
  let '(a, b, c, d, e, f, g, h) := s in
  map byte_of_Z (flat_map (be_bytes 4) [a; b; c; d; e; f; g; h]).

Definition digest (data : list byte) : list byte :=
  let p := pad (map byte_to_Z data) in
  out (blocks (length p / 64) p init).

End SHA256.

Definition bytes_of_string (s : string) : list byte :=
  map byte_of_ascii (list_ascii_of_string s).

(** ** Exceptions *)

(** A thrown JavaScript error: its [name] and its [message]. *)
Record JsError := mkError { err_name : string; err_message : string }.

(** [new Error(msg)] *)
Definition Error (msg : string) : JsError := mkError "Error" msg.

Inductive Result (A : Type) : Type :=
  | Ok (a : A)
  | Throw (e : JsError).
Arguments Ok {A} a.
Arguments Throw {A} e.

(** ** Binary strings and base64: [String.fromCharCode], [charCodeAt],
    [btoa], [atob] *)

Definition code (c : ascii) : Z := Z.of_N (N_of_ascii c).
Definition chr (z : Z) : ascii := ascii_of_N (Z.to_N z).

(** [s.charCodeAt(i)]: [None] stands for NaN (index out of range). *)
Definition charCodeAt (s : string) (i : nat) : option Z :=
  match String.get i s with
  | Some c => Some (code c)
  | None => None
  end.

Module Base64.

Definition alphabet : list ascii :=
  list_ascii_of_string
    "ABCDEFGHIJKLMNOPQRSTUVWXYZabcdefghijklmnopqrstuvwxyz0123456789+/".

Definition char_of (n : Z) : ascii := nth (Z.to_nat n) alphabet "A"%char.

Fixpoint find_index (c : ascii) (l : list ascii) (i : Z) : option Z :=
  match l with
  | [] => None
  | d :: l' => if Ascii.eqb c d then Some i else find_index c l' (i + 1)
  end.

Definition index_of (c : ascii) : option Z := find_index c alphabet 0.

(** [btoa]: three characters become four; a last group of one or two is
    padded with ['=']. Characters above U+00FF, on which [btoa] throws,
    do not exist in [string]. *)
Fixpoint encode (l : list ascii) : list ascii :=
  match l with
  | [] => []
  | [a] =>
      let n := code a * 65536 in
      [char_of (n / 262144); char_of (n / 4096 mod 64); "="%char; "="%char]
  | [a; b] =>
      let n := code a * 65536 + code b * 256 in
      [char_of (n / 262144); char_of (n / 4096 mod 64); char_of (n / 64 mod 64); "="%char]
  | a :: b :: c :: rest =>
      let n := code a * 65536 + code b * 256 + code c in
      char_of (n / 262144) :: char_of (n / 4096 mod 64)
        :: char_of (n / 64 mod 64) :: char_of (n mod 64) :: encode rest
  end.

Definition btoa (s : string) : string :=
  string_of_list_ascii (encode (list_ascii_of_string s)).

(** [atob] is the forgiving-base64 decode of the HTML standard. *)
Definition is_ascii_whitespace (c : ascii) : bool :=
  existsb (Z.eqb (code c)) [9; 10; 12; 13; 32].

(** Drop one or two ['='] at the very end. *)
Fixpoint strip_end (l : list ascii) : list ascii :=
  match l with
  | [] => []
  | c :: l' =>
      match l' with
      | [] => if Ascii.eqb c "=" then [] else [c]
      | [d] => if Ascii.eqb c "=" && Ascii.eqb d "=" then [] else c :: strip_end l'
      | _ => c :: strip_end l'
      end
  end.

Fixpoint sextets_of (l : list ascii) : option (list Z) :=
  match l with
  | [] => Some []
  | c :: l' =>
      match index_of c, sextets_of l' with
      | Some i, Some r => Some (i :: r)
      | _, _ => None
      end
  end.

(** Four sextets give three bytes; a last group of three gives two (two
    bits dropped), of two gives one (four bits dropped). *)
Fixpoint decode_groups (l : list Z) : list ascii :=
  match l with
  | s0 :: s1 :: s2 :: s3 :: rest =>
      let n := ((s0 * 64 + s1) * 64 + s2) * 64 + s3 in
      chr (n / 65536) :: chr (n / 256 mod 256) :: chr (n mod 256) :: decode_groups rest
  | [s0; s1; s2] =>
      let n := (s0 * 64 + s1) * 64 + s2 in
      [chr (n / 1024); chr (n / 4 mod 256)]
  | [s0; s1] =>
      let n := s0 * 64 + s1 in
      [chr (n / 16)]
  | _ => []
  end.

Definition InvalidCharacterError : JsError :=
  mkError "InvalidCharacterError" "The string to be decoded is not correctly encoded.".

Definition atob (s : string) : Result string :=
  let data := List.filter (fun c => negb (is_ascii_whitespace c)) (list_ascii_of_string s) in
  let data := if (length data mod 4 =? 0)%nat then strip_end data else data in
  if (length data mod 4 =? 1)%nat then Throw InvalidCharacterError
  else match sextets_of data with
       | None => Throw InvalidCharacterError
       | Some sx => Ok (string_of_list_ascii (decode_groups sx))
       end.

End Base64.

(** ** JavaScript values and strings *)

(** Values that cross the JSON boundary. Numbers are integers here; the
    scripts only ever send and test whole numbers. *)
#[local] Unset Elimination Schemes.
Inductive JsValue : Type :=
  | JUndefined
  | JNull
  | JBool (b : bool)
  | JNum (z : Z)
  | JStr (s : string)
  | JArr (l : list JsValue)
  | JObj (fields : list (string * JsValue)).
#[local] Set Elimination Schemes.

Definition TypeError (msg : string) : JsError := mkError "TypeError" msg.

(** [!!v] *)
Definition truthy (v : JsValue) : bool :=
  match v with
  | JUndefined | JNull => false
  | JBool b => b
  | JNum z => negb (z =? 0)
  | JStr s => negb (String.eqb s EmptyString)
  | JArr _ | JObj _ => true
  end.

(** [a || b] *)
Definition js_or (a b : JsValue) : JsValue := if truthy a then a else b.

(** String conversion, as in a template literal or [new Error(v)]. *)
Fixpoint js_ToString (v : JsValue) : string :=
  match v with
  | JUndefined => "undefined"
  | JNull => "null"
  | JBool true => "true"
  | JBool false => "false"
  | JNum z => pretty z
  | JStr s => s
  | JArr l =>
      (fix join (l : list JsValue) : string :=
         match l with
         | [] => EmptyString
         | x :: r =>
             let sx := match x with JUndefined | JNull => EmptyString | _ => js_ToString x end in
             match r with
             | [] => sx
             | _ => sx +:+ "," +:+ join r
             end
         end) l
  | JObj _ => "[object Object]"
  end.

Fixpoint assoc (k : string) (fields : list (string * JsValue)) : JsValue :=
  match fields with
  | [] => JUndefined
  | (k', v) :: r => if String.eqb k k' then v else assoc k r
  end.

(** [v.k]: reading a property of [undefined] or [null] throws. *)
Definition get_field (v : JsValue) (k : string) : Result JsValue :=
  match v with
  | JUndefined | JNull =>
      Throw (TypeError ("Cannot read properties of " +:+ js_ToString v))
  | JObj fields => Ok (assoc k fields)
  | _ => Ok JUndefined
  end.

(** [v[0]] *)
Definition get_index0 (v : JsValue) : Result JsValue :=
  match v with
  | JUndefined | JNull =>
      Throw (TypeError ("Cannot read properties of " +:+ js_ToString v))
  | JArr (x :: _) => Ok x
  | JStr (String c _) => Ok (JStr (String c EmptyString))
  | JObj fields => Ok (assoc "0" fields)
  | _ => Ok JUndefined
  end.

(** [JSON.stringify] of an object literal leaves out the properties whose
    value is [undefined]; the body of a request is kept as that object. *)
Definition json_object (fields : list (string * JsValue)) : JsValue :=
  JObj (List.filter (fun kv => match snd kv with JUndefined => false | _ => true end) fields).

Definition bytes_array (bs : list byte) : JsValue := JArr (map (fun b => JNum (byte_to_Z b)) bs).

(** [s.substring(0, n)] and [s.slice(-n)] *)
Definition substring_to (n : nat) (s : string) : string := String.substring 0 n s.
Definition slice_last (n : nat) (s : string) : string :=
  String.substring (String.length s - n) n s.

(** [s.includes(t)] *)
Definition includes (t s : string) : bool :=
  match String.index 0 t s with Some _ => true | None => String.eqb t EmptyString end.

(** [s.replace(/a/g, b)] for single characters. *)
Fixpoint replace_char (a b : ascii) (s : string) : string :=
  match s with
  | EmptyString => EmptyString
  | String c r => String (if Ascii.eqb c a then b else c) (replace_char a b r)
  end.

(** [c.repeat(n)] *)
Fixpoint repeat_char (c : ascii) (n : nat) : string :=
  match n with O => EmptyString | S n' => String c (repeat_char c n') end.

(** UTF-8 of a string whose characters are below U+0100
    ([new TextEncoder().encode(str)]). *)
Definition utf8_char (c : ascii) : list byte :=
  if code c <? 128 then [byte_of_ascii c]
  else [byte_of_Z (192 + code c / 64); byte_of_Z (128 + code c mod 64)].

Definition utf8_encode (s : string) : list byte :=
  flat_map utf8_char (list_ascii_of_string s).

Definition upper_hex_digit (d : Z) : ascii :=
  if d <? 10 then chr (48 + d) else chr (55 + d).

Definition percent (b : byte) : string :=
  String "%" (String (upper_hex_digit (byte_to_Z b / 16))
                     (String (upper_hex_digit (byte_to_Z b mod 16)) EmptyString)).

(** Characters [encodeURIComponent] leaves alone: letters, digits and
    [- _ . ! ~ * ' ( )]. *)
Definition uri_unreserved (c : ascii) : bool :=
  let n := code c in
  ((65 <=? n) && (n <=? 90)) || ((97 <=? n) && (n <=? 122)) || ((48 <=? n) && (n <=? 57))
  || existsb (Z.eqb n) [45; 95; 46; 33; 126; 42; 39; 40; 41].

(** [encodeURIComponent] on a string within U+00FF, the strings of the
    scripts; [Utf16.encodeURIComponent] below is the function on every
    string and agrees with this one on these. *)
Fixpoint encodeURIComponent (s : string) : string :=
  match s with
  | EmptyString => EmptyString
  | String c r =>
      (if uri_unreserved c then String c EmptyString
       else fold_right (fun b acc => percent b +:+ acc) EmptyString (utf8_char c))
      +:+ encodeURIComponent r
  end.

(** ** Text beyond U+00FF

    A JavaScript string is a sequence of 16-bit code units. What the
    scripts compute themselves stays below U+0100 and is kept in [string],
    one character per code unit; what a user types, such as the content of
    a proposal, is any text. [Utf16.encodeURIComponent] is the function on
    every string (ECMAScript, Encode with the unescaped set of
    [encodeURIComponent]); on a [string] it is the [encodeURIComponent]
    above. *)

Module Utf16.

(** A string by its code units, each within [0, 65536). *)
Definition Text : Type := list Z.

Definition is_code_unit (u : Z) : bool := (0 <=? u) && (u <? 65536).

Definition is_text (t : Text) : bool := forallb is_code_unit t.

Definition of_string (s : string) : Text := map code (list_ascii_of_string s).

(** U+D800..U+DBFF and U+DC00..U+DFFF *)
Definition is_leading_surrogate (u : Z) : bool := (55296 <=? u) && (u <=? 56319).
Definition is_trailing_surrogate (u : Z) : bool := (56320 <=? u) && (u <=? 57343).

(** UTF16SurrogatePairToCodePoint *)
Definition pair_code_point (lead trail : Z) : Z :=
  (lead - 55296) * 1024 + (trail - 56320) + 65536.

(** The UTF-8 octets of a code point. *)
Definition utf8 (cp : Z) : list Z :=
  if cp <? 128 then [cp]
  else if cp <? 2048 then [192 + cp / 64; 128 + cp mod 64]
  else if cp <? 65536 then [224 + cp / 4096; 128 + cp / 64 mod 64; 128 + cp mod 64]
  else [240 + cp / 262144; 128 + cp / 4096 mod 64; 128 + cp / 64 mod 64; 128 + cp mod 64].

(** The error of a lone surrogate; the message is the engine's. *)
Definition URIError : JsError := mkError "URIError" "URI malformed".

(** A code unit that is copied as it is. *)
Definition unescaped (u : Z) : bool :=
  (0 <=? u) && (u <? 128) && uri_unreserved (chr u).

(** The escapes of the octets of a code point. *)
Definition escape (cp : Z) : string :=
  fold_right (fun b acc => percent (byte_of_Z b) +:+ acc) EmptyString (utf8 cp).

Fixpoint encodeURIComponent (t : Text) : Result string :=
  match t with
  | [] => Ok EmptyString
  | u :: r =>
      if unescaped u then
        match encodeURIComponent r with
        | Ok s => Ok (String (chr u) s)
        | Throw e => Throw e
        end
      else if is_trailing_surrogate u then Throw URIError
      else if is_leading_surrogate u then
        match r with
        | [] => Throw URIError
        | v :: r' =>
            if is_trailing_surrogate v then
              match encodeURIComponent r' with
              | Ok s => Ok (escape (pair_code_point u v) +:+ s)
              | Throw e => Throw e
              end
            else Throw URIError
        end
      else
        match encodeURIComponent r with
        | Ok s => Ok (escape u +:+ s)
        | Throw e => Throw e
        end
  end.

(** The URL of the challenge request of [signWriteProposal], for any path
    and content: the template literal with its two calls. *)
Definition challenge_url (path content : Text) : Result string :=
  match encodeURIComponent path with
  | Throw e => Throw e
  | Ok p =>
      match encodeURIComponent content with
      | Throw e => Throw e
      | Ok c =>
          Ok ("/bin/blockchain-aem/propose-write-biometric?path=" +:+ p
              +:+ "&content=" +:+ c)
      end
  end.

End Utf16.

(** ** The outside world *)

(** [ethers.Wallet]: the three properties the scripts read. *)
Record Wallet := mkWallet {
  wallet_address : string;
  wallet_privateKey : string;
  wallet_publicKey : string }.

(** A [PublicKeyCredential] returned by [navigator.credentials.create]. *)
Record Credential := mkCredential {
  cred_id : string;                          (* credential.id, base64url *)
  cred_rawId : list byte;                    (* credential.rawId *)
  cred_getPublicKey : option (list byte);    (* response.getPublicKey(), when the browser has it *)
  cred_attestationObject : list byte }.

(** A [PublicKeyCredential] returned by [navigator.credentials.get]. *)
Record Assertion := mkAssertion {
  assertion_signature : list byte }.         (* assertion.response.signature *)

Record CreationOptions := mkCreationOptions {
  co_challenge : list byte;
  co_rp_name : string;
  co_rp_id : string;
  co_user_id : list byte;
  co_user_name : string;
  co_user_displayName : string;
  co_alg : Z;
  co_authenticatorAttachment : string;
  co_userVerification : string;
  co_residentKey : option string;
  co_timeout : Z;
  co_attestation : string }.

Record RequestOptions := mkRequestOptions {
  ro_challenge : list byte;
  ro_allowCredentials : list (list byte * string);
  ro_userVerification : string;
  ro_timeout : Z }.

(** A [fetch] call: method, URL and, for a POST, the object given to
    [JSON.stringify]. *)
Record Request := mkRequest {
  req_method : string;
  req_url : string;
  req_body : option JsValue }.

(** A [Response]: its [ok] flag and what [response.json()] settles to. *)
Record Response := mkResponse {
  resp_ok : bool;
  resp_json : Result JsValue }.

(** What the scripts do to the world, in order. Console output is left
    out: it reads program values and nothing reads it back. *)
Inductive Event : Type :=
  | EvStatus (icon title message : string)        (* statusCallback(icon, title, message) *)
  | EvRandom (n : nat)                            (* crypto.getRandomValues(new Uint8Array(n)) *)
  | EvIsUVPAA                                     (* isUserVerifyingPlatformAuthenticatorAvailable() *)
  | EvCreate (o : CreationOptions)                (* navigator.credentials.create: a hardware prompt *)
  | EvGet (o : RequestOptions)                    (* navigator.credentials.get: a hardware prompt *)
  | EvFetch (r : Request)
  | EvEthereum (method : string) (params : list JsValue).   (* window.ethereum.request *)

(** The browser around the scripts. Every answer may depend on what has
    happened so far (the trace), so servers and authenticators with a
    memory are covered. *)
Record Env := mkEnv {
  has_PublicKeyCredential : bool;
  isUVPAA : list Event -> Result bool;
  credentials_create : list Event -> CreationOptions -> Result Credential;
  credentials_get : list Event -> RequestOptions -> Result Assertion;
  fetch : list Event -> Request -> Result Response;
  ethereum : option (list Event -> string -> list JsValue -> Result JsValue);
  ethers : option (string -> Result Wallet);
  getRandomValues : list Event -> nat -> list byte;
  hostname : string;
  userAgent : string }.

(** The state the scripts change: the two storage areas and the trace. *)
Record World := mkWorld {
  localStorage : gmap string string;
  sessionStorage : gmap string string;
  trace : list Event }.

(** Closing the tab ends the session: [sessionStorage] is discarded,
    [localStorage] stays. *)
Definition end_session (w : World) : World :=
  mkWorld (localStorage w) ∅ (trace w).

(** ** Asynchronous code as a reader, state and exception monad *)

Definition M (A : Type) : Type := Env -> World -> Result A * World.

#[export] Instance M_ret : MRet M := fun A a _ w => (Ok a, w).
#[export] Instance M_bind : MBind M := fun A B f m env w =>
  match m env w with
  | (Ok a, w') => f a env w'
  | (Throw e, w') => (Throw e, w')
  end.

Definition throw {A} (e : JsError) : M A := fun _ w => (Throw e, w).

(** [try { m } catch (error) { h error }] *)
Definition try_catch {A} (m : M A) (h : JsError -> M A) : M A := fun env w =>
  match m env w with
  | (Ok a, w') => (Ok a, w')
  | (Throw e, w') => h e env w'
  end.

(** A settled promise or a returning call, awaited. *)
Definition lift {A} (r : Result A) : M A := fun _ w => (r, w).

Definition ask : M Env := fun env w => (Ok env, w).

Definition emit (e : Event) : M unit := fun _ w =>
  (Ok tt, mkWorld (localStorage w) (sessionStorage w) (trace w ++ [e])).

(** An interaction: the environment answers from the trace so far, and
    the interaction is appended to the trace. *)
Definition interact {A} (answer : Env -> list Event -> Result A) (e : Event) : M A :=
  fun env w =>
    (answer env (trace w), mkWorld (localStorage w) (sessionStorage w) (trace w ++ [e])).

Definition statusCallback (icon title message : string) : M unit :=
  emit (EvStatus icon title message).

Definition crypto_getRandomValues (n : nat) : M (list byte) :=
  interact (fun env tr => Ok (getRandomValues env tr n)) (EvRandom n).

Definition navigator_credentials_create (o : CreationOptions) : M Credential :=
  interact (fun env tr => credentials_create env tr o) (EvCreate o).

Definition navigator_credentials_get (o : RequestOptions) : M Assertion :=
  interact (fun env tr => credentials_get env tr o) (EvGet o).

Definition js_fetch (r : Request) : M Response :=
  interact (fun env tr => fetch env tr r) (EvFetch r).

Definition ethereum_request (request : list Event -> string -> list JsValue -> Result JsValue)
    (method : string) (params : list JsValue) : M JsValue :=
  interact (fun _ tr => request tr method params) (EvEthereum method params).

Definition localStorage_setItem (k v : string) : M unit := fun _ w =>
  (Ok tt, mkWorld (<[k := v]> (localStorage w)) (sessionStorage w) (trace w)).

Definition localStorage_getItem (k : string) : M (option string) := fun _ w =>
  (Ok (localStorage w !! k), w).

Definition sessionStorage_setItem (k v : string) : M unit := fun _ w =>
  (Ok tt, mkWorld (localStorage w) (<[k := v]> (sessionStorage w)) (trace w)).

Definition sessionStorage_getItem (k : string) : M (option string) := fun _ w =>
  (Ok (sessionStorage w !! k), w).

Definition dquote : string := String (ascii_of_nat 34) EmptyString.
Definition newline : string := String (ascii_of_nat 10) EmptyString.

(** [String.fromCharCode.apply(null, bytes)] *)
Definition fromCharCode_apply (bytes : list byte) : string :=
  string_of_list_ascii (map ascii_of_byte bytes).

(** [!!s] for what [getItem] returns (a string or [null]). *)
Definition truthy_item (o : option string) : bool :=
  match o with
  | Some s => negb (String.eqb s EmptyString)
  | None => false
  end.

(** ** login/clientlibs/js/biometric-wallet-creation.js *)

Module WalletCreation.

Definition ethers_not_loaded : JsError :=
  Error ("ethers.js not loaded. Add: <script src=" +:+ dquote
         +:+ "https://cdn.ethers.io/lib/ethers-5.7.2.umd.min.js" +:+ dquote +:+ "></script>").

Definition ensureEthers : M unit :=
  env ← ask;
  match ethers env with
  | None => throw ethers_not_loaded
  | Some _ => mret tt
  end.

(** [new ethers.Wallet(privateKeyHex)] *)
Definition new_ethers_Wallet (privateKeyHex : string) : M Wallet :=
  env ← ask;
  match ethers env with
  | None => throw (mkError "ReferenceError" "ethers is not defined")
  | Some new_Wallet => lift (new_Wallet privateKeyHex)
  end.

Definition deriveSecp256k1Wallet (p256PubKey : list byte) : M Wallet :=
  _ ← ensureEthers;
  let entropy := SHA256.digest p256PubKey in
  let privateKeyBytes := entropy in
  let privateKeyHex := "0x" +:+ to_hex privateKeyBytes in
  wallet ← new_ethers_Wallet privateKeyHex;
  mret wallet.

(** The returned object has the wallet's three properties, so the same
    record carries it. *)
Definition deriveEthereumWallet (p256PubKey : list byte) : M Wallet :=
  wallet ← deriveSecp256k1Wallet p256PubKey;
  mret (mkWallet (wallet_address wallet) (wallet_privateKey wallet) (wallet_publicKey wallet)).

Record WalletData := mkWalletData {
  wd_address : string;
  wd_privateKey : string;
  wd_publicKey : string;
  wd_credentialId : string;
  wd_p256PubKey : list byte;
  wd_rawId : list byte }.

Definition creationOptions (challenge userId : list byte) (host : string) : CreationOptions :=
  {| co_challenge := challenge;
     co_rp_name := "Blockchain AEM";
     co_rp_id := host;
     co_user_id := userId;
     co_user_name := "author@blockchain-aem.local";
     co_user_displayName := "AEM Author";
     co_alg := -7;
     co_authenticatorAttachment := "platform";
     co_userVerification := "required";
     co_residentKey := None;
     co_timeout := 60000;
     co_attestation := "direct" |}.

Definition createBiometricWallet : M WalletData :=
  env ← ask;
  if negb (has_PublicKeyCredential env)
  then throw (Error "Biometrics not supported on this device")
  else
    _ ← ensureEthers;
    _ ← statusCallback "🔐" "Initializing..." "Preparing biometric registration...";
    challenge ← crypto_getRandomValues 32;
    userId ← crypto_getRandomValues 16;
    let publicKeyCredentialCreationOptions := creationOptions challenge userId (hostname env) in
    try_catch
      (_ ← statusCallback "👆" "Scan Biometric" "Please scan your fingerprint or face...";
       credential ← navigator_credentials_create publicKeyCredentialCreationOptions;
       _ ← statusCallback "🔑" "Generating Wallet..." "Deriving secp256k1 wallet from biometric...";
       p256PubKeyBuffer ← lift (match cred_getPublicKey credential with
                                | Some b => Ok b
                                | None => Throw (TypeError "credential.response.getPublicKey is not a function")
                                end);
       let p256PubKey := p256PubKeyBuffer in
       ethWallet ← deriveEthereumWallet p256PubKey;
       mret {| wd_address := wallet_address ethWallet;
               wd_privateKey := wallet_privateKey ethWallet;
               wd_publicKey := wallet_publicKey ethWallet;
               wd_credentialId := cred_id credential;
               wd_p256PubKey := p256PubKey;
               wd_rawId := cred_rawId credential |})
      (fun error => throw error).

Definition register_request (walletData : WalletData) : Request :=
  {| req_method := "POST";
     req_url := "/bin/blockchain-aem/biometric-register";
     req_body := Some (json_object
       [("address", JStr (wd_address walletData));
        ("credentialId", JStr (wd_credentialId walletData));
        ("p256PubKey", bytes_array (wd_p256PubKey walletData));
        ("secp256k1PubKey", JStr (wd_publicKey walletData));
        ("rawId", bytes_array (wd_rawId walletData))]) |}.

Definition registerBiometricWallet (walletData : WalletData) : M JsValue :=
  _ ← statusCallback "📡" "Registering..." "Registering wallet with validators...";
  try_catch
    (response ← js_fetch (register_request walletData);
     if negb (resp_ok response)
     then
       error ← lift (resp_json response);
       message ← lift (get_field error "message");
       throw (Error (js_ToString (js_or message (JStr "Registration failed"))))
     else
       result ← lift (resp_json response);
       mret result)
    (fun error => throw error).

Record SetupResult := mkSetupResult {
  sr_address : string;
  sr_privateKey : string;
  sr_credentialId : string }.

Definition setupBiometricWallet : M SetupResult :=
  try_catch
    (walletData ← createBiometricWallet;
     registrationResult ← registerBiometricWallet walletData;
     _ ← localStorage_setItem "blockchain_aem_wallet_address" (wd_address walletData);
     _ ← localStorage_setItem "blockchain_aem_credential_id" (wd_credentialId walletData);
     let p256PubKeyBase64 := Base64.btoa (fromCharCode_apply (wd_p256PubKey walletData)) in
     _ ← localStorage_setItem "blockchain_aem_p256_pubkey" p256PubKeyBase64;
     _ ← localStorage_setItem "blockchain_aem_secp256k1_pubkey" (wd_publicKey walletData);
     _ ← sessionStorage_setItem "blockchain_aem_private_key" (wd_privateKey walletData);
     _ ← statusCallback "✅" "Wallet Created!"
           ("✓ Valid Ethereum Address: " +:+ substring_to 10 (wd_address walletData) +:+ "..."
            +:+ slice_last 6 (wd_address walletData) +:+ newline +:+ newline
            +:+ "✓ Biometric authentication ready" +:+ newline
            +:+ "✓ Can be exported to MetaMask" +:+ newline +:+ newline
            +:+ "Sign in with Face ID/Touch ID!");
     mret {| sr_address := wd_address walletData;
             sr_privateKey := wd_privateKey walletData;
             sr_credentialId := wd_credentialId walletData |})
    (fun error =>
       _ ← (if String.eqb (err_name error) "NotAllowedError" then
              statusCallback "❌" "Registration Cancelled" "You cancelled the biometric registration."
            else if String.eqb (err_name error) "NotSupportedError" then
              statusCallback "❌" "Not Supported"
                "Biometric authentication is not available on this device."
            else if negb (String.eqb (err_message error) EmptyString) && includes "ethers" (err_message error) then
              statusCallback "❌" "Missing Dependency"
                "ethers.js library not loaded. Please refresh the page."
            else
              statusCallback "❌" "Registration Failed" ("Error: " +:+ err_message error));
       throw error).




End WalletCreation.

(** ** The passkey variant of biometric-wallet-creation.js *)

Module PasskeyWallet.

(** Named [keccak256] in the script; the body is a SHA-256 digest in hex. *)
Definition keccak256 (data : list byte) : string :=
  let hash := SHA256.digest data in
  to_hex hash.

Definition deriveEthereumAddress (pubKey : list byte) : string :=
  let qx := slice 1 33 pubKey in
  let qy := slice 33 65 pubKey in
  let combined := Uint8Array_new 64 in
  let combined := typed_set combined qx 0 in
  let combined := typed_set combined qy 32 in
  let hash := keccak256 combined in
  "0x" +:+ substring_to 40 hash.


Record WalletData := mkWalletData {
  wd_address : string;
  wd_credentialId : string;
  wd_pubKey : list byte;
  wd_rawId : list byte }.

(** The creation options are those of the login script, field by field. *)
Definition createBiometricWallet : M WalletData :=
  env ← ask;
  if negb (has_PublicKeyCredential env)
  then throw (Error "Biometrics not supported on this device")
  else
    _ ← statusCallback "🔐" "Initializing..." "Preparing biometric registration...";
    challenge ← crypto_getRandomValues 32;
    userId ← crypto_getRandomValues 16;
    let publicKeyCredentialCreationOptions :=
      WalletCreation.creationOptions challenge userId (hostname env) in
    try_catch
      (_ ← statusCallback "👆" "Scan Biometric" "Please scan your fingerprint or face...";
       credential ← navigator_credentials_create publicKeyCredentialCreationOptions;
       _ ← statusCallback "🔑" "Generating Wallet..." "Deriving Ethereum address from public key...";
       pubKeyBuffer ← lift (match cred_getPublicKey credential with
                            | Some b => Ok b
                            | None => Throw (TypeError "credential.response.getPublicKey is not a function")
                            end);
       let pubKey := pubKeyBuffer in
       let address := deriveEthereumAddress pubKey in
       mret {| wd_address := address;
               wd_credentialId := cred_id credential;
               wd_pubKey := pubKey;
               wd_rawId := cred_rawId credential |})
      (fun error => throw error).

Definition register_request (walletData : WalletData) : Request :=
  {| req_method := "POST";
     req_url := "/bin/blockchain-aem/biometric-register";
     req_body := Some (json_object
       [("address", JStr (wd_address walletData));
        ("credentialId", JStr (wd_credentialId walletData));
        ("pubKey", bytes_array (wd_pubKey walletData));
        ("rawId", bytes_array (wd_rawId walletData))]) |}.

Definition registerBiometricWallet (walletData : WalletData) : M JsValue :=
  _ ← statusCallback "📡" "Registering..." "Registering wallet with validators...";
  try_catch
    (response ← js_fetch (register_request walletData);
     if negb (resp_ok response)
     then
       error ← lift (resp_json response);
       message ← lift (get_field error "message");
       throw (Error (js_ToString (js_or message (JStr "Registration failed"))))
     else
       result ← lift (resp_json response);
       mret result)
    (fun error => throw error).

Definition setupBiometricWallet : M string :=
  try_catch
    (walletData ← createBiometricWallet;
     registrationResult ← registerBiometricWallet walletData;
     _ ← localStorage_setItem "blockchain_aem_biometric_wallet" (wd_address walletData);
     _ ← localStorage_setItem "blockchain_aem_biometric_credential_id" (wd_credentialId walletData);
     let pubKeyBase64 := Base64.btoa (fromCharCode_apply (wd_pubKey walletData)) in
     _ ← localStorage_setItem "blockchain_aem_biometric_pubkey" pubKeyBase64;
     _ ← statusCallback "✅" "Wallet Created!"
           ("Address: " +:+ substring_to 10 (wd_address walletData) +:+ "..."
            +:+ newline +:+ newline
            +:+ "Your biometric wallet is ready. You can now sign in with Face ID/Touch ID!");
     mret (wd_address walletData))
    (fun error =>
       _ ← (if String.eqb (err_name error) "NotAllowedError" then
              statusCallback "❌" "Registration Cancelled" "You cancelled the biometric registration."
            else if String.eqb (err_name error) "NotSupportedError" then
              statusCallback "❌" "Not Supported"
                "Biometric authentication is not available on this device. Please use MetaMask instead."
            else
              statusCallback "❌" "Registration Failed" ("Error: " +:+ err_message error));
       throw error).

End PasskeyWallet.

(** ** The [BiometricManager] object *)

Module BiometricManager.

Definition isAvailable : M bool :=
  env ← ask;
  if negb (has_PublicKeyCredential env) then mret false
  else
    try_catch
      (available ← interact isUVPAA EvIsUVPAA;
       mret available)
      (fun error => mret false).

(** *** Helper methods *)

Definition _stringToArrayBuffer (str : string) : list byte := utf8_encode str.

Definition _arrayBufferToBase64 (buffer : list byte) : string :=
  let bytes := buffer in
  let binary :=
    fold_left (fun binary b => binary +:+ String (ascii_of_byte b) EmptyString) bytes EmptyString in
  Base64.btoa binary.

Definition _base64ToArrayBuffer (base64 : string) : Result (list byte) :=
  match Base64.atob base64 with
  | Throw e => Throw e
  | Ok binary =>
      let bytes := Uint8Array_new (String.length binary) in
      Ok (fold_left
            (fun bytes i =>
               <[i := match charCodeAt binary i with
                      | Some z => byte_of_Z z
                      | None => x00
                      end]> bytes)
            (seq 0 (String.length binary)) bytes)
  end.

Definition _base64UrlToBase64 (base64url : string) : string :=
  let base64 := replace_char "_" "/" (replace_char "-" "+" base64url) in
  let pad := (String.length base64 mod 4)%nat in
  if (pad =? 0)%nat then base64 else base64 +:+ repeat_char "=" (4 - pad).

Definition _base64UrlToArrayBuffer (base64url : string) : Result (list byte) :=
  _base64ToArrayBuffer (_base64UrlToBase64 base64url).

Definition _extractPublicKey (attestationResponse : Credential) : list byte :=
  let attestationObject := cred_attestationObject attestationResponse in
  match cred_getPublicKey attestationResponse with
  | Some k => k
  | None => Uint8Array_new 65
  end.

Definition _extractPublicKeyFromAssertion (assertionResponse : Assertion) : list byte :=
  Uint8Array_new 65.

Definition credential_key (walletAddress : string) : string :=
  "biometric_credential_" +:+ walletAddress.

Definition _storeCredentialId (walletAddress credentialId : string) : M unit :=
  let key := credential_key walletAddress in
  localStorage_setItem key credentialId.

Definition _getStoredCredentialId (walletAddress : string) : M (option string) :=
  let key := credential_key walletAddress in
  localStorage_getItem key.

(** [userId.startsWith('0x')]: only strings have the method. *)
Definition startsWith (v : JsValue) (p : string) : Result bool :=
  match v with
  | JStr s => Ok (String.prefix p s)
  | _ => Throw (TypeError "userId.startsWith is not a function")
  end.

Definition session_info_request : Request :=
  {| req_method := "GET"; req_url := "/system/sling/info.sessionInfo.json"; req_body := None |}.

Definition _getCurrentWalletAddress : M JsValue :=
  fromSession ←
    try_catch
      (response ← js_fetch session_info_request;
       if resp_ok response then
         data ← lift (resp_json response);
         userId ← lift (get_field data "userID");
         if truthy userId then
           starts ← lift (startsWith userId "0x");
           if (starts : bool) then mret (Some userId) else mret None
         else mret None
       else mret None)
      (fun error => mret None);
  match fromSession with
  | Some userId => mret userId
  | None =>
      env ← ask;
      match ethereum env with
      | Some request =>
          accounts ← ethereum_request request "eth_accounts" [];
          lift (get_index0 accounts)
      | None => mret JNull
      end
  end.

(** *** register *)

Definition creationOptions (challenge : list byte) (host walletAddress : string) : CreationOptions :=
  {| co_challenge := challenge;
     co_rp_name := "Blockchain AEM";
     co_rp_id := host;
     co_user_id := _stringToArrayBuffer walletAddress;
     co_user_name := walletAddress;
     co_user_displayName := "Wallet " +:+ substring_to 10 walletAddress +:+ "...";
     co_alg := -7;
     co_authenticatorAttachment := "platform";
     co_userVerification := "required";
     co_residentKey := Some "preferred";
     co_timeout := 60000;
     co_attestation := "none" |}.

Definition user_cancelled_registration : JsError :=
  Error "User cancelled biometric registration".

Definition register_request (walletAddress credentialId publicKeyBase64 deviceName : string)
    (walletSignature : JsValue) : Request :=
  {| req_method := "POST";
     req_url := "/bin/blockchain-aem/register-biometric";
     req_body := Some (json_object
       [("walletAddress", JStr walletAddress);
        ("credentialId", JStr credentialId);
        ("publicKey", JStr publicKeyBase64);
        ("deviceName", JStr deviceName);
        ("walletSignature", walletSignature)]) |}.

Record RegisterResult := mkRegisterResult {
  rr_success : bool;
  rr_credentialId : string;
  rr_walletAddress : string;
  rr_deviceName : option string }.

Definition register (walletAddress : string) (deviceName : option string) : M RegisterResult :=
  available ← isAvailable;
  if negb available then throw (Error "Biometric authentication not available")
  else
    challenge ← crypto_getRandomValues 32;
    env ← ask;
    let publicKeyCredentialCreationOptions :=
      creationOptions challenge (hostname env) walletAddress in
    credential ←
      try_catch
        (navigator_credentials_create publicKeyCredentialCreationOptions)
        (fun error =>
           if String.eqb (err_name error) "NotAllowedError"
           then throw user_cancelled_registration
           else throw (Error ("Biometric registration failed: " +:+ err_message error)));
    let publicKeyBytes := _extractPublicKey credential in
    let publicKeyBase64 := _arrayBufferToBase64 publicKeyBytes in
    let registrationMessage :=
      "Register biometric:" +:+ walletAddress +:+ ":" +:+ cred_id credential
                            +:+ ":" +:+ publicKeyBase64 in
    walletSignature ←
      match ethereum env with
      | Some request =>
          try_catch
            (ethereum_request request "personal_sign" [JStr registrationMessage; JStr walletAddress])
            (fun error => throw (Error ("Wallet signature failed: " +:+ err_message error)))
      | None => throw (Error "MetaMask not available for wallet signature")
      end;
    response ←
      js_fetch (register_request walletAddress (cred_id credential) publicKeyBase64
                  (if truthy_item deviceName then default EmptyString deviceName else userAgent env)
                  walletSignature);
    if negb (resp_ok response)
    then
      error ← lift (resp_json response);
      reason ← lift (get_field error "error");
      throw (Error (js_ToString (js_or reason (JStr "Registration failed"))))
    else
      result ← lift (resp_json response);
      _ ← _storeCredentialId walletAddress (cred_id credential);
      mret {| rr_success := true;
              rr_credentialId := cred_id credential;
              rr_walletAddress := walletAddress;
              rr_deviceName := deviceName |}.

(** *** signWriteProposal *)

Definition challenge_url (path content : string) : string :=
  "/bin/blockchain-aem/propose-write-biometric?path=" +:+ encodeURIComponent path
    +:+ "&content=" +:+ encodeURIComponent content.

Definition challenge_request (path content : string) : Request :=
  {| req_method := "GET"; req_url := challenge_url path content; req_body := None |}.

Definition requestOptions (challengeBytes credentialIdBytes : list byte) : RequestOptions :=
  {| ro_challenge := challengeBytes;
     ro_allowCredentials := [(credentialIdBytes, "public-key")];
     ro_userVerification := "required";
     ro_timeout := 60000 |}.

Definition user_cancelled_authentication : JsError :=
  Error "User cancelled biometric authentication".

(** [tier || 0] *)
Definition tier_or_0 (tier : option Z) : Z := default 0 tier.

Definition proposal_request (proposalId walletAddress : JsValue)
    (credentialId signatureBase64 publicKeyBase64 : string) (challenge : JsValue)
    (path content : string) (tier : option Z) : Request :=
  {| req_method := "POST";
     req_url := "/bin/blockchain-aem/propose-write-biometric";
     req_body := Some (json_object
       [("proposalId", proposalId);
        ("walletAddress", walletAddress);
        ("credentialId", JStr credentialId);
        ("signature", JStr signatureBase64);
        ("publicKey", JStr publicKeyBase64);
        ("challenge", challenge);
        ("path", JStr path);
        ("content", JStr content);
        ("tier", JNum (tier_or_0 tier))]) |}.

Definition signWriteProposal (path content : string) (tier : option Z) : M JsValue :=
  available ← isAvailable;
  if negb available then throw (Error "Biometric authentication not available")
  else
    walletAddress ← _getCurrentWalletAddress;
    if negb (truthy walletAddress) then throw (Error "Not authenticated with wallet")
    else
      credentialId ← _getStoredCredentialId (js_ToString walletAddress);
      if negb (truthy_item credentialId)
      then throw (Error "No passkey registered for this wallet. Please register first.")
      else
        let credentialId := default EmptyString credentialId in
        challengeResponse ← js_fetch (challenge_request path content);
        if negb (resp_ok challengeResponse)
        then
          error ← lift (resp_json challengeResponse);
          reason ← lift (get_field error "error");
          throw (Error (js_ToString (js_or reason (JStr "Challenge generation failed"))))
        else
          challengeData ← lift (resp_json challengeResponse);
          challenge ← lift (get_field challengeData "challenge");
          challengeBytes ← lift (_base64ToArrayBuffer (js_ToString challenge));
          proposalId ← lift (get_field challengeData "proposalId");
          credentialIdBytes ← lift (_base64UrlToArrayBuffer credentialId);
          let publicKeyCredentialRequestOptions :=
            requestOptions challengeBytes credentialIdBytes in
          assertion ←
            try_catch
              (navigator_credentials_get publicKeyCredentialRequestOptions)
              (fun error =>
                 if String.eqb (err_name error) "NotAllowedError"
                 then throw user_cancelled_authentication
                 else throw (Error ("Biometric authentication failed: " +:+ err_message error)));
          let signature := assertion_signature assertion in
          let signatureBase64 := _arrayBufferToBase64 signature in
          let publicKey := _extractPublicKeyFromAssertion assertion in
          let publicKeyBase64 := _arrayBufferToBase64 publicKey in
          proposalResponse ←
            js_fetch (proposal_request proposalId walletAddress credentialId signatureBase64
                        publicKeyBase64 challenge path content tier);
          if negb (resp_ok proposalResponse)
          then
            error ← lift (resp_json proposalResponse);
            reason ← lift (get_field error "error");
            throw (Error (js_ToString (js_or reason (JStr "Proposal submission failed"))))
          else
            result ← lift (resp_json proposalResponse);
            mret result.

End BiometricManager.

(** ** Running a script *)

Definition result_of {A} (m : M A) (env : Env) (w : World) : Result A := fst (m env w).
Definition world_after {A} (m : M A) (env : Env) (w : World) : World := snd (m env w).

(** The events a run adds to the trace. *)
Definition events_of {A} (m : M A) (env : Env) (w : World) : list Event :=
  drop (length (trace w)) (trace (world_after m env w)).

Definition is_prompt (e : Event) : bool :=
  match e with
  | EvCreate _ | EvGet _ => true
  | _ => false
  end.

Definition is_fetch (e : Event) : bool :=
  match e with
  | EvFetch _ => true
  | _ => false
  end.

Definition is_post (e : Event) : bool :=
  match e with
  | EvFetch r => String.eqb (req_method r) "POST"
  | _ => false
  end.

(** The property of a request body. *)
Definition body_field (r : Request) (k : string) : JsValue :=
  match req_body r with
  | Some (JObj fields) => assoc k fields
  | _ => JUndefined
  end.

(** ** Notions of the specification *)

(** A well-formed public key of the registration curve (specification,
    section 4.2): an uncompressed point [0x04 || X || Y] of P-256 with
    [(X, Y)] on the curve. The scripts never test this. *)
Module P256.

Definition p : Z := 2 ^ 256 - 2 ^ 224 + 2 ^ 192 + 2 ^ 96 - 1.
Definition b : Z := 0x5ac635d8aa3a93e7b3ebbd55769886bc651d06b0cc53b0f63bce3c3e27d2604b.
Definition Gx : Z := 0x6b17d1f2e12c4247f8bce6e563a440f277037d812deb33a0f4a13945d898c296.
Definition Gy : Z := 0x4fe342e2fe1a7f9b8ee7eb4a7c0f9e162bce33576b315ececbb6406837bf51f5.

Definition on_curve (x y : Z) : bool :=
  (y * y - (x * x * x - 3 * x + b)) mod p =? 0.

Definition be_Z (bs : list byte) : Z := fold_left (fun acc c => acc * 256 + byte_to_Z c) bs 0.

Definition well_formed (k : list byte) : bool :=
  match k with
  | x04 :: coords =>
      (length coords =? 64)%nat
      && (be_Z (take 32 coords) <? p) && (be_Z (drop 32 coords) <? p)
      && on_curve (be_Z (take 32 coords)) (be_Z (drop 32 coords))
  | _ => false
  end.

Definition encode_point (x y : Z) : list byte :=
  x04 :: map byte_of_Z (SHA256.be_bytes 32 x ++ SHA256.be_bytes 32 y).

(** The base point, and the all-zero encoding the specification calls the
    zero point. *)
Definition generator : list byte := Eval vm_compute in encode_point Gx Gy.
Definition zero_point : list byte := x04 :: repeat x00 64.

End P256.

(** The shortcut the specification rules out (section 9): the leading hex
    digits of the hash of the coordinates, used as the address. *)
Definition truncated_hash_address (coords : list byte) : string :=
  "0x" +:+ substring_to 40 (to_hex (SHA256.digest coords)).

(** Modelled from the spec: the registry's challenge store and proposal
    verification, the service behind
    [/bin/blockchain-aem/propose-write-biometric]. The client scripts call
    it and do not contain it. The model follows the Challenge and
    SignedProposal data (section 3), the Verifying transition (section 4.4)
    and the error taxonomy (section 7). *)
Module Verifier.

Record Challenge := mkChallenge {
  ch_nonce : string;
  ch_proposalId : string;
  ch_path : string;
  ch_digest : string;
  ch_tier : Z;
  ch_issued : Z;
  ch_expiry : Z }.

Record SignedProposal := mkSignedProposal {
  sp_proposalId : string;
  sp_nonce : string;
  sp_path : string;
  sp_digest : string;
  sp_tier : Z;
  sp_signature : list byte;
  sp_publicKey : list byte }.

Inductive Reason : Type :=
  | ChallengeConsumed
  | ChallengeExpired
  | SignatureMismatch
  | UnknownChallenge.

Inductive Receipt : Type :=
  | Signed
  | Rejected (reason : Reason).

(** The issued challenges by nonce, and the nonces already consumed. *)
Record Registry := mkRegistry {
  challenges : gmap string Challenge;
  consumed : gset string }.

Definition consume (nonce : string) (r : Registry) : Registry :=
  mkRegistry (challenges r) ({[nonce]} ∪ consumed r).

(** The proposal names the path, digest, tier and proposal the challenge
    was issued for. *)
Definition binds (c : Challenge) (p : SignedProposal) : bool :=
  String.eqb (ch_proposalId c) (sp_proposalId p) && String.eqb (ch_path c) (sp_path p)
  && String.eqb (ch_digest c) (sp_digest p) && (ch_tier c =? sp_tier p).

Inductive Call : Type :=
  | Issue (c : Challenge)
  | Submit (now : Z) (p : SignedProposal).

Section Verification.

(** Whether the assertion signature validates against the registered
    credential's public key over the challenge; left open. *)
Variable assertion_valid : Challenge -> SignedProposal -> bool.

(** Modelled from the spec: issuing a challenge (the challenge service of
    section 6, missing from the client sources) records it under its
    nonce. *)
Definition issue (c : Challenge) (r : Registry) : Registry :=
  mkRegistry (<[ch_nonce c := c]> (challenges r)) (consumed r).

(** Modelled from the spec: the verification of a submitted proposal (the
    proposal service of section 6, missing from the client sources). A
    consumed nonce is refused first, whatever else holds; an expired
    challenge is refused and marked consumed; a valid assertion over the
    issued binding consumes the challenge. *)
Definition submit (now : Z) (p : SignedProposal) (r : Registry) : Receipt * Registry :=
  if decide (sp_nonce p ∈ consumed r) then (Rejected ChallengeConsumed, r)
  else
    match challenges r !! sp_nonce p with
    | None => (Rejected UnknownChallenge, r)
    | Some c =>
        if ch_expiry c <? now then (Rejected ChallengeExpired, consume (sp_nonce p) r)
        else if binds c p && assertion_valid c p then (Signed, consume (sp_nonce p) r)
        else (Rejected SignatureMismatch, r)
    end.

(** A history of calls; the receipts of the submissions come back with the
    nonce each referred to. *)
Fixpoint run (calls : list Call) (r : Registry) : list (string * Receipt) * Registry :=
  match calls with
  | [] => ([], r)
  | Issue c :: rest => run rest (issue c r)
  | Submit now p :: rest =>
      let '(receipt, r') := submit now p r in
      let '(receipts, r'') := run rest r' in
      ((sp_nonce p, receipt) :: receipts, r'')
  end.

Definition accepted (nonce : string) (receipts : list (string * Receipt)) : nat :=
  length (List.filter
            (fun nr => String.eqb (fst nr) nonce
                       && match snd nr with Signed => true | Rejected _ => false end)
            receipts).

End Verification.

End Verifier.

(** ** The runs of [register] and [signWriteProposal] *)

Section Runs.
Import BiometricManager.
Variable env : Env.

Section SignRuns.
Variables (path content : string) (tier : option Z).

(** What [signWriteProposal] may do before it prompts. *)
Definition before_prompt (e : Event) : Prop :=
  e = EvIsUVPAA \/ e = EvFetch session_info_request
  \/ e = EvEthereum "eth_accounts" [] \/ e = EvFetch (challenge_request path content).

Definition is_proposal (req : Request) (a : Assertion) : Prop :=
  exists proposalId walletAddress credentialId challenge,
    req = proposal_request proposalId walletAddress credentialId
            (_arrayBufferToBase64 (assertion_signature a))
            (_arrayBufferToBase64 (Uint8Array_new 65))
            challenge path content tier.

Definition authentication_error (err : JsError) : JsError :=
  if String.eqb (err_name err) "NotAllowedError" then user_cancelled_authentication
  else Error ("Biometric authentication failed: " +:+ err_message err).

(** The runs of [signWriteProposal], read off the events [new] it adds
    after the trace [tr]: some steps before the prompt, then either a stop
    with an error, or the prompt; a failed prompt ends the run, a granted
    one is followed by exactly one POST of the proposal, whose outcome is
    the result. *)
Fixpoint sign_run (tr new : list Event) (r : Result JsValue) : Prop :=
  match new with
  | [] => exists e, r = Throw e
  | EvGet o :: rest =>
      match credentials_get env tr o with
      | Throw err => rest = [] /\ r = Throw (authentication_error err)
      | Ok a =>
          exists req, rest = [EvFetch req] /\ is_proposal req a
            /\ match fetch env (tr ++ [EvGet o]) req with
               | Throw e => r = Throw e
               | Ok resp => if resp_ok resp then r = resp_json resp else exists e, r = Throw e
               end
      end
  | e :: rest => before_prompt e /\ sign_run (tr ++ [e]) rest r
  end.

End SignRuns.

Section RegisterRuns.
Variables (walletAddress : string) (deviceName : option string).

Definition before_registration (e : Event) : Prop := e = EvIsUVPAA \/ e = EvRandom 32.

Definition registration_error (err : JsError) : JsError :=
  if String.eqb (err_name err) "NotAllowedError" then user_cancelled_registration
  else Error ("Biometric registration failed: " +:+ err_message err).

(** What [register] may do once the credential [c] exists: ask the wallet
    for its signature and POST the registration. *)
Definition after_prompt (c : Credential) (e : Event) : Prop :=
  (exists message, e = EvEthereum "personal_sign" [JStr message; JStr walletAddress])
  \/ (exists device signature,
        e = EvFetch (register_request walletAddress (cred_id c)
                       (_arrayBufferToBase64 (_extractPublicKey c)) device signature)).

Definition store_credential (stored : option string) (ls : gmap string string) :
    gmap string string :=
  match stored with
  | None => ls
  | Some credentialId => <[credential_key walletAddress := credentialId]> ls
  end.

(** The runs of [register]: an availability check and a random challenge,
    then the prompt; a failed prompt ends the run; after a granted one the
    credential id is stored exactly when the run succeeds. *)
Fixpoint register_run (tr new : list Event) (r : Result RegisterResult)
    (stored : option string) : Prop :=
  match new with
  | [] => stored = None /\ exists e, r = Throw e
  | EvCreate o :: rest =>
      match credentials_create env tr o with
      | Throw err => rest = [] /\ stored = None /\ r = Throw (registration_error err)
      | Ok c =>
          Forall (after_prompt c) rest
          /\ ((stored = None /\ exists e, r = Throw e)
              \/ (stored = Some (cred_id c)
                  /\ r = Ok (mkRegisterResult true (cred_id c) walletAddress deviceName)))
      end
  | e :: rest => before_registration e /\ register_run (tr ++ [e]) rest r stored
  end.

End RegisterRuns.

End Runs.

(** The session names a wallet: the session request is answered, ok, with
    a body whose [userID] is a string starting with [0x]. *)
Definition session_names (env : Env) (tr : list Event) (userId : string) : Prop :=
  exists response data,
    fetch env tr BiometricManager.session_info_request = Ok response
    /\ resp_ok response = true
    /\ resp_json response = Ok data
    /\ get_field data "userID" = Ok (JStr userId)
    /\ String.prefix "0x" userId = true.

(** ** What the prompt of [signWriteProposal] is bound to *)

Section PromptRuns.
Import BiometricManager.
Variables (env : Env) (ls : gmap string string) (path content : string).

(** A passkey is on file for the wallet. *)
Definition passkey_on_file (walletAddress : JsValue) (credentialId : string) : Prop :=
  truthy walletAddress = true
  /\ ls !! credential_key (js_ToString walletAddress) = Some credentialId
  /\ credentialId <> EmptyString.

(** The prompt [o] asks for a signature over the challenge the server
    [issued], by the passkey on file; every request after the prompt
    carries that challenge, that passkey's id and the wallet address. *)
Definition prompt_bound (issued : Result Response) (o : RequestOptions) (rest : list Event) :
    Prop :=
  exists walletAddress credentialId response challengeData challenge challengeBytes
         credentialIdBytes,
    passkey_on_file walletAddress credentialId
    /\ issued = Ok response
    /\ resp_ok response = true
    /\ resp_json response = Ok challengeData
    /\ get_field challengeData "challenge" = Ok challenge
    /\ _base64ToArrayBuffer (js_ToString challenge) = Ok challengeBytes
    /\ _base64UrlToArrayBuffer credentialId = Ok credentialIdBytes
    /\ o = requestOptions challengeBytes credentialIdBytes
    /\ Forall (fun e => exists req,
                 e = EvFetch req
                 /\ body_field req "challenge" = challenge
                 /\ body_field req "credentialId" = JStr credentialId
                 /\ body_field req "walletAddress" = walletAddress) rest.

(** The runs of [signWriteProposal], read for what the prompt depends on:
    the challenge request comes only with a passkey on file, and the
    prompt only right after the challenge request. *)
Fixpoint prompt_run (tr new : list Event) : Prop :=
  match new with
  | [] => True
  | EvGet _ :: _ => False
  | EvFetch req :: rest =>
      match rest with
      | EvGet o :: rest' =>
          req = challenge_request path content /\ prompt_bound (fetch env tr req) o rest'
      | _ =>
          (req = session_info_request
           \/ (req = challenge_request path content
               /\ exists walletAddress credentialId, passkey_on_file walletAddress credentialId))
          /\ prompt_run (tr ++ [EvFetch req]) rest
      end
  | e :: rest => prompt_run (tr ++ [e]) rest
  end.

End PromptRuns.

(** An event that is neither the signing prompt nor a request other than
    the session lookup. *)
Definition lookup_only (e : Event) : Prop :=
  match e with
  | EvGet _ => False
  | EvFetch req => req = BiometricManager.session_info_request
  | _ => True
  end.


(** ** What [register] asks the authenticator and the wallet *)

Section RegistrationRuns.
Import BiometricManager.
Variables (env : Env) (walletAddress : string) (deviceName : option string).

(** The message [register] has the wallet sign for the credential [c]. *)
Definition registrationMessage (c : Credential) : string :=
  "Register biometric:" +:+ walletAddress +:+ ":" +:+ cred_id c
    +:+ ":" +:+ _arrayBufferToBase64 (_extractPublicKey c).

(** The device name [register] posts: [deviceName || navigator.userAgent]. *)
Definition posted_deviceName : string :=
  if truthy_item deviceName then default EmptyString deviceName else userAgent env.

(** After the credential [c] was created: nothing more, or the request for
    the wallet's signature over the registration message, or that request
    and the one POST, which carries the signature the wallet gave. *)
Definition signed_then_posted (c : Credential) (tr rest : list Event) : Prop :=
  match rest with
  | [] => True
  | EvEthereum method params :: rest' =>
      method = "personal_sign"%string
      /\ params = [JStr (registrationMessage c); JStr walletAddress]
      /\ match rest' with
         | [] => True
         | [EvFetch req] =>
             exists request walletSignature,
               ethereum env = Some request
               /\ request tr method params = Ok walletSignature
               /\ req = register_request walletAddress (cred_id c)
                          (_arrayBufferToBase64 (_extractPublicKey c))
                          posted_deviceName walletSignature
         | _ => False
         end
  | _ => False
  end.

(** The runs of [register], read for what the prompt and the wallet are
    asked: the prompt comes right after the draw of 32 random bytes, which
    are its challenge. *)
Fixpoint registration_run (tr new : list Event) : Prop :=
  match new with
  | [] => True
  | EvCreate _ :: _ => False
  | EvRandom n :: rest =>
      match rest with
      | EvCreate o :: rest' =>
          n = 32%nat
          /\ o = creationOptions (getRandomValues env tr n) (hostname env) walletAddress
          /\ match credentials_create env (tr ++ [EvRandom n]) o with
             | Throw _ => rest' = []
             | Ok c => signed_then_posted c ((tr ++ [EvRandom n]) ++ [EvCreate o]) rest'
             end
      | _ => False
      end
  | e :: rest => registration_run (tr ++ [e]) rest
  end.

End RegistrationRuns.

(** A GET to the challenge endpoint. *)
Definition is_challenge_request (e : Event) : bool :=
  match e with
  | EvFetch r =>
      String.eqb (req_method r) "GET"
      && String.prefix "/bin/blockchain-aem/propose-write-biometric" (req_url r)
  | _ => false
  end.

(** The requests [signWriteProposal] makes for [(path, content, tier)]:
    the session lookup, the challenge request, and the proposal. *)
Definition sign_request (path content : string) (tier : option Z) (e : Event) : Prop :=
  match e with
  | EvFetch req =>
      req = BiometricManager.session_info_request
      \/ req = BiometricManager.challenge_request path content
      \/ (req_method req = "POST"%string
          /\ body_field req "path" = JStr path
          /\ body_field req "content" = JStr content
          /\ body_field req "tier" = JNum (BiometricManager.tier_or_0 tier))
  | _ => True
  end.

(** The [publicKey] a proposal carries is the encoding of 65 zero bytes. *)
Definition placeholder_publicKey (e : Event) : Prop :=
  match e with
  | EvFetch req =>
      req_method req = "POST"%string ->
      body_field req "publicKey"
      = JStr (BiometricManager._arrayBufferToBase64 (Uint8Array_new 65))
  | _ => True
  end.

(** What [setupBiometricWallet] tells its caller after a cancellation. *)
Definition registration_cancelled_status : Event :=
  EvStatus "❌" "Registration Cancelled" "You cancelled the biometric registration.".

(** ** A concrete browser, to run the scripts on *)

Module Demo.

Definition wallet : string := "0x00000000000000000000000000000000000000aa".

Definition credential : Credential :=
  {| cred_id := "AQID";
     cred_rawId := [x01; x02; x03];
     cred_getPublicKey := Some P256.generator;
     cred_attestationObject := [] |}.

Definition assertion : Assertion :=
  {| assertion_signature := [x30; x06; x02; x01; x07; x02; x01; x09] |}.

(** A stand-in for the [ethers] library, enough to run the scripts: it
    keeps the key it is given and labels the other two properties; the
    values are not those of secp256k1. *)
Definition ethers_stub (privateKeyHex : string) : Result Wallet :=
  Ok {| wallet_address := "0xaddress-of-" +:+ substring_to 10 privateKeyHex;
        wallet_privateKey := privateKeyHex;
        wallet_publicKey := "0x04-public-key-of-" +:+ substring_to 10 privateKeyHex |}.

Definition challenge_response : Response :=
  mkResponse true (Ok (JObj [("challenge", JStr "3q2+7w=="); ("proposalId", JStr "proposal-1")])).

Definition session_response : Response :=
  mkResponse true (Ok (JObj [("userID", JStr wallet)])).

Definition accepted : Response :=
  mkResponse true (Ok (JObj [("status", JStr "accepted")])).

(** A server that knows the session and issues a challenge; what it
    answers to a POST is a parameter. *)
Definition server (post : Result Response) (tr : list Event) (r : Request) : Result Response :=
  if String.eqb (req_method r) "POST" then post
  else if String.eqb (req_url r) "/system/sling/info.sessionInfo.json" then Ok session_response
  else Ok challenge_response.

Definition env (create : Result Credential) (get : Result Assertion)
    (post : Result Response) : Env :=
  {| has_PublicKeyCredential := true;
     isUVPAA := fun _ => Ok true;
     credentials_create := fun _ _ => create;
     credentials_get := fun _ _ => get;
     fetch := server post;
     ethereum := Some (fun _ _ _ => Ok (JStr "0xsignature"));
     ethers := Some ethers_stub;
     getRandomValues := fun _ n => repeat x2a n;
     hostname := "localhost";
     userAgent := "Browser" |}.

Definition cancelled : JsError :=
  mkError "NotAllowedError" "The operation either timed out or was not allowed.".

Definition failed_to_fetch : JsError := TypeError "Failed to fetch".

(** The user grants every prompt and the server accepts; the same with
    the network down when the proposal is posted; and the user declining
    every prompt. *)
Definition granted : Env := env (Ok credential) (Ok assertion) (Ok accepted).
Definition offline : Env := env (Ok credential) (Ok assertion) (Throw failed_to_fetch).
Definition declined : Env := env (Throw cancelled) (Throw cancelled) (Ok accepted).

(** Nothing stored yet. *)
Definition fresh : World := mkWorld ∅ ∅ [].

(** The passkey of [wallet] is on file. *)
Definition registered : World :=
  mkWorld {[ BiometricManager.credential_key wallet := "AQID"%string ]} ∅ [].


(** A browser without Web Authentication, and one without a wallet
    extension. *)
Definition without_authenticator : Env :=
  {| has_PublicKeyCredential := false;
     isUVPAA := fun _ => Ok true;
     credentials_create := fun _ _ => Ok credential;
     credentials_get := fun _ _ => Ok assertion;
     fetch := server (Ok accepted);
     ethereum := Some (fun _ _ _ => Ok (JStr "0xsignature"));
     ethers := Some ethers_stub;
     getRandomValues := fun _ n => repeat x2a n;
     hostname := "localhost";
     userAgent := "Browser" |}.

Definition without_extension : Env :=
  {| has_PublicKeyCredential := true;
     isUVPAA := fun _ => Ok true;
     credentials_create := fun _ _ => Ok credential;
     credentials_get := fun _ _ => Ok assertion;
     fetch := server (Ok accepted);
     ethereum := None;
     ethers := Some ethers_stub;
     getRandomValues := fun _ n => repeat x2a n;
     hostname := "localhost";
     userAgent := "Browser" |}.

End Demo.


(** ** A concrete registry *)

Module DemoRegistry.

Definition challenge : Verifier.Challenge :=
  Verifier.mkChallenge "nonce-1" "proposal-1" "/x" "d1" 0 100 160.

Definition proposal (signature : list byte) : Verifier.SignedProposal :=
  Verifier.mkSignedProposal "proposal-1" "nonce-1" "/x" "d1" 0 signature [x04].

Definition registry : Verifier.Registry :=
  Verifier.issue challenge (Verifier.mkRegistry ∅ ∅).

Definition always_valid (c : Verifier.Challenge) (p : Verifier.SignedProposal) : bool := true.

End DemoRegistry.

(** ** Decoders and recognisers, to state what an encoding keeps *)

(** A lowercase hexadecimal digit, its value, and the byte two of them
    denote. *)
Definition is_lower_hex (c : ascii) : bool :=
  ((48 <=? code c) && (code c <=? 57)) || ((97 <=? code c) && (code c <=? 102)).

Definition hex_value (c : ascii) : Z :=
  if code c <=? 57 then code c - 48 else code c - 87.

Definition unhex2 (s : string) : byte :=
  match s with
  | String h (String l _) => byte_of_Z (hex_value h * 16 + hex_value l)
  | _ => x00
  end.

(** [credential.id] as the browser computes it from [credential.rawId]
    (Web Authentication: base64url, no padding): the base64 text with [+]
    and [/] replaced by [-] and [_] and the padding removed. *)
Definition base64url (bytes : list byte) : string :=
  replace_char "/" "_" (replace_char "+" "-"
    (string_of_list_ascii (Base64.strip_end (Base64.encode (map ascii_of_byte bytes))))).

(** What [replace_char] does to one character. *)
Definition swap_char (a b c : ascii) : ascii := if Ascii.eqb c a then b else c.

(** A character that is neither [-] nor [_]. *)
Definition url_free (c : ascii) : Prop :=
  Ascii.eqb c "-" = false /\ Ascii.eqb c "_" = false.

(** What [encodeURIComponent] writes for one character. *)
Definition encoded_char (c : ascii) : string :=
  if uri_unreserved c then String c EmptyString
  else fold_right (fun b acc => percent b +:+ acc) EmptyString (utf8_char c).

(** The value of an uppercase hexadecimal digit, and the character at the
    head of an [encodeURIComponent] text: one kept as it is, or one or two
    percent-escaped UTF-8 bytes. *)
Definition upper_hex_value (c : ascii) : Z :=
  if code c <=? 57 then code c - 48 else code c - 55.

Definition decode_head (s : string) : option (ascii * string) :=
  match s with
  | EmptyString => None
  | String "%" (String h (String l rest)) =>
      let b := upper_hex_value h * 16 + upper_hex_value l in
      if b <? 128 then Some (chr b, rest)
      else
        match rest with
        | String "%" (String h' (String l' rest')) =>
            Some (chr ((b - 192) * 64 + (upper_hex_value h' * 16 + upper_hex_value l' - 128)),
                  rest')
        | _ => None
        end
  | String c rest => Some (c, rest)
  end.

(** One percent escape at the head of a text, as a number. *)
Definition read_escape (s : string) : option (Z * string) :=
  match s with
  | String "%" (String h (String l rest)) =>
      Some (upper_hex_value h * 16 + upper_hex_value l, rest)
  | _ => None
  end.

(** The code units of the code point at the head of an
    [Utf16.encodeURIComponent] text: one to four escaped octets, or a
    character copied as it is. *)
Definition decode_units (s : string) : option (Utf16.Text * string) :=
  match read_escape s with
  | Some (n0, r0) =>
      if n0 <? 128 then Some ([n0], r0)
      else
        match read_escape r0 with
        | None => None
        | Some (n1, r1) =>
            if n0 <? 224 then Some ([(n0 - 192) * 64 + (n1 - 128)], r1)
            else
              match read_escape r1 with
              | None => None
              | Some (n2, r2) =>
                  if n0 <? 240
                  then Some ([(n0 - 224) * 4096 + (n1 - 128) * 64 + (n2 - 128)], r2)
                  else
                    match read_escape r2 with
                    | None => None
                    | Some (n3, r3) =>
                        let cp := (n0 - 240) * 262144 + (n1 - 128) * 4096
                                  + (n2 - 128) * 64 + (n3 - 128) in
                        Some ([55296 + (cp - 65536) / 1024; 56320 + (cp - 65536) mod 1024],
                              r3)
                    end
              end
        end
  | None =>
      match s with
      | EmptyString => None
      | String c r => Some ([code c], r)
      end
  end.

(** Whether a string holds the character [&]. *)
Fixpoint has_ampersand (s : string) : bool :=
  match s with
  | EmptyString => false
  | String c r => Ascii.eqb c "&" || has_ampersand r
  end.

(** ** Proof tools *)

(** What decoding sees of an encoding: no whitespace to drop, a length
    that is a multiple of four, and, once the padding is stripped, sextets
    that decode to the original characters. *)
Record decodes (l : list ascii) : Prop := {
  dec_clean :
    List.filter (fun c => negb (Base64.is_ascii_whitespace c)) (Base64.encode l)
    = Base64.encode l;
  dec_len : exists q, length (Base64.encode l) = (4 * q)%nat;
  dec_body : exists sx r q,
      Base64.sextets_of (Base64.strip_end (Base64.encode l)) = Some sx
      /\ Base64.decode_groups sx = l
      /\ length (Base64.strip_end (Base64.encode l)) = (4 * q + r)%nat
      /\ (r = 0 \/ r = 2 \/ r = 3)%nat }.

Ltac euclid := Z.to_euclidean_division_equations; lia.

Ltac unfold_monad :=
  cbv beta iota zeta delta
    [mbind M_bind mret M_ret throw try_catch lift ask emit interact
     statusCallback crypto_getRandomValues navigator_credentials_create
     navigator_credentials_get js_fetch ethereum_request
     localStorage_setItem localStorage_getItem
     sessionStorage_setItem sessionStorage_getItem
     result_of world_after events_of fst snd negb
     localStorage sessionStorage trace].

(** Case analysis on the innermost scrutinee the goal is stuck on. *)
Ltac split_run :=
  match goal with
  | |- context [match ?x with _ => _ end] =>
      lazymatch x with
      | context [match _ with _ => _ end] => fail
      | _ => destruct x eqn:?
      end
  end.

Ltac run_script := unfold_monad; repeat (split_run; unfold_monad).

(** The events added to a trace that was extended step by step. *)
Ltac new_events :=
  first [rewrite <- ?app_assoc; reflexivity | symmetry; apply app_nil_r].

Ltac run_step :=
  match goal with
  | |- _ /\ _ => split
  | |- Forall _ [] => constructor
  | |- Forall _ (_ :: _) => constructor
  | |- exists _, _ => eexists
  | |- _ \/ _ => solve [eauto 8]
  | H : ?x = _ |- context [match ?x with _ => _ end] => rewrite H
  | |- _ = _ => first [reflexivity | congruence]
  end.

(** * Proofs *)

(** ** [atob] undoes [btoa] *)

Section Base64Facts.
Import Base64.
Local Open Scope Z_scope.

#[local] Arguments Z.mul : simpl never.
#[local] Arguments Z.add : simpl never.
#[local] Arguments Z.div : simpl never.
#[local] Arguments Z.modulo : simpl never.
#[local] Arguments char_of : simpl never.
#[local] Arguments index_of : simpl never.
#[local] Arguments is_ascii_whitespace : simpl never.
#[local] Arguments chr : simpl never.

Lemma code_range c : 0 <= code c < 256.
Proof.
  unfold code. pose proof (N_ascii_bounded c). lia.
Qed.

Lemma chr_code c : chr (code c) = c.
Proof.
  unfold chr, code. rewrite N2Z.id. apply ascii_N_embedding.
Qed.

Lemma alphabet_facts n :
  0 <= n < 64 ->
  index_of (char_of n) = Some n /\ is_ascii_whitespace (char_of n) = false
  /\ Ascii.eqb (char_of n) "=" = false.
Proof.
  intros Hn.
  assert (Hk : exists k : nat, n = Z.of_nat k /\ (k < 64)%nat).
  { exists (Z.to_nat n). lia. }
  destruct Hk as (k & -> & Hk).
  do 64 (destruct k as [|k]; [vm_compute; auto |]).
  lia.
Qed.

Lemma sextet_range n k : 0 <= n / k mod 64 < 64.
Proof. apply Z.mod_pos_bound. lia. Qed.

Lemma low_sextet_range n : 0 <= n mod 64 < 64.
Proof. apply Z.mod_pos_bound. lia. Qed.

Lemma strip_end_cons c l :
  Ascii.eqb c "=" = false -> strip_end (c :: l) = c :: strip_end l.
Proof.
  intros Hc. destruct l as [|d [|e l]]; simpl; rewrite ?Hc; reflexivity.
Qed.

Lemma list_ind3 {A} (P : list A -> Prop) :
  P [] -> (forall a, P [a]) -> (forall a b, P [a; b]) ->
  (forall a b c l, P l -> P (a :: b :: c :: l)) ->
  forall l, P l.
Proof.
  intros H0 H1 H2 H3.
  assert (H : forall l, P l /\ (forall a, P (a :: l)) /\ (forall a b, P (a :: b :: l))).
  { induction l as [|x l (IH0 & IH1 & IH2)]; [now auto|].
    repeat split; auto. }
  intros l. apply H.
Qed.

Lemma group1 x :
  0 <= x < 256 ->
  let n := x * 65536 in
  0 <= n / 262144 < 64 /\ (n / 262144 * 64 + n / 4096 mod 64) / 16 = x.
Proof.
  intros Hx n.
  assert (H1 : n / 4096 = x * 16) by (subst n; euclid).
  assert (H2 : n / 262144 = x / 4) by (subst n; euclid).
  rewrite H1, H2. split; euclid.
Qed.

Lemma group2 x y :
  0 <= x < 256 -> 0 <= y < 256 ->
  let n := x * 65536 + y * 256 in
  let m := (n / 262144 * 64 + n / 4096 mod 64) * 64 + n / 64 mod 64 in
  0 <= n / 262144 < 64 /\ m / 1024 = x /\ m / 4 mod 256 = y.
Proof.
  intros Hx Hy n m.
  assert (Hm : m = n / 64) by (subst m; euclid).
  assert (Hn : n / 64 = x * 1024 + y * 4) by (subst n; euclid).
  rewrite Hm, Hn. subst n. repeat split; euclid.
Qed.

Lemma group3 x y z :
  0 <= x < 256 -> 0 <= y < 256 -> 0 <= z < 256 ->
  let n := x * 65536 + y * 256 + z in
  let m := ((n / 262144 * 64 + n / 4096 mod 64) * 64 + n / 64 mod 64) * 64 + n mod 64 in
  0 <= n / 262144 < 64 /\ m / 65536 = x /\ m / 256 mod 256 = y /\ m mod 256 = z.
Proof.
  intros Hx Hy Hz n m.
  assert (Hm : m = n) by (subst m; euclid).
  rewrite Hm. subst n. repeat split; euclid.
Qed.

Lemma encode_decodes l : decodes l.
Proof.
  induction l as [| a | a b | a b c l IH] using list_ind3.
  - split; [reflexivity | exists 0%nat; reflexivity |].
    exists [], 0%nat, 0%nat. simpl. repeat split; auto.
  - destruct (group1 (code a) (code_range a)) as (H0 & H1).
    destruct (alphabet_facts _ H0) as (I0 & W0 & E0).
    destruct (alphabet_facts _ (sextet_range (code a * 65536) 4096)) as (I1 & W1 & E1).
    split.
    + simpl. rewrite W0, W1. reflexivity.
    + exists 1%nat. reflexivity.
    + eexists _, 2%nat, 0%nat. simpl. rewrite I0, I1.
      split; [reflexivity |]. simpl. rewrite H1, chr_code. repeat split; auto.
  - destruct (group2 (code a) (code b) (code_range a) (code_range b)) as (H0 & H1 & H2).
    set (n := code a * 65536 + code b * 256) in *.
    destruct (alphabet_facts _ H0) as (I0 & W0 & E0).
    destruct (alphabet_facts _ (sextet_range n 4096)) as (I1 & W1 & E1).
    destruct (alphabet_facts _ (sextet_range n 64)) as (I2 & W2 & E2).
    split.
    + simpl. fold n. rewrite W0, W1, W2. reflexivity.
    + exists 1%nat. reflexivity.
    + eexists _, 3%nat, 0%nat. simpl. fold n. rewrite E2. simpl. rewrite I0, I1, I2.
      split; [reflexivity |]. simpl. rewrite H1, H2, !chr_code. repeat split; auto.
  - destruct (group3 (code a) (code b) (code c) (code_range a) (code_range b) (code_range c))
      as (H0 & H1 & H2 & H3).
    set (n := code a * 65536 + code b * 256 + code c) in *.
    destruct (alphabet_facts _ H0) as (I0 & W0 & E0).
    destruct (alphabet_facts _ (sextet_range n 4096)) as (I1 & W1 & E1).
    destruct (alphabet_facts _ (sextet_range n 64)) as (I2 & W2 & E2).
    destruct (alphabet_facts _ (low_sextet_range n)) as (I3 & W3 & E3).
    destruct IH as [IHc [q IHl] (sx & r & q' & IHx & IHd & IHb & IHr)].
    split;
      change (encode (a :: b :: c :: l)) with
        (char_of (n / 262144) :: char_of (n / 4096 mod 64) :: char_of (n / 64 mod 64)
           :: char_of (n mod 64) :: encode l).
    + simpl. rewrite W0, W1, W2, W3. simpl. rewrite IHc. reflexivity.
    + exists (S q). simpl. rewrite IHl. lia.
    + exists (n / 262144 :: n / 4096 mod 64 :: n / 64 mod 64 :: n mod 64 :: sx), r, (S q').
      rewrite !strip_end_cons by assumption.
      repeat split; auto.
      * simpl. rewrite I0, I1, I2, I3, IHx. reflexivity.
      * change (decode_groups (n / 262144 :: n / 4096 mod 64 :: n / 64 mod 64 :: n mod 64 :: sx))
          with (let m := ((n / 262144 * 64 + n / 4096 mod 64) * 64 + n / 64 mod 64) * 64
                         + n mod 64 in
                chr (m / 65536) :: chr (m / 256 mod 256) :: chr (m mod 256) :: decode_groups sx).
        cbv zeta. rewrite H1, H2, H3, !chr_code, IHd. reflexivity.
      * simpl. rewrite IHb. lia.
Qed.

Lemma atob_btoa s : atob (btoa s) = Ok s.
Proof.
  unfold atob, btoa. rewrite list_ascii_of_string_of_list_ascii.
  destruct (encode_decodes (list_ascii_of_string s))
    as [Hc [q Hl] (sx & r & q' & Hx & Hd & Hb & Hr)].
  rewrite Hc, Hl.
  replace (4 * q)%nat with (0 + q * 4)%nat by lia.
  rewrite Nat.Div0.mod_add. simpl (0 mod 4 =? 0)%nat. cbv iota.
  rewrite Hb.
  replace (4 * q' + r)%nat with (r + q' * 4)%nat by lia.
  rewrite Nat.Div0.mod_add.
  assert (Hr1 : (r mod 4 =? 1)%nat = false) by (destruct Hr as [-> | [-> | ->]]; reflexivity).
  rewrite Hr1, Hx, Hd. rewrite string_of_list_ascii_of_string. reflexivity.
Qed.
End Base64Facts.

(** ** The loops of the base64 helpers *)

Section Helpers.
Import BiometricManager.
Local Open Scope Z_scope.

Lemma append_cons (x : ascii) (a b : string) : String x a +:+ b = String x (a +:+ b).
Proof. reflexivity. Qed.

Lemma append_assoc_string (a b c : string) : (a +:+ b) +:+ c = a +:+ (b +:+ c).
Proof.
  induction a as [|x a IH]; [reflexivity |].
  rewrite !append_cons, IH. reflexivity.
Qed.

Lemma append_empty_r (a : string) : a +:+ EmptyString = a.
Proof.
  induction a as [|x a IH]; [reflexivity |].
  rewrite append_cons, IH. reflexivity.
Qed.

Lemma binary_loop bytes acc :
  fold_left (fun binary b => binary +:+ String (ascii_of_byte b) EmptyString) bytes acc
  = acc +:+ fromCharCode_apply bytes.
Proof.
  revert acc. induction bytes as [|b bytes IH]; intros acc.
  - simpl. now rewrite append_empty_r.
  - cbn [fold_left]. rewrite IH, append_assoc_string. reflexivity.
Qed.

Lemma byte_of_Z_code c : byte_of_Z (code c) = byte_of_ascii c.
Proof.
  destruct c as [[] [] [] [] [] [] [] []]; reflexivity.
Qed.

Lemma get_list_ascii s i : String.get i s = nth_error (list_ascii_of_string s) i.
Proof.
  revert i. induction s as [|c s IH]; intros [|i]; simpl; auto.
Qed.

(** The filling loop [for (i = 0; i < n; i++) bytes[i] = f(i)] over a
    fresh array writes [f 0; ...; f (n-1)]. *)
Lemma fill_loop {A} (f : nat -> A) (z : A) n done :
  fold_left (fun bytes i => <[i := f i]> bytes) (seq (length done) n) (done ++ repeat z n)
  = done ++ map f (seq (length done) n).
Proof.
  revert done. induction n as [|n IH]; intros done; simpl; [reflexivity |].
  replace (<[length done := f (length done)]> (done ++ z :: repeat z n))
    with ((done ++ [f (length done)]) ++ repeat z n).
  - replace (S (length done)) with (length (done ++ [f (length done)])).
    + rewrite IH, <- app_assoc. reflexivity.
    + rewrite length_app. simpl. lia.
  - rewrite <- app_assoc, insert_app_r_alt by lia.
    rewrite Nat.sub_diag. reflexivity.
Qed.

Lemma map_nth_seq {A B} (g : A -> B) (d : B) (l : list A) :
  map (fun i => match nth_error l i with Some c => g c | None => d end) (seq 0 (length l))
  = map g l.
Proof.
  induction l as [|x l IH]; simpl; [reflexivity |].
  f_equal. rewrite <- seq_shift, map_map. exact IH.
Qed.

Lemma length_list_ascii s : length (list_ascii_of_string s) = String.length s.
Proof. induction s; simpl; auto. Qed.

Lemma base64ToArrayBuffer_atob base64 binary :
  Base64.atob base64 = Ok binary ->
  _base64ToArrayBuffer base64 = Ok (map byte_of_ascii (list_ascii_of_string binary)).
Proof.
  intros H. unfold _base64ToArrayBuffer. rewrite H. f_equal.
  pose proof (fill_loop
    (fun i => match charCodeAt binary i with Some z => byte_of_Z z | None => x00 end)
    x00 (String.length binary) []) as L.
  simpl in L. unfold Uint8Array_new. rewrite L.
  rewrite <- length_list_ascii.
  rewrite <- (map_nth_seq byte_of_ascii x00).
  apply map_ext. intros i. unfold charCodeAt. rewrite get_list_ascii.
  destruct (nth_error _ i); [apply byte_of_Z_code | reflexivity].
Qed.

End Helpers.

(** ** The derivations *)

Section Derivation.
Import WalletCreation.

Lemma deriveSecp256k1Wallet_run k env w :
  deriveSecp256k1Wallet k env w =
  (match ethers env with
   | None => Throw ethers_not_loaded
   | Some new_Wallet => new_Wallet ("0x" +:+ to_hex (SHA256.digest k))
   end, w).
Proof.
  unfold deriveSecp256k1Wallet, ensureEthers, new_ethers_Wallet.
  run_script; reflexivity.
Qed.

Lemma deriveEthereumWallet_run k env w :
  deriveEthereumWallet k env w =
  (match ethers env with
   | None => Throw ethers_not_loaded
   | Some new_Wallet => new_Wallet ("0x" +:+ to_hex (SHA256.digest k))
   end, w).
Proof.
  unfold deriveEthereumWallet.
  unfold_monad. rewrite deriveSecp256k1Wallet_run.
  destruct (ethers env) as [new_Wallet|]; [|reflexivity].
  destruct (new_Wallet _) as [[]|]; reflexivity.
Qed.
End Derivation.

Section Lengths.

Lemma digest_length data : length (SHA256.digest data) = 32%nat.
Proof.
  unfold SHA256.digest.
  destruct (SHA256.blocks _ _ _) as [[[[[[[a b] c] d] e] f] g] h].
  reflexivity.
Qed.

Lemma length_append (a b : string) :
  String.length (a +:+ b) = (String.length a + String.length b)%nat.
Proof.
  induction a as [|x a IH]; [reflexivity |].
  rewrite append_cons. simpl. now rewrite IH.
Qed.

Lemma to_hex_length bytes : String.length (to_hex bytes) = (2 * length bytes)%nat.
Proof.
  induction bytes as [|b bytes IH]; [reflexivity |].
  change (to_hex (b :: bytes)) with (hex2 b +:+ to_hex bytes).
  rewrite length_append, IH. simpl. lia.
Qed.

Lemma substring_to_length n s :
  (n <= String.length s)%nat -> String.length (substring_to n s) = n.
Proof.
  unfold substring_to. revert s.
  induction n as [|n IH]; intros s Hn.
  - destruct s; reflexivity.
  - destruct s as [|c s]; simpl in *; [lia |].
    rewrite IH by lia. reflexivity.
Qed.

Lemma private_key_hex_length k :
  String.length ("0x" +:+ to_hex (SHA256.digest k)) = 66%nat.
Proof.
  rewrite length_append, to_hex_length, digest_length. reflexivity.
Qed.

Lemma passkey_address_length k :
  String.length (PasskeyWallet.deriveEthereumAddress k) = 42%nat.
Proof.
  unfold PasskeyWallet.deriveEthereumAddress, PasskeyWallet.keccak256.
  rewrite length_append, substring_to_length.
  - reflexivity.
  - rewrite to_hex_length, digest_length. lia.
Qed.

(** On a 65-byte key the two [slice]s and [set]s assemble the 64
    coordinate bytes. *)
Lemma combined_coordinates (k : list byte) :
  length k = 65%nat ->
  typed_set (typed_set (Uint8Array_new 64) (slice 1 33 k) 0) (slice 33 65 k) 32 = drop 1 k.
Proof.
  intros Hk.
  do 66 (destruct k as [|? k]; try discriminate Hk).
  reflexivity.
Qed.

Lemma well_formed_length k : P256.well_formed k = true -> length k = 65%nat.
Proof.
  unfold P256.well_formed. intros H.
  destruct k as [|[] coords]; try discriminate H.
  apply andb_prop in H as [H _]. apply andb_prop in H as [H _]. apply andb_prop in H as [H _].
  apply Nat.eqb_eq in H. simpl. lia.
Qed.

Lemma passkey_address_truncates k :
  length k = 65%nat ->
  PasskeyWallet.deriveEthereumAddress k = truncated_hash_address (drop 1 k).
Proof.
  intros Hk. unfold PasskeyWallet.deriveEthereumAddress, PasskeyWallet.keccak256.
  rewrite (combined_coordinates k Hk). reflexivity.
Qed.
End Lengths.

(** ** Every run of the scripts *)

Section ScriptRuns.
Import BiometricManager.

Lemma signWriteProposal_runs env path content tier w :
  exists new,
    trace (world_after (signWriteProposal path content tier) env w) = trace w ++ new
    /\ localStorage (world_after (signWriteProposal path content tier) env w) = localStorage w
    /\ sessionStorage (world_after (signWriteProposal path content tier) env w) = sessionStorage w
    /\ sign_run env path content tier (trace w) new
         (result_of (signWriteProposal path content tier) env w).
Proof.
  destruct w as [ls ss tr].
  unfold signWriteProposal, isAvailable, _getCurrentWalletAddress, _getStoredCredentialId.
  run_script.
  all: eexists; (split; [new_events |]); (split; [reflexivity |]); (split; [reflexivity |]);
    cbn [sign_run app]; unfold before_prompt, is_proposal, authentication_error.
  all: repeat run_step.
Qed.

Lemma register_runs env walletAddress deviceName w :
  exists new stored,
    trace (world_after (register walletAddress deviceName) env w) = trace w ++ new
    /\ localStorage (world_after (register walletAddress deviceName) env w)
       = store_credential walletAddress stored (localStorage w)
    /\ sessionStorage (world_after (register walletAddress deviceName) env w) = sessionStorage w
    /\ register_run env walletAddress deviceName (trace w) new
         (result_of (register walletAddress deviceName) env w) stored.
Proof.
  destruct w as [ls ss tr].
  unfold register, isAvailable, _storeCredentialId.
  run_script.
  all: eexists;
    first [ exists None; split; [new_events |]; split; [reflexivity |]
          | eexists (Some _); split; [new_events |]; split; [reflexivity |] ];
    (split; [reflexivity |]);
    cbn [register_run app]; unfold before_registration, after_prompt, registration_error.
  all: repeat run_step.
Qed.

End ScriptRuns.

Section SetupRuns.
Import WalletCreation.

(** What [setupBiometricWallet] leaves in the two storage areas. *)
Lemma setupBiometricWallet_storage env w :
  match result_of setupBiometricWallet env w with
  | Throw _ =>
      localStorage (world_after setupBiometricWallet env w) = localStorage w
      /\ sessionStorage (world_after setupBiometricWallet env w) = sessionStorage w
  | Ok res =>
      exists credential p256PubKey new_Wallet wallet,
        cred_getPublicKey credential = Some p256PubKey
        /\ ethers env = Some new_Wallet
        /\ new_Wallet ("0x" +:+ to_hex (SHA256.digest p256PubKey)) = Ok wallet
        /\ res = mkSetupResult (wallet_address wallet) (wallet_privateKey wallet)
                   (cred_id credential)
        /\ localStorage (world_after setupBiometricWallet env w)
           = <["blockchain_aem_secp256k1_pubkey" := wallet_publicKey wallet]>
               (<["blockchain_aem_p256_pubkey" := Base64.btoa (fromCharCode_apply p256PubKey)]>
                  (<["blockchain_aem_credential_id" := cred_id credential]>
                     (<["blockchain_aem_wallet_address" := wallet_address wallet]>
                        (localStorage w))))
        /\ sessionStorage (world_after setupBiometricWallet env w)
           = <["blockchain_aem_private_key" := wallet_privateKey wallet]> (sessionStorage w)
  end.
Proof.
  destruct w as [ls ss tr].
  unfold setupBiometricWallet, createBiometricWallet, registerBiometricWallet,
    deriveEthereumWallet, deriveSecp256k1Wallet, ensureEthers, new_ethers_Wallet.
  run_script.
  all: try (split; reflexivity).
  do 4 eexists.
  repeat apply conj; [eassumption | reflexivity | eassumption | reflexivity..].
Qed.

(** When the authenticator reports a cancellation, [setupBiometricWallet]
    ends in that very error, tells its caller so, and sends nothing. *)
Lemma setupBiometricWallet_cancelled env w :
  (forall tr o, exists msg,
      credentials_create env tr o = Throw (mkError "NotAllowedError" msg)) ->
  exists new,
    trace (world_after setupBiometricWallet env w) = trace w ++ new
    /\ (exists e, result_of setupBiometricWallet env w = Throw e)
    /\ (existsb is_prompt new = true ->
        (exists msg, result_of setupBiometricWallet env w
                     = Throw (mkError "NotAllowedError" msg))
        /\ last new = Some registration_cancelled_status)
    /\ existsb is_fetch new = false.
Proof.
  intros Hcreate. destruct w as [ls ss tr].
  unfold setupBiometricWallet, createBiometricWallet, registerBiometricWallet,
    deriveEthereumWallet, deriveSecp256k1Wallet, ensureEthers, new_ethers_Wallet.
  run_script.
  all: match goal with
       | H : credentials_create _ ?t ?o = _ |- _ =>
           let msg := fresh "msg" in
           let Hm := fresh "Hm" in
           destruct (Hcreate t o) as [msg Hm]; rewrite Hm in H;
           first [discriminate H | injection H as <-]
       | _ => idtac
       end.
  all: cbn [err_name err_message] in *; try discriminate.
  all: eexists; (split; [new_events |]); cbn [app existsb is_prompt is_fetch orb];
    (split; [eexists; reflexivity |]); (split; [| reflexivity]);
    first [ intros H; discriminate H
          | intros _; split; [eexists; reflexivity | reflexivity] ].
Qed.

Lemma no_fetch_in l req : existsb is_fetch l = false -> In (EvFetch req) l -> False.
Proof.
  induction l as [|x l IH]; [intros _ [] |].
  simpl. intros H [-> | Hin].
  - discriminate H.
  - apply orb_false_elim in H as [_ H]. exact (IH H Hin).
Qed.

(** Every run of [setupBiometricWallet] that gets as far as a request, or
    succeeds, has prompted once, and the credential whose id and key it
    sends and stores is the one the authenticator returned to that
    prompt. *)
Lemma setupBiometricWallet_prompt env w :
  exists new,
    trace (world_after setupBiometricWallet env w) = trace w ++ new
    /\ ((List.filter is_fetch new = []
         /\ exists e, result_of setupBiometricWallet env w = Throw e)
        \/ exists pre o rest credential p256PubKey new_Wallet wallet,
             new = pre ++ EvCreate o :: rest
             /\ existsb is_prompt pre = false
             /\ existsb is_fetch pre = false
             /\ existsb is_prompt rest = false
             /\ credentials_create env (trace w ++ pre) o = Ok credential
             /\ cred_getPublicKey credential = Some p256PubKey
             /\ ethers env = Some new_Wallet
             /\ new_Wallet ("0x" +:+ to_hex (SHA256.digest p256PubKey)) = Ok wallet
             /\ List.filter is_fetch new
                = [EvFetch (register_request
                              (mkWalletData (wallet_address wallet) (wallet_privateKey wallet)
                                 (wallet_publicKey wallet) (cred_id credential) p256PubKey
                                 (cred_rawId credential)))]
             /\ match result_of setupBiometricWallet env w with
                | Throw _ => True
                | Ok res =>
                    res = mkSetupResult (wallet_address wallet) (wallet_privateKey wallet)
                            (cred_id credential)
                    /\ localStorage (world_after setupBiometricWallet env w)
                       = <["blockchain_aem_secp256k1_pubkey" := wallet_publicKey wallet]>
                           (<["blockchain_aem_p256_pubkey" :=
                                Base64.btoa (fromCharCode_apply p256PubKey)]>
                              (<["blockchain_aem_credential_id" := cred_id credential]>
                                 (<["blockchain_aem_wallet_address" := wallet_address wallet]>
                                    (localStorage w))))
                    /\ sessionStorage (world_after setupBiometricWallet env w)
                       = <["blockchain_aem_private_key" := wallet_privateKey wallet]>
                           (sessionStorage w)
                end).
Proof.
  destruct w as [ls ss tr].
  unfold setupBiometricWallet, createBiometricWallet, registerBiometricWallet,
    deriveEthereumWallet, deriveSecp256k1Wallet, ensureEthers, new_ethers_Wallet.
  run_script.
  all: eexists; (split; [new_events |]); cbn [List.filter is_fetch app].
  all: first
    [ left; split; [reflexivity | eexists; reflexivity]
    | right; eexists [_; _; _; _]; do 6 eexists;
      split; [reflexivity |];
      split; [reflexivity |];
      split; [reflexivity |];
      split; [reflexivity |];
      split; [rewrite <- ?app_assoc in *; cbn [app] in *; eassumption |];
      split; [eassumption |];
      split; [reflexivity |];
      split; [eassumption |];
      split; [reflexivity |];
      first [exact I | repeat apply conj; reflexivity] ].
Qed.

End SetupRuns.

(** ** The shape of a run *)

Section Shapes.
Import BiometricManager.
Variable env : Env.

Lemma events_of_new {A} (m : M A) w new :
  trace (world_after m env w) = trace w ++ new -> events_of m env w = new.
Proof.
  intros H. unfold events_of. rewrite H. apply drop_app_length.
Qed.

Section Sign.
Variables (path content : string) (tier : option Z).

Lemma before_prompt_quiet e :
  before_prompt path content e -> is_post e = false /\ is_prompt e = false.
Proof.
  intros [-> | [-> | [-> | ->]]]; split; reflexivity.
Qed.

Lemma before_prompt_request e :
  before_prompt path content e -> sign_request path content tier e.
Proof.
  intros [-> | [-> | [-> | ->]]]; simpl; auto.
Qed.

(** A run of [signWriteProposal] is a quiet prefix, then nothing more, or
    a refused prompt, or a granted prompt and one proposal. *)
Lemma sign_run_shape tr new r :
  sign_run env path content tier tr new r ->
  exists pre, Forall (before_prompt path content) pre
    /\ ((new = pre /\ exists e, r = Throw e)
        \/ (exists o err,
              new = pre ++ [EvGet o]
              /\ credentials_get env (tr ++ pre) o = Throw err
              /\ r = Throw (authentication_error err))
        \/ (exists o a req,
              new = pre ++ [EvGet o; EvFetch req]
              /\ credentials_get env (tr ++ pre) o = Ok a
              /\ is_proposal path content tier req a
              /\ match fetch env ((tr ++ pre) ++ [EvGet o]) req with
                 | Throw e => r = Throw e
                 | Ok resp =>
                     if resp_ok resp then r = resp_json resp else exists e, r = Throw e
                 end)).
Proof.
  revert tr. induction new as [|e rest IH]; intros tr H.
  - exists []. split; [constructor |]. left. split; [reflexivity | exact H].
  - assert (Hstep : before_prompt path content e
                    /\ sign_run env path content tier (tr ++ [e]) rest r
                    -> exists pre, Forall (before_prompt path content) pre
      /\ ((e :: rest = pre /\ exists e0, r = Throw e0)
          \/ (exists o err,
                e :: rest = pre ++ [EvGet o]
                /\ credentials_get env (tr ++ pre) o = Throw err
                /\ r = Throw (authentication_error err))
          \/ (exists o a req,
                e :: rest = pre ++ [EvGet o; EvFetch req]
                /\ credentials_get env (tr ++ pre) o = Ok a
                /\ is_proposal path content tier req a
                /\ match fetch env ((tr ++ pre) ++ [EvGet o]) req with
                   | Throw e0 => r = Throw e0
                   | Ok resp =>
                       if resp_ok resp then r = resp_json resp else exists e0, r = Throw e0
                   end))).
    { intros [He Hr]. destruct (IH _ Hr) as (pre & Hpre & Hcases).
      exists (e :: pre). split; [constructor; assumption |].
      replace (tr ++ e :: pre) with ((tr ++ [e]) ++ pre)
        by (rewrite <- app_assoc; reflexivity).
      destruct Hcases as [(-> & Hr') | [(o & err & -> & Hg & Hr') | (o & a & req & -> & Hg & Hp & Hf)]].
      - left. split; [reflexivity | exact Hr'].
      - right; left. exists o, err. repeat split; assumption.
      - right; right. exists o, a, req. repeat split; assumption. }
    destruct e; try exact (Hstep H).
    simpl in H. exists []. split; [constructor |].
    rewrite !app_nil_r.
    destruct (credentials_get env tr o) as [a | err] eqn:Hg.
    + destruct H as (req & -> & Hp & Hf).
      right; right. exists o, a, req. repeat split; assumption.
    + destruct H as (-> & ->).
      right; left. exists o, err. repeat split; assumption.
Qed.

Lemma quiet_filters pre :
  Forall (before_prompt path content) pre ->
  List.filter is_post pre = [] /\ List.filter is_prompt pre = []
  /\ existsb is_post pre = false /\ existsb is_prompt pre = false.
Proof.
  induction 1 as [|e pre He _ (IH1 & IH2 & IH3 & IH4)]; [repeat split |].
  destruct (before_prompt_quiet e He) as [H1 H2].
  simpl. rewrite H1, H2. simpl. auto.
Qed.

Lemma proposal_fields req a :
  is_proposal path content tier req a ->
  req_method req = "POST"%string
  /\ body_field req "path" = JStr path
  /\ body_field req "content" = JStr content
  /\ body_field req "tier" = JNum (tier_or_0 tier)
  /\ body_field req "publicKey" = JStr (_arrayBufferToBase64 (Uint8Array_new 65)).
Proof.
  intros (proposalId & walletAddress & credentialId & challenge & ->).
  destruct proposalId, walletAddress, challenge; repeat split; reflexivity.
Qed.

Lemma proposal_signature req a :
  is_proposal path content tier req a ->
  body_field req "signature" = JStr (_arrayBufferToBase64 (assertion_signature a)).
Proof.
  intros (proposalId & walletAddress & credentialId & challenge & ->).
  destruct proposalId, walletAddress; reflexivity.
Qed.

End Sign.
End Shapes.


Section RegisterShape.
Import BiometricManager.
Variables (env : Env) (walletAddress : string) (deviceName : option string).

Lemma before_registration_quiet e :
  before_registration e -> is_fetch e = false /\ is_prompt e = false.
Proof.
  intros [-> | ->]; split; reflexivity.
Qed.

Lemma registration_quiet_filters pre :
  Forall before_registration pre ->
  existsb is_fetch pre = false /\ existsb is_prompt pre = false.
Proof.
  induction 1 as [|e pre He _ (IH1 & IH2)]; [split; reflexivity |].
  destruct (before_registration_quiet e He) as [H1 H2].
  simpl. rewrite H1, H2. auto.
Qed.

(** A run of [register] is a quiet prefix, then nothing more, or a
    refused prompt, or a granted prompt and what follows it. *)
Lemma register_run_shape tr new r stored :
  register_run env walletAddress deviceName tr new r stored ->
  exists pre, Forall before_registration pre
    /\ ((new = pre /\ stored = None /\ exists e, r = Throw e)
        \/ (exists o err,
              new = pre ++ [EvCreate o]
              /\ credentials_create env (tr ++ pre) o = Throw err
              /\ stored = None /\ r = Throw (registration_error err))
        \/ (exists o c rest,
              new = pre ++ EvCreate o :: rest
              /\ credentials_create env (tr ++ pre) o = Ok c
              /\ Forall (after_prompt walletAddress c) rest
              /\ ((stored = None /\ exists e, r = Throw e)
                  \/ (stored = Some (cred_id c)
                      /\ r = Ok (mkRegisterResult true (cred_id c) walletAddress deviceName))))).
Proof.
  revert tr. induction new as [|e rest IH]; intros tr H.
  - exists []. split; [constructor |]. left. destruct H as [H1 H2]. auto.
  - assert (Hstep : before_registration e
                    /\ register_run env walletAddress deviceName (tr ++ [e]) rest r stored
                    -> exists pre, Forall before_registration pre
      /\ ((e :: rest = pre /\ stored = None /\ exists e0, r = Throw e0)
          \/ (exists o err,
                e :: rest = pre ++ [EvCreate o]
                /\ credentials_create env (tr ++ pre) o = Throw err
                /\ stored = None /\ r = Throw (registration_error err))
          \/ (exists o c rest0,
                e :: rest = pre ++ EvCreate o :: rest0
                /\ credentials_create env (tr ++ pre) o = Ok c
                /\ Forall (after_prompt walletAddress c) rest0
                /\ ((stored = None /\ exists e0, r = Throw e0)
                    \/ (stored = Some (cred_id c)
                        /\ r = Ok (mkRegisterResult true (cred_id c) walletAddress
                                     deviceName)))))).
    { intros [He Hr]. destruct (IH _ Hr) as (pre & Hpre & Hcases).
      exists (e :: pre). split; [constructor; assumption |].
      replace (tr ++ e :: pre) with ((tr ++ [e]) ++ pre)
        by (rewrite <- app_assoc; reflexivity).
      destruct Hcases as [(-> & Hs & Hr') | [(o & err & -> & Hg & Hs & Hr')
                                            | (o & c & rest0 & -> & Hg & Hp & Hf)]].
      - left. auto.
      - right; left. exists o, err. auto.
      - right; right. exists o, c, rest0. auto. }
    destruct e; try exact (Hstep H).
    simpl in H. exists []. split; [constructor |].
    rewrite !app_nil_r.
    destruct (credentials_create env tr o) as [c | err] eqn:Hg.
    + destruct H as (Hrest & Hout).
      right; right. exists o, c, rest. auto.
    + destruct H as (-> & -> & ->).
      right; left. exists o, err. auto.
Qed.

End RegisterShape.

(** ** The registry *)

Section VerifierFacts.
Import Verifier.
Variable valid : Challenge -> SignedProposal -> bool.

Lemma submit_keeps_consumed now p r n :
  n ∈ consumed r -> n ∈ consumed (snd (submit valid now p r)).
Proof.
  intros Hn. unfold submit.
  repeat case_match; simpl; auto; set_solver.
Qed.

Lemma run_keeps_consumed calls r n :
  n ∈ consumed r -> n ∈ consumed (snd (run valid calls r)).
Proof.
  revert r. induction calls as [|[c | now p] calls IH]; intros r Hn; simpl.
  - exact Hn.
  - apply IH. exact Hn.
  - pose proof (submit_keeps_consumed now p r n Hn) as H1.
    destruct (submit valid now p r) as [receipt r1]. simpl in H1.
    specialize (IH r1 H1).
    destruct (run valid calls r1) as [receipts r2]. exact IH.
Qed.

Lemma submit_signed now p r r' :
  submit valid now p r = (Signed, r') ->
  (sp_nonce p ∉ consumed r) /\ (sp_nonce p ∈ consumed r').
Proof.
  unfold submit. intros H.
  repeat case_match; simplify_eq. split; [assumption | simpl; set_solver].
Qed.

Lemma submit_of_consumed now p r :
  sp_nonce p ∈ consumed r -> submit valid now p r = (Rejected ChallengeConsumed, r).
Proof.
  intros Hn. unfold submit. rewrite decide_True by assumption. reflexivity.
Qed.

(** Once a nonce is consumed, no later submission naming it is accepted. *)
Lemma consumed_never_accepted calls r n :
  n ∈ consumed r -> accepted n (fst (run valid calls r)) = 0%nat.
Proof.
  revert r. induction calls as [|[c | now p] calls IH]; intros r Hn; simpl.
  - reflexivity.
  - apply IH. exact Hn.
  - pose proof (submit_keeps_consumed now p r n Hn) as H1.
    destruct (submit valid now p r) as [receipt r1] eqn:Hs. simpl in H1.
    specialize (IH r1 H1).
    destruct (run valid calls r1) as [receipts r2]. simpl in *.
    unfold accepted in *. simpl.
    destruct (String.eqb (sp_nonce p) n) eqn:Hp; simpl; [| exact IH].
    apply String.eqb_eq in Hp. subst n.
    rewrite (submit_of_consumed now p r Hn) in Hs. simplify_eq. simpl. exact IH.
Qed.

Lemma at_most_one_accepted calls r n :
  (accepted n (fst (run valid calls r)) <= 1)%nat.
Proof.
  revert r. induction calls as [|[c | now p] calls IH]; intros r; simpl.
  { unfold accepted. simpl. lia. }
  { apply IH. }
  destruct (submit valid now p r) as [receipt r1] eqn:Hs.
  pose proof (IH r1) as IH1.
  pose proof (consumed_never_accepted calls r1 n) as Hz.
  destruct (run valid calls r1) as [receipts r2]. simpl in *.
  unfold accepted in *. simpl.
  destruct (String.eqb (sp_nonce p) n) eqn:Hp; simpl; [| exact IH1].
  destruct receipt as [| reason]; simpl; [| exact IH1].
  apply String.eqb_eq in Hp. subst n.
  apply submit_signed in Hs as [_ Hc]. rewrite (Hz Hc). simpl. lia.
Qed.

Lemma expired_rejected now p r c :
  challenges r !! sp_nonce p = Some c -> (ch_expiry c < now)%Z ->
  fst (submit valid now p r)
  = Rejected (if decide (sp_nonce p ∈ consumed r) then ChallengeConsumed else ChallengeExpired).
Proof.
  intros Hc Hlt. unfold submit. rewrite Hc.
  destruct (decide _); [reflexivity |].
  assert (H : (ch_expiry c <? now)%Z = true) by (apply Z.ltb_lt; exact Hlt).
  rewrite H. reflexivity.
Qed.

End VerifierFacts.


(** ** What a run of [signWriteProposal] sends *)

Section SignFacts.
Import BiometricManager.
Variables (env : Env) (path content : string) (tier : option Z).

Lemma before_prompt_challenge e :
  before_prompt path content e ->
  is_challenge_request e = true -> e = EvFetch (challenge_request path content).
Proof.
  intros [-> | [-> | [-> | ->]]] H; try discriminate H; reflexivity.
Qed.

Lemma before_prompt_placeholder e :
  before_prompt path content e -> placeholder_publicKey e.
Proof.
  intros [-> | [-> | [-> | ->]]]; simpl; try exact I; intros H; discriminate H.
Qed.

Lemma sign_run_requests tr new r :
  sign_run env path content tier tr new r ->
  Forall (sign_request path content tier) new
  /\ Forall placeholder_publicKey new
  /\ Forall (fun e => is_challenge_request e = true
                      -> e = EvFetch (challenge_request path content)) new.
Proof.
  intros H. destruct (sign_run_shape _ _ _ _ _ _ _ H) as (pre & Hpre & Hcases).
  assert (H1 : Forall (sign_request path content tier) pre)
    by (eapply Forall_impl; [exact Hpre | apply before_prompt_request]).
  assert (H2 : Forall placeholder_publicKey pre)
    by (eapply Forall_impl; [exact Hpre | apply before_prompt_placeholder]).
  assert (H3 : Forall (fun e => is_challenge_request e = true
                                -> e = EvFetch (challenge_request path content)) pre)
    by (eapply Forall_impl; [exact Hpre | apply before_prompt_challenge]).
  destruct Hcases as [(-> & _) | [(o & err & -> & _) | (o & a & req & -> & _ & Hp & _)]].
  - auto.
  - split; [| split]; apply Forall_app; split; try assumption.
    + repeat constructor.
    + repeat constructor.
    + constructor; [discriminate | constructor].
  - destruct (proposal_fields _ _ _ _ _ Hp) as (Hm & Hpath & Hcontent & Htier & Hkey).
    split; [| split]; apply Forall_app; split; try assumption.
    + constructor; [exact I |].
      constructor; [| constructor]. simpl. right; right. repeat split; assumption.
    + constructor; [exact I |].
      constructor; [| constructor]. intros _. exact Hkey.
    + constructor; [discriminate |].
      constructor; [| constructor]. simpl. rewrite Hm. discriminate.
Qed.

Lemma sign_run_counts tr new r :
  sign_run env path content tier tr new r ->
  (length (List.filter is_post new) <= 1)%nat
  /\ (length (List.filter is_prompt new) <= 1)%nat.
Proof.
  intros H. destruct (sign_run_shape _ _ _ _ _ _ _ H) as (pre & Hpre & Hcases).
  destruct (quiet_filters _ _ _ Hpre) as (F1 & F2 & _ & _).
  destruct Hcases as [(-> & _) | [(o & err & -> & _) | (o & a & req & -> & _ & Hp & _)]].
  - rewrite F1, F2. simpl. lia.
  - rewrite !List.filter_app, F1, F2. simpl. lia.
  - rewrite !List.filter_app, F1, F2. simpl.
    destruct (String.eqb (req_method req) "POST"); simpl; lia.
Qed.

(** A transport failure of the POST is the result of the run. *)
Lemma sign_run_surfaces tr new r pre req e :
  sign_run env path content tier tr new r ->
  new = pre ++ [EvFetch req] -> req_method req = "POST"%string ->
  fetch env (tr ++ pre) req = Throw e -> r = Throw e.
Proof.
  intros H Hnew Hm Hf.
  destruct (sign_run_shape _ _ _ _ _ _ _ H) as (pre0 & Hpre & Hcases).
  destruct Hcases as [(-> & _) | [(o & err & -> & _) | (o & a & req0 & -> & _ & _ & Hr)]].
  - subst pre0. apply Forall_app in Hpre as [_ Hlast].
    inversion Hlast as [| ? ? Hq _]; subst.
    destruct (before_prompt_quiet _ _ _ Hq) as [Hpost _].
    simpl in Hpost. rewrite Hm in Hpost. discriminate Hpost.
  - apply app_inj_tail in Hnew as [_ Heq]. discriminate Heq.
  - change (pre0 ++ [EvGet o; EvFetch req0]) with (pre0 ++ [EvGet o] ++ [EvFetch req0]) in Hnew.
    rewrite app_assoc in Hnew.
    apply app_inj_tail in Hnew as [<- Heq]. injection Heq as <-.
    rewrite app_assoc in Hf. rewrite Hf in Hr. exact Hr.
Qed.

(** A posted proposal comes right after a granted prompt and carries the
    signature of that prompt's assertion. *)
Lemma sign_run_posts tr new r :
  sign_run env path content tier tr new r ->
  existsb is_post new = true ->
  exists pre o a req,
    new = pre ++ [EvGet o; EvFetch req]
    /\ credentials_get env (tr ++ pre) o = Ok a
    /\ body_field req "signature" = JStr (_arrayBufferToBase64 (assertion_signature a)).
Proof.
  intros H Hpost.
  destruct (sign_run_shape _ _ _ _ _ _ _ H) as (pre & Hpre & Hcases).
  destruct (quiet_filters _ _ _ Hpre) as (_ & _ & E1 & _).
  destruct Hcases as [(-> & _) | [(o & err & -> & _) | (o & a & req & -> & Hg & Hp & _)]].
  - rewrite E1 in Hpost. discriminate Hpost.
  - rewrite existsb_app, E1 in Hpost. discriminate Hpost.
  - exists pre, o, a, req. split; [reflexivity |]. split; [exact Hg |].
    exact (proposal_signature _ _ _ _ _ Hp).
Qed.

(** When the authenticator reports a cancellation, the run ends in an
    error, the prompt's own error when a prompt was shown, and no proposal
    is posted. *)
Lemma sign_run_cancelled tr new r :
  (forall tr o, exists msg, credentials_get env tr o = Throw (mkError "NotAllowedError" msg)) ->
  sign_run env path content tier tr new r ->
  (exists e, r = Throw e)
  /\ (existsb is_prompt new = true -> r = Throw user_cancelled_authentication)
  /\ existsb is_post new = false.
Proof.
  intros Hget H.
  destruct (sign_run_shape _ _ _ _ _ _ _ H) as (pre & Hpre & Hcases).
  destruct (quiet_filters _ _ _ Hpre) as (_ & _ & E1 & E2).
  destruct Hcases as [(-> & Hr) | [(o & err & -> & Hg & ->) | (o & a & req & -> & Hg & _)]].
  - split; [exact Hr |]. split; [| exact E1].
    rewrite E2. discriminate.
  - destruct (Hget (tr ++ pre) o) as [msg Hmsg]. rewrite Hmsg in Hg.
    injection Hg as <-.
    split; [eexists; reflexivity |]. split.
    + intros _. reflexivity.
    + rewrite existsb_app, E1. reflexivity.
  - destruct (Hget (tr ++ pre) o) as [msg Hmsg]. rewrite Hmsg in Hg. discriminate Hg.
Qed.

End SignFacts.

Section RegisterFacts.
Import BiometricManager.
Variables (env : Env) (walletAddress : string) (deviceName : option string).

Lemma register_run_cancelled tr new r stored :
  (forall tr o, exists msg,
      credentials_create env tr o = Throw (mkError "NotAllowedError" msg)) ->
  register_run env walletAddress deviceName tr new r stored ->
  (exists e, r = Throw e)
  /\ (existsb is_prompt new = true -> r = Throw user_cancelled_registration)
  /\ existsb is_fetch new = false
  /\ stored = None.
Proof.
  intros Hcreate H.
  destruct (register_run_shape _ _ _ _ _ _ _ H) as (pre & Hpre & Hcases).
  destruct (registration_quiet_filters _ Hpre) as (E1 & E2).
  destruct Hcases as [(-> & -> & Hr) | [(o & err & -> & Hg & -> & ->)
                                       | (o & c & rest & -> & Hg & _)]].
  - split; [exact Hr |]. split; [| split; [exact E1 | reflexivity]].
    rewrite E2. discriminate.
  - destruct (Hcreate (tr ++ pre) o) as [msg Hmsg]. rewrite Hmsg in Hg.
    injection Hg as <-.
    split; [eexists; reflexivity |]. split; [| split].
    + intros _. reflexivity.
    + rewrite existsb_app, E1. reflexivity.
    + reflexivity.
  - destruct (Hcreate (tr ++ pre) o) as [msg Hmsg]. rewrite Hmsg in Hg. discriminate Hg.
Qed.

End RegisterFacts.


(** * The claims *)

(** ** Key derivation *)

(** C1, as stated, fails: on the base point of P-256, a well-formed key,
    [deriveEthereumAddress] returns the first 40 hex digits of the hash of
    the coordinates, the truncated-hash address, with no scalar and no
    curve point in between. *)
Lemma truncated_hash_used_as_address :
  P256.well_formed P256.generator = true
  /\ PasskeyWallet.deriveEthereumAddress P256.generator
     = truncated_hash_address (drop 1 P256.generator)
  /\ PasskeyWallet.deriveEthereumAddress P256.generator
     = "0xd875db7def232236aec738c6b0bb3e80142f5d0f"%string.
Proof. vm_compute. repeat split; reflexivity. Qed.

(** C1, amended. For every well-formed public key [k]: the SHA-256 digest
    of the whole key (prefix byte included) has 32 bytes;
    [deriveEthereumWallet] hands its hex form, as the private key, to
    [ethers.Wallet] and returns that wallet's address, private key and
    public key (or fails because [ethers] is missing or refuses the key),
    changing nothing; [deriveEthereumAddress] returns [0x] followed by the
    first 40 hex digits of the SHA-256 digest of the 64 coordinate bytes. *)
Theorem derivation_algorithms (k : list byte) (env : Env) (w : World) :
  P256.well_formed k = true ->
  length (SHA256.digest k) = 32%nat
  /\ WalletCreation.deriveEthereumWallet k env w
     = (match ethers env with
        | None => Throw WalletCreation.ethers_not_loaded
        | Some new_Wallet => new_Wallet ("0x" +:+ to_hex (SHA256.digest k))
        end, w)
  /\ PasskeyWallet.deriveEthereumAddress k = truncated_hash_address (drop 1 k).
Proof.
  intros Hk. split; [apply digest_length |].
  split; [apply deriveEthereumWallet_run |].
  apply passkey_address_truncates, well_formed_length, Hk.
Qed.

Lemma derivation_algorithms_witness :
  P256.well_formed P256.generator = true
  /\ (length (SHA256.digest P256.generator) = 32%nat
      /\ WalletCreation.deriveEthereumWallet P256.generator Demo.granted Demo.fresh
         = (match ethers Demo.granted with
            | None => Throw WalletCreation.ethers_not_loaded
            | Some new_Wallet => new_Wallet ("0x" +:+ to_hex (SHA256.digest P256.generator))
            end, Demo.fresh)
      /\ PasskeyWallet.deriveEthereumAddress P256.generator
         = truncated_hash_address (drop 1 P256.generator)).
Proof.
  split; [vm_compute; reflexivity |].
  apply (derivation_algorithms P256.generator Demo.granted Demo.fresh).
  vm_compute; reflexivity.
Defined.

(** C2. Derivation is a function of the key bytes alone: whatever the
    state of the browser (storage, trace, random numbers drawn so far),
    [deriveEthereumWallet k] gives the same result; it leaves the state
    untouched, so a second call right after the first gives the same
    identity again; and [deriveEthereumAddress] is a plain function. *)
Theorem derivation_deterministic (k : list byte) (env : Env) (w1 w2 : World) :
  result_of (WalletCreation.deriveEthereumWallet k) env w1
  = result_of (WalletCreation.deriveEthereumWallet k) env w2
  /\ world_after (WalletCreation.deriveEthereumWallet k) env w1 = w1
  /\ result_of (WalletCreation.deriveEthereumWallet k) env
       (world_after (WalletCreation.deriveEthereumWallet k) env w1)
     = result_of (WalletCreation.deriveEthereumWallet k) env w1
  /\ events_of (WalletCreation.deriveEthereumWallet k) env w1 = [].
Proof.
  unfold events_of, result_of, world_after.
  rewrite !deriveEthereumWallet_run. simpl.
  rewrite ?deriveEthereumWallet_run. simpl.
  repeat split. apply drop_all.
Qed.

(** C7, as stated, fails: the empty byte string and the all-zero point
    are not well-formed keys, and [deriveEthereumAddress] returns an
    address for both. *)
Lemma malformed_key_is_derived :
  P256.well_formed [] = false
  /\ P256.well_formed P256.zero_point = false
  /\ PasskeyWallet.deriveEthereumAddress []
     = "0xf5a5fd42d16a20302798ef6ed309979b43003d23"%string
  /\ PasskeyWallet.deriveEthereumAddress P256.zero_point
     = "0xf5a5fd42d16a20302798ef6ed309979b43003d23"%string.
Proof. vm_compute. repeat split; reflexivity. Qed.

(** C7, amended. The derivations do not inspect the key: for every byte
    string [k], well-formed or not, [deriveEthereumAddress] returns an
    address of 42 characters, and [deriveSecp256k1Wallet] fails only when
    [ethers] is missing or when [ethers.Wallet] refuses the 66-character
    hex form of the digest; no error for invalid key material exists. *)
Theorem derivation_does_not_validate (k : list byte) (env : Env) (w : World) :
  String.length (PasskeyWallet.deriveEthereumAddress k) = 42%nat
  /\ String.length ("0x" +:+ to_hex (SHA256.digest k)) = 66%nat
  /\ result_of (WalletCreation.deriveSecp256k1Wallet k) env w
     = match ethers env with
       | None => Throw WalletCreation.ethers_not_loaded
       | Some new_Wallet => new_Wallet ("0x" +:+ to_hex (SHA256.digest k))
       end.
Proof.
  split; [apply passkey_address_length |].
  split; [apply private_key_hex_length |].
  unfold result_of. rewrite deriveSecp256k1Wallet_run. reflexivity.
Qed.

(** ** Storage *)


(** ** Challenges *)

(** C4. A challenge is consumed by at most one valid assertion: after a
    submission has been accepted (Signed), every later submission that
    names the same nonce is refused with ChallengeConsumed, whatever
    happened in between and however valid its assertion is; over any
    history at most one submission per nonce is accepted; and a challenge
    presented after its expiry is refused, with ChallengeExpired when it
    had not been consumed before. *)
Theorem single_use_challenge
    (valid : Verifier.Challenge -> Verifier.SignedProposal -> bool)
    (r r' : Verifier.Registry) (now now' : Z) (p p' : Verifier.SignedProposal)
    (calls : list Verifier.Call) :
  Verifier.submit valid now p r = (Verifier.Signed, r') ->
  Verifier.sp_nonce p' = Verifier.sp_nonce p ->
  fst (Verifier.submit valid now' p' (snd (Verifier.run valid calls r')))
  = Verifier.Rejected Verifier.ChallengeConsumed
  /\ (forall history r0 nonce,
        (Verifier.accepted nonce (fst (Verifier.run valid history r0)) <= 1)%nat)
  /\ (forall t q r0 c,
        Verifier.challenges r0 !! Verifier.sp_nonce q = Some c ->
        (Verifier.ch_expiry c < t)%Z ->
        fst (Verifier.submit valid t q r0)
        = Verifier.Rejected (if decide (Verifier.sp_nonce q ∈ Verifier.consumed r0)
                             then Verifier.ChallengeConsumed
                             else Verifier.ChallengeExpired)).
Proof.
  intros Hs Hn. split; [| split].
  - apply submit_signed in Hs as [_ Hc].
    rewrite submit_of_consumed; [reflexivity |].
    rewrite Hn. apply run_keeps_consumed. exact Hc.
  - intros. apply at_most_one_accepted.
  - intros t q r0 c. apply expired_rejected.
Qed.

Lemma single_use_challenge_witness :
  Verifier.submit DemoRegistry.always_valid 120 (DemoRegistry.proposal [x01])
    DemoRegistry.registry
  = (Verifier.Signed, Verifier.consume "nonce-1" DemoRegistry.registry)
  /\ Verifier.sp_nonce (DemoRegistry.proposal [x02])
     = Verifier.sp_nonce (DemoRegistry.proposal [x01])
  /\ fst (Verifier.submit DemoRegistry.always_valid 121 (DemoRegistry.proposal [x02])
            (snd (Verifier.run DemoRegistry.always_valid []
                    (Verifier.consume "nonce-1" DemoRegistry.registry))))
     = Verifier.Rejected Verifier.ChallengeConsumed
  /\ fst (Verifier.submit DemoRegistry.always_valid 161 (DemoRegistry.proposal [x01])
            DemoRegistry.registry)
     = Verifier.Rejected Verifier.ChallengeExpired.
Proof.
  assert (H1 : Verifier.submit DemoRegistry.always_valid 120 (DemoRegistry.proposal [x01])
                 DemoRegistry.registry
               = (Verifier.Signed, Verifier.consume "nonce-1" DemoRegistry.registry))
    by (vm_compute; reflexivity).
  assert (H2 : Verifier.sp_nonce (DemoRegistry.proposal [x02])
               = Verifier.sp_nonce (DemoRegistry.proposal [x01]))
    by reflexivity.
  split; [exact H1 |]. split; [exact H2 |].
  destruct (single_use_challenge DemoRegistry.always_valid DemoRegistry.registry
              (Verifier.consume "nonce-1" DemoRegistry.registry) 120 121
              (DemoRegistry.proposal [x01]) (DemoRegistry.proposal [x02]) [] H1 H2)
    as (Hconsumed & _ & Hexpired).
  split; [exact Hconsumed |].
  rewrite (Hexpired 161 (DemoRegistry.proposal [x01]) DemoRegistry.registry
             DemoRegistry.challenge);
    [reflexivity | vm_compute; reflexivity | reflexivity].
Defined.

(** ** Signing a write proposal *)

(** C5, as stated, fails: for path [/x], content [c] and tier 2 the one
    challenge request is a GET whose query holds the path and the raw
    content; it is the same request for tier 0, and its URL names neither
    a tier nor a digest. *)
Lemma challenge_request_ignores_tier_and_digest :
  List.filter is_challenge_request
    (events_of (BiometricManager.signWriteProposal "/x" "c" (Some 2)) Demo.granted
       Demo.registered)
  = [EvFetch (mkRequest "GET"
                "/bin/blockchain-aem/propose-write-biometric?path=%2Fx&content=c" None)]
  /\ List.filter is_challenge_request
       (events_of (BiometricManager.signWriteProposal "/x" "c" (Some 0)) Demo.granted
          Demo.registered)
     = [EvFetch (mkRequest "GET"
                   "/bin/blockchain-aem/propose-write-biometric?path=%2Fx&content=c" None)]
  /\ includes "tier" "/bin/blockchain-aem/propose-write-biometric?path=%2Fx&content=c" = false
  /\ includes "igest" "/bin/blockchain-aem/propose-write-biometric?path=%2Fx&content=c" = false.
Proof. vm_compute. repeat split; reflexivity. Qed.

(** C5, amended. In every run of [signWriteProposal path content tier]
    each request is the session lookup, or the challenge request, a GET
    whose URL carries the URI-encoded path and the URI-encoded raw content
    and nothing else, or the POST of the proposal, which is where the
    tier ([tier || 0]) is sent, next to the path and the raw content; no
    digest of the content is computed. *)
Theorem challenge_request_carries_path_and_content
    (env : Env) (w : World) (path content : string) (tier : option Z) :
  Forall (sign_request path content tier)
    (events_of (BiometricManager.signWriteProposal path content tier) env w)
  /\ Forall (fun e => is_challenge_request e = true
                      -> e = EvFetch (BiometricManager.challenge_request path content))
       (events_of (BiometricManager.signWriteProposal path content tier) env w)
  /\ BiometricManager.challenge_url path content
     = "/bin/blockchain-aem/propose-write-biometric?path=" +:+ encodeURIComponent path
         +:+ "&content=" +:+ encodeURIComponent content.
Proof.
  destruct (signWriteProposal_runs env path content tier w) as (new & Ht & _ & _ & Hrun).
  rewrite (events_of_new env _ _ _ Ht).
  destruct (sign_run_requests _ _ _ _ _ _ _ Hrun) as (H1 & _ & H3).
  split; [exact H1 |]. split; [exact H3 | reflexivity].
Qed.

(** C6: the code returns a placeholder. In every run of
    [signWriteProposal], for every environment, the [publicKey] of the
    posted proposal is the base64 of 65 zero bytes, whoever signs; the key
    registered for the signer (here the P-256 base point) encodes to
    something else. *)
Theorem proposal_publicKey_is_placeholder
    (env : Env) (w : World) (path content : string) (tier : option Z) :
  Forall placeholder_publicKey
    (events_of (BiometricManager.signWriteProposal path content tier) env w)
  /\ BiometricManager._arrayBufferToBase64 (Uint8Array_new 65)
     = "AAAAAAAAAAAAAAAAAAAAAAAAAAAAAAAAAAAAAAAAAAAAAAAAAAAAAAAAAAAAAAAAAAAAAAAAAAAAAAAAAAAAAAA="%string
  /\ BiometricManager._arrayBufferToBase64 P256.generator
     = "BGsX0fLhLEJH+Lzm5WOkQPJ3A32BLeszoPShOUXYmMKWT+NC4v4af5uO5+tKfA+eFivOM1drMV7Oy7ZAaDe/UfU="%string
  /\ map (fun e => match e with
                   | EvFetch req => body_field req "publicKey"
                   | _ => JUndefined
                   end)
       (List.filter is_post
          (events_of (BiometricManager.signWriteProposal "/x" "c" (Some 2)) Demo.granted
             Demo.registered))
     = [JStr "AAAAAAAAAAAAAAAAAAAAAAAAAAAAAAAAAAAAAAAAAAAAAAAAAAAAAAAAAAAAAAAAAAAAAAAAAAAAAAAAAAAAAAA="].
Proof.
  destruct (signWriteProposal_runs env path content tier w) as (new & Ht & _ & _ & Hrun).
  rewrite (events_of_new env _ _ _ Ht).
  destruct (sign_run_requests _ _ _ _ _ _ _ Hrun) as (_ & H2 & _).
  split; [exact H2 |].
  vm_compute. repeat split; reflexivity.
Qed.

(** C8. When the authenticator reports that the user declined
    ([NotAllowedError]), [register], [signWriteProposal] and
    [setupBiometricWallet] end in an error; once the prompt was shown that
    error is the cancellation error ("User cancelled biometric
    registration" / "... authentication"; for [setupBiometricWallet] the
    authenticator's own [NotAllowedError], announced to the caller as
    "Registration Cancelled"); nothing is written to either storage area,
    [register] and [setupBiometricWallet] send nothing, and
    [signWriteProposal] posts no proposal. *)
Theorem cancelled_prompt_is_rejected
    (env : Env) (w : World) (walletAddress : string) (deviceName : option string)
    (path content : string) (tier : option Z) :
  (forall tr o, exists msg,
      credentials_create env tr o = Throw (mkError "NotAllowedError" msg)) ->
  (forall tr o, exists msg,
      credentials_get env tr o = Throw (mkError "NotAllowedError" msg)) ->
  ((exists e, result_of (BiometricManager.register walletAddress deviceName) env w = Throw e)
   /\ (existsb is_prompt (events_of (BiometricManager.register walletAddress deviceName) env w)
       = true ->
       result_of (BiometricManager.register walletAddress deviceName) env w
       = Throw BiometricManager.user_cancelled_registration)
   /\ existsb is_fetch (events_of (BiometricManager.register walletAddress deviceName) env w)
      = false
   /\ localStorage (world_after (BiometricManager.register walletAddress deviceName) env w)
      = localStorage w
   /\ sessionStorage (world_after (BiometricManager.register walletAddress deviceName) env w)
      = sessionStorage w)
  /\ ((exists e,
         result_of (BiometricManager.signWriteProposal path content tier) env w = Throw e)
      /\ (existsb is_prompt
            (events_of (BiometricManager.signWriteProposal path content tier) env w) = true ->
          result_of (BiometricManager.signWriteProposal path content tier) env w
          = Throw BiometricManager.user_cancelled_authentication)
      /\ existsb is_post
           (events_of (BiometricManager.signWriteProposal path content tier) env w) = false
      /\ localStorage (world_after (BiometricManager.signWriteProposal path content tier) env w)
         = localStorage w
      /\ sessionStorage
           (world_after (BiometricManager.signWriteProposal path content tier) env w)
         = sessionStorage w)
  /\ ((exists e, result_of WalletCreation.setupBiometricWallet env w = Throw e)
      /\ (existsb is_prompt (events_of WalletCreation.setupBiometricWallet env w) = true ->
          (exists msg, result_of WalletCreation.setupBiometricWallet env w
                       = Throw (mkError "NotAllowedError" msg))
          /\ last (events_of WalletCreation.setupBiometricWallet env w)
             = Some registration_cancelled_status)
      /\ existsb is_fetch (events_of WalletCreation.setupBiometricWallet env w) = false
      /\ localStorage (world_after WalletCreation.setupBiometricWallet env w) = localStorage w
      /\ sessionStorage (world_after WalletCreation.setupBiometricWallet env w)
         = sessionStorage w).
Proof.
  intros Hcreate Hget. split; [| split].
  - destruct (register_runs env walletAddress deviceName w)
      as (new & stored & Ht & Hl & Hs & Hrun).
    rewrite (events_of_new env _ _ _ Ht).
    destruct (register_run_cancelled _ _ _ _ _ _ _ Hcreate Hrun) as (H1 & H2 & H3 & ->).
    repeat apply conj; assumption.
  - destruct (signWriteProposal_runs env path content tier w) as (new & Ht & Hl & Hs & Hrun).
    rewrite (events_of_new env _ _ _ Ht).
    destruct (sign_run_cancelled _ _ _ _ _ _ _ Hget Hrun) as (H1 & H2 & H3).
    repeat apply conj; assumption.
  - destruct (setupBiometricWallet_cancelled env w Hcreate) as (new & Ht & H1 & H2 & H3).
    rewrite (events_of_new env _ _ _ Ht).
    pose proof (setupBiometricWallet_storage env w) as Hst.
    destruct H1 as [e He]. rewrite He in Hst. destruct Hst as [Hl Hs].
    repeat apply conj; try assumption.
    exists e. exact He.
Qed.

Lemma cancelled_prompt_is_rejected_witness :
  (forall tr o, exists msg,
      credentials_create Demo.declined tr o = Throw (mkError "NotAllowedError" msg))
  /\ (forall tr o, exists msg,
        credentials_get Demo.declined tr o = Throw (mkError "NotAllowedError" msg))
  /\ result_of (BiometricManager.register Demo.wallet None) Demo.declined Demo.registered
     = Throw BiometricManager.user_cancelled_registration
  /\ result_of (BiometricManager.signWriteProposal "/x" "c" (Some 2)) Demo.declined
       Demo.registered
     = Throw BiometricManager.user_cancelled_authentication
  /\ last (events_of WalletCreation.setupBiometricWallet Demo.declined Demo.registered)
     = Some registration_cancelled_status.
Proof.
  assert (Hcreate : forall tr o, exists msg,
             credentials_create Demo.declined tr o = Throw (mkError "NotAllowedError" msg))
    by (intros tr o; eexists; reflexivity).
  assert (Hget : forall tr o, exists msg,
             credentials_get Demo.declined tr o = Throw (mkError "NotAllowedError" msg))
    by (intros tr o; eexists; reflexivity).
  split; [exact Hcreate |]. split; [exact Hget |].
  destruct (cancelled_prompt_is_rejected Demo.declined Demo.registered Demo.wallet None
              "/x" "c" (Some 2) Hcreate Hget) as [(_ & Hr & _) [(_ & Hs & _) (_ & Hu & _)]].
  split; [apply Hr | split; [apply Hs | apply Hu]]; vm_compute; reflexivity.
Defined.

(** C9, as stated, fails: with the network down when the proposal is
    posted, the run posts once, prompts once, and ends at once in the
    transport error; nothing is retried. *)
Lemma failed_submission_is_not_retried :
  result_of (BiometricManager.signWriteProposal "/x" "c" (Some 2)) Demo.offline
    Demo.registered
  = Throw Demo.failed_to_fetch
  /\ length (List.filter is_post
               (events_of (BiometricManager.signWriteProposal "/x" "c" (Some 2)) Demo.offline
                  Demo.registered)) = 1%nat
  /\ length (List.filter is_prompt
               (events_of (BiometricManager.signWriteProposal "/x" "c" (Some 2)) Demo.offline
                  Demo.registered)) = 1%nat
  /\ List.filter is_fetch
       (drop 4 (events_of (BiometricManager.signWriteProposal "/x" "c" (Some 2)) Demo.offline
                  Demo.registered))
     = [EvFetch (BiometricManager.proposal_request (JStr "proposal-1") (JStr Demo.wallet) "AQID"
                   "MAYCAQcCAQk="
                   (BiometricManager._arrayBufferToBase64 (Uint8Array_new 65))
                   (JStr "3q2+7w==") "/x" "c" (Some 2))].
Proof. vm_compute. repeat split; reflexivity. Qed.

(** C9, amended. [signWriteProposal] never retries: every run posts at
    most one proposal and prompts the user at most once; the proposal it
    posts comes right after the granted prompt and carries the signature
    of that prompt's assertion; and when that POST fails in transport the
    failure is the result of the run. *)
Theorem submission_is_not_retried
    (env : Env) (w : World) (path content : string) (tier : option Z) :
  (length (List.filter is_post
             (events_of (BiometricManager.signWriteProposal path content tier) env w)) <= 1)%nat
  /\ (length (List.filter is_prompt
                (events_of (BiometricManager.signWriteProposal path content tier) env w))
      <= 1)%nat
  /\ (existsb is_post
        (events_of (BiometricManager.signWriteProposal path content tier) env w) = true ->
      exists pre o a req,
        events_of (BiometricManager.signWriteProposal path content tier) env w
        = pre ++ [EvGet o; EvFetch req]
        /\ credentials_get env (trace w ++ pre) o = Ok a
        /\ body_field req "signature"
           = JStr (BiometricManager._arrayBufferToBase64 (assertion_signature a)))
  /\ (forall pre req e,
        events_of (BiometricManager.signWriteProposal path content tier) env w
        = pre ++ [EvFetch req] ->
        req_method req = "POST"%string ->
        fetch env (trace w ++ pre) req = Throw e ->
        result_of (BiometricManager.signWriteProposal path content tier) env w = Throw e).
Proof.
  destruct (signWriteProposal_runs env path content tier w) as (new & Ht & _ & _ & Hrun).
  rewrite (events_of_new env _ _ _ Ht).
  destruct (sign_run_counts _ _ _ _ _ _ _ Hrun) as (H1 & H2).
  split; [exact H1 |]. split; [exact H2 |]. split.
  - exact (sign_run_posts _ _ _ _ _ _ _ Hrun).
  - intros pre req e Hnew Hm Hf.
    exact (sign_run_surfaces _ _ _ _ _ _ _ _ _ _ Hrun Hnew Hm Hf).
Qed.

Lemma submission_is_not_retried_witness :
  events_of (BiometricManager.signWriteProposal "/x" "c" (Some 2)) Demo.offline
    Demo.registered
  = take 4 (events_of (BiometricManager.signWriteProposal "/x" "c" (Some 2)) Demo.offline
              Demo.registered)
    ++ [EvFetch (BiometricManager.proposal_request (JStr "proposal-1") (JStr Demo.wallet)
                   "AQID" "MAYCAQcCAQk="
                   (BiometricManager._arrayBufferToBase64 (Uint8Array_new 65))
                   (JStr "3q2+7w==") "/x" "c" (Some 2))]
  /\ fetch Demo.offline
       (trace Demo.registered
        ++ take 4 (events_of (BiometricManager.signWriteProposal "/x" "c" (Some 2))
                     Demo.offline Demo.registered))
       (BiometricManager.proposal_request (JStr "proposal-1") (JStr Demo.wallet)
          "AQID" "MAYCAQcCAQk="
          (BiometricManager._arrayBufferToBase64 (Uint8Array_new 65))
          (JStr "3q2+7w==") "/x" "c" (Some 2))
     = Throw Demo.failed_to_fetch
  /\ result_of (BiometricManager.signWriteProposal "/x" "c" (Some 2)) Demo.offline
       Demo.registered
     = Throw Demo.failed_to_fetch.
Proof.
  assert (H1 : events_of (BiometricManager.signWriteProposal "/x" "c" (Some 2)) Demo.offline
                 Demo.registered
               = take 4 (events_of (BiometricManager.signWriteProposal "/x" "c" (Some 2))
                           Demo.offline Demo.registered)
                 ++ [EvFetch (BiometricManager.proposal_request (JStr "proposal-1")
                                (JStr Demo.wallet) "AQID" "MAYCAQcCAQk="
                                (BiometricManager._arrayBufferToBase64 (Uint8Array_new 65))
                                (JStr "3q2+7w==") "/x" "c" (Some 2))])
    by (vm_compute; reflexivity).
  assert (H2 : fetch Demo.offline
                 (trace Demo.registered
                  ++ take 4 (events_of (BiometricManager.signWriteProposal "/x" "c" (Some 2))
                               Demo.offline Demo.registered))
                 (BiometricManager.proposal_request (JStr "proposal-1") (JStr Demo.wallet)
                    "AQID" "MAYCAQcCAQk="
                    (BiometricManager._arrayBufferToBase64 (Uint8Array_new 65))
                    (JStr "3q2+7w==") "/x" "c" (Some 2))
               = Throw Demo.failed_to_fetch)
    by (vm_compute; reflexivity).
  split; [exact H1 |]. split; [exact H2 |].
  destruct (submission_is_not_retried Demo.offline Demo.registered "/x" "c" (Some 2))
    as (_ & _ & _ & Hsurface).
  exact (Hsurface _ _ _ H1 eq_refl H2).
Defined.

(** ** The base64 helpers *)

(** C10. Decoding the base64 encoding of a byte array gives the array
    back: [_base64ToArrayBuffer (_arrayBufferToBase64 b)] returns [b], for
    every byte array [b]. *)
Theorem base64_roundtrip (b : list byte) :
  BiometricManager._base64ToArrayBuffer (BiometricManager._arrayBufferToBase64 b) = Ok b.
Proof.
  unfold BiometricManager._arrayBufferToBase64. rewrite binary_loop.
  change (EmptyString +:+ fromCharCode_apply b) with (fromCharCode_apply b).
  rewrite (base64ToArrayBuffer_atob _ _ (atob_btoa _)).
  unfold fromCharCode_apply. rewrite list_ascii_of_string_of_list_ascii, map_map.
  f_equal. rewrite <- (map_id b) at 2. apply map_ext. intros x.
  apply byte_of_ascii_of_byte.
Qed.

(** ** The scripts on concrete inputs *)

Example sha256_abc :
  to_hex (SHA256.digest (bytes_of_string "abc"))
  = "ba7816bf8f01cfea414140de5dae2223b00361a396177a9cb410ff61f20015ad"%string.
Proof. vm_compute. reflexivity. Qed.

Example sha256_two_blocks :
  to_hex (SHA256.digest (repeat x00 64))
  = "f5a5fd42d16a20302798ef6ed309979b43003d2320d9f0e8ea9831a92759fb4b"%string.
Proof. vm_compute. reflexivity. Qed.

Example btoa_Man : Base64.btoa "Man" = "TWFu"%string.
Proof. reflexivity. Qed.

Example btoa_Ma : Base64.btoa "Ma" = "TWE="%string.
Proof. reflexivity. Qed.

Example atob_padded : Base64.atob "TWE=" = Ok "Ma"%string.
Proof. reflexivity. Qed.

Example atob_spaces : Base64.atob " T Q = = " = Ok "M"%string.
Proof. reflexivity. Qed.

Example atob_bad_length : Base64.atob "TWFuT" = Throw Base64.InvalidCharacterError.
Proof. reflexivity. Qed.

Example encodeURIComponent_path :
  encodeURIComponent "/content/a b?x=1&y" = "%2Fcontent%2Fa%20b%3Fx%3D1%26y"%string.
Proof. reflexivity. Qed.

Example setup_then_close :
  map_to_list (localStorage (end_session
                 (world_after WalletCreation.setupBiometricWallet Demo.granted Demo.fresh)))
  = [("blockchain_aem_wallet_address", "0xaddress-of-0x698bea63");
     ("blockchain_aem_secp256k1_pubkey", "0x04-public-key-of-0x698bea63");
     ("blockchain_aem_credential_id", "AQID");
     ("blockchain_aem_p256_pubkey",
      "BGsX0fLhLEJH+Lzm5WOkQPJ3A32BLeszoPShOUXYmMKWT+NC4v4af5uO5+tKfA+eFivOM1drMV7Oy7ZAaDe/UfU=")]%string
  /\ sessionStorage (world_after WalletCreation.setupBiometricWallet Demo.granted Demo.fresh)
       !! "blockchain_aem_private_key"
     = Some "0x698bea63dc44a344663ff1429aea10842df27b6b991ef25866b2c6c02cdcc5be"%string
  /\ sessionStorage (end_session
                       (world_after WalletCreation.setupBiometricWallet Demo.granted Demo.fresh))
     = ∅.
Proof. vm_compute. repeat split; reflexivity. Qed.

(** * More about the scripts: lemmas *)

(** ** Hex strings and the passkey address *)

Section HexFacts.

Lemma hex2_shape (b : byte) :
  exists h l, hex2 b = String h (String l EmptyString)
              /\ is_lower_hex h = true /\ is_lower_hex l = true.
Proof.
  destruct b; eexists _, _; (split; [reflexivity |]); split; reflexivity.
Qed.

Lemma unhex2_hex2 (b : byte) : unhex2 (hex2 b) = b.
Proof. destruct b; reflexivity. Qed.

Lemma hex2_injective (a b : byte) : hex2 a = hex2 b -> a = b.
Proof.
  intros H. rewrite <- (unhex2_hex2 a), <- (unhex2_hex2 b), H. reflexivity.
Qed.

Lemma to_hex_cons (b : byte) (bs : list byte) : to_hex (b :: bs) = hex2 b +:+ to_hex bs.
Proof. reflexivity. Qed.

Lemma to_hex_lower bytes :
  forallb is_lower_hex (list_ascii_of_string (to_hex bytes)) = true.
Proof.
  induction bytes as [|b bytes IH]; [reflexivity |].
  rewrite to_hex_cons. destruct (hex2_shape b) as (h & l & -> & Hh & Hl).
  simpl. rewrite Hh, Hl. exact IH.
Qed.

Lemma to_hex_injective a b : to_hex a = to_hex b -> a = b.
Proof.
  revert b. induction a as [|x a IH]; intros [|y b] H.
  - reflexivity.
  - rewrite to_hex_cons in H. destruct (hex2_shape y) as (h & l & Hy & _). rewrite Hy in H.
    discriminate H.
  - rewrite to_hex_cons in H. destruct (hex2_shape x) as (h & l & Hx & _). rewrite Hx in H.
    discriminate H.
  - rewrite !to_hex_cons in H.
    destruct (hex2_shape x) as (h & l & Hx & _).
    destruct (hex2_shape y) as (h' & l' & Hy & _).
    assert (Hxy : hex2 x = hex2 y /\ to_hex a = to_hex b).
    { rewrite Hx, Hy in *. injection H as -> -> Ht. auto. }
    destruct Hxy as [Hxy Ht].
    f_equal; [exact (hex2_injective _ _ Hxy) | exact (IH _ Ht)].
Qed.

End HexFacts.

Section PasskeyAddress.

(** The 64 bytes [deriveEthereumAddress] hashes are bytes 1 to 64 of its
    input, with zeroes where the input is too short. *)
Lemma combined_any (k : list byte) :
  typed_set (typed_set (Uint8Array_new 64) (slice 1 33 k) 0) (slice 33 65 k) 32
  = take 64 (drop 1 k ++ repeat x00 64).
Proof.
  do 66 (destruct k as [|? k]; [reflexivity |]).
  reflexivity.
Qed.

Lemma passkey_address_normal_form (k : list byte) :
  PasskeyWallet.deriveEthereumAddress k
  = truncated_hash_address (take 64 (drop 1 k ++ repeat x00 64)).
Proof.
  unfold PasskeyWallet.deriveEthereumAddress, PasskeyWallet.keccak256.
  rewrite combined_any. reflexivity.
Qed.

End PasskeyAddress.

(** ** base64 and base64url *)

Section Base64Url.
Import Base64 BiometricManager.

#[local] Arguments Z.mul : simpl never.
#[local] Arguments Z.add : simpl never.
#[local] Arguments Z.div : simpl never.
#[local] Arguments Z.modulo : simpl never.
#[local] Arguments char_of : simpl never.


Lemma replace_char_list a b l :
  replace_char a b (string_of_list_ascii l) = string_of_list_ascii (map (swap_char a b) l).
Proof.
  induction l as [|c l IH]; [reflexivity |]. simpl. rewrite IH. reflexivity.
Qed.

Lemma string_of_app l l' :
  string_of_list_ascii (l ++ l') = string_of_list_ascii l +:+ string_of_list_ascii l'.
Proof.
  induction l as [|c l IH]; [reflexivity |].
  simpl. rewrite IH. reflexivity.
Qed.

Lemma repeat_char_list c n : repeat_char c n = string_of_list_ascii (repeat c n).
Proof. induction n as [|n IH]; [reflexivity |]. simpl. rewrite IH. reflexivity. Qed.

Lemma length_string_of l : String.length (string_of_list_ascii l) = length l.
Proof. induction l as [|c l IH]; [reflexivity |]. simpl. rewrite IH. reflexivity. Qed.

Lemma mod4_step n : (S (S (S (S n))) mod 4 = n mod 4)%nat.
Proof.
  replace (S (S (S (S n)))) with (n + 1 * 4)%nat by lia. apply Nat.Div0.mod_add.
Qed.

(** Neither [-] nor [_] is a base64 character. *)
Lemma alphabet_url_free n : 0 <= n < 64 -> url_free (char_of n).
Proof.
  intros Hn.
  assert (Hk : exists k : nat, n = Z.of_nat k /\ (k < 64)%nat).
  { exists (Z.to_nat n). lia. }
  destruct Hk as (k & -> & Hk).
  do 64 (destruct k as [|k]; [split; reflexivity |]).
  lia.
Qed.

Lemma url_and_back c :
  url_free c -> swap_char "_" "/" (swap_char "-" "+" (swap_char "/" "_" (swap_char "+" "-" c))) = c.
Proof.
  intros [H1 H2].
  destruct c as [[] [] [] [] [] [] [] []]; first [reflexivity | discriminate H1 | discriminate H2].
Qed.

(** An encoding is its unpadded part followed by the padding
    [_base64UrlToBase64] restores. *)
Lemma encode_padding l :
  exists k,
    encode l = strip_end (encode l) ++ repeat "="%char k
    /\ k = ((4 - length (strip_end (encode l)) mod 4) mod 4)%nat
    /\ Forall url_free (strip_end (encode l)).
Proof.
  induction l as [| a | a b | a b c l IH] using list_ind3.
  - exists 0%nat. repeat split. constructor.
  - destruct (group1 (code a) (code_range a)) as (H0 & _).
    exists 2%nat. simpl. repeat split.
    repeat (constructor; [apply alphabet_url_free; first [exact H0 | apply sextet_range] |]).
    constructor.
  - destruct (group2 (code a) (code b) (code_range a) (code_range b)) as (H0 & _).
    set (n := code a * 65536 + code b * 256) in *.
    destruct (alphabet_facts _ (sextet_range n 64)) as (_ & _ & E2).
    exists 1%nat. simpl. fold n. rewrite E2. simpl. repeat split.
    repeat (constructor; [apply alphabet_url_free; first [exact H0 | apply sextet_range] |]).
    constructor.
  - destruct (group3 (code a) (code b) (code c) (code_range a) (code_range b) (code_range c))
      as (H0 & _).
    set (n := code a * 65536 + code b * 256 + code c) in *.
    destruct (alphabet_facts _ H0) as (_ & _ & E0).
    destruct (alphabet_facts _ (sextet_range n 4096)) as (_ & _ & E1).
    destruct (alphabet_facts _ (sextet_range n 64)) as (_ & _ & E2).
    destruct (alphabet_facts _ (low_sextet_range n)) as (_ & _ & E3).
    destruct IH as (k & IHe & IHk & IHf).
    change (encode (a :: b :: c :: l)) with
      (char_of (n / 262144) :: char_of (n / 4096 mod 64) :: char_of (n / 64 mod 64)
         :: char_of (n mod 64) :: encode l).
    rewrite !strip_end_cons by assumption.
    exists k. split; [| split].
    + cbn [app]. rewrite <- IHe. reflexivity.
    + cbn [length]. rewrite mod4_step. exact IHk.
    + repeat (constructor;
                [apply alphabet_url_free;
                 first [exact H0 | apply sextet_range | apply low_sextet_range] |]).
      exact IHf.
Qed.

Lemma encode_length l : length (encode l) = (4 * ((length l + 2) / 3))%nat.
Proof.
  induction l as [| a | a b | a b c l IH] using list_ind3; try reflexivity.
  change (encode (a :: b :: c :: l)) with
    (char_of ((code a * 65536 + code b * 256 + code c) / 262144)
       :: char_of ((code a * 65536 + code b * 256 + code c) / 4096 mod 64)
       :: char_of ((code a * 65536 + code b * 256 + code c) / 64 mod 64)
       :: char_of ((code a * 65536 + code b * 256 + code c) mod 64) :: encode l).
  cbn [length]. rewrite IH.
  replace (S (S (S (length l))) + 2)%nat with ((length l + 2) + 1 * 3)%nat by lia.
  rewrite Nat.div_add by lia. lia.
Qed.

Lemma arrayBufferToBase64_btoa b :
  _arrayBufferToBase64 b = btoa (fromCharCode_apply b).
Proof. unfold _arrayBufferToBase64. rewrite binary_loop. reflexivity. Qed.

Lemma base64UrlToBase64_base64url b :
  _base64UrlToBase64 (base64url b) = _arrayBufferToBase64 b.
Proof.
  rewrite arrayBufferToBase64_btoa. unfold btoa, fromCharCode_apply.
  rewrite list_ascii_of_string_of_list_ascii.
  unfold _base64UrlToBase64, base64url.
  destruct (encode_padding (map ascii_of_byte b)) as (k & He & Hk & Hf).
  set (body := strip_end (encode (map ascii_of_byte b))) in *.
  rewrite !replace_char_list, !map_map.
  assert (Hback : map (fun c => swap_char "_" "/" (swap_char "-" "+"
                                  (swap_char "/" "_" (swap_char "+" "-" c)))) body = body).
  { clear He Hk. induction Hf as [|c body Hc _ IH]; [reflexivity |].
    simpl. rewrite IH, (url_and_back c Hc). reflexivity. }
  rewrite Hback, length_string_of. rewrite He.
  destruct (length body mod 4)%nat as [|[|[|[|m]]]] eqn:Hm.
  - subst k. simpl. rewrite app_nil_r. reflexivity.
  - subst k. simpl (_ =? _)%nat. cbv iota.
    rewrite repeat_char_list, <- string_of_app. reflexivity.
  - subst k. simpl (_ =? _)%nat. cbv iota.
    rewrite repeat_char_list, <- string_of_app. reflexivity.
  - subst k. simpl (_ =? _)%nat. cbv iota.
    rewrite repeat_char_list, <- string_of_app. reflexivity.
  - pose proof (Nat.mod_upper_bound (length body) 4 ltac:(lia)). lia.
Qed.

(** Whatever the input, the result has a length that is a multiple of
    four and holds neither [-] nor [_]. *)
Lemma swap_char_absent a b c : a <> b -> Ascii.eqb (swap_char a b c) a = false.
Proof.
  intros Hab. unfold swap_char.
  destruct (Ascii.eqb c a) eqn:Hc; [| exact Hc].
  apply Ascii.eqb_neq. congruence.
Qed.

Lemma list_ascii_replace a b s :
  list_ascii_of_string (replace_char a b s) = map (swap_char a b) (list_ascii_of_string s).
Proof. induction s as [|c s IH]; [reflexivity |]. simpl. rewrite IH. reflexivity. Qed.

Lemma length_replace a b s : String.length (replace_char a b s) = String.length s.
Proof. induction s as [|c s IH]; [reflexivity |]. simpl. rewrite IH. reflexivity. Qed.

Lemma length_repeat_char c n : String.length (repeat_char c n) = n.
Proof. induction n as [|n IH]; [reflexivity |]. simpl. rewrite IH. reflexivity. Qed.

Lemma base64UrlToBase64_length s : (String.length (_base64UrlToBase64 s) mod 4 = 0)%nat.
Proof.
  unfold _base64UrlToBase64.
  set (base64 := replace_char "_" "/" (replace_char "-" "+" s)).
  destruct (String.length base64 mod 4 =? 0)%nat eqn:Hp.
  - apply Nat.eqb_eq in Hp. exact Hp.
  - apply Nat.eqb_neq in Hp.
    rewrite length_append, length_repeat_char.
    pose proof (Nat.mod_upper_bound (String.length base64) 4 ltac:(lia)) as Hlt.
    pose proof (Nat.div_mod_eq (String.length base64) 4) as Hdm.
    replace (String.length base64 + (4 - String.length base64 mod 4))%nat
      with (0 + (String.length base64 / 4 + 1) * 4)%nat by lia.
    apply Nat.Div0.mod_add.
Qed.

End Base64Url.

(** ** The challenge URL *)

Section UriFacts.

Lemma encodeURIComponent_cons c r :
  encodeURIComponent (String c r) = encoded_char c +:+ encodeURIComponent r.
Proof. reflexivity. Qed.

Lemma decode_head_encoded c r : decode_head (encoded_char c +:+ r) = Some (c, r).
Proof.
  destruct c as [[] [] [] [] [] [] [] []]; reflexivity.
Qed.

Lemma encoded_char_no_ampersand c r :
  has_ampersand (encoded_char c +:+ r) = has_ampersand r.
Proof.
  destruct c as [[] [] [] [] [] [] [] []]; reflexivity.
Qed.

Lemma encodeURIComponent_no_ampersand s : has_ampersand (encodeURIComponent s) = false.
Proof.
  induction s as [|c s IH]; [reflexivity |].
  rewrite encodeURIComponent_cons, encoded_char_no_ampersand. exact IH.
Qed.

Lemma encodeURIComponent_injective s s' :
  encodeURIComponent s = encodeURIComponent s' -> s = s'.
Proof.
  revert s'. induction s as [|c s IH]; intros [|c' s'] H.
  - reflexivity.
  - apply (f_equal decode_head) in H.
    rewrite encodeURIComponent_cons, decode_head_encoded in H. discriminate H.
  - apply (f_equal decode_head) in H.
    rewrite encodeURIComponent_cons, decode_head_encoded in H. discriminate H.
  - apply (f_equal decode_head) in H.
    rewrite !encodeURIComponent_cons, !decode_head_encoded in H.
    injection H as -> H. f_equal. exact (IH _ H).
Qed.

(** Two strings without [&] that agree once [&] and a tail are appended
    agree, and so do the tails. *)
Lemma split_at_ampersand a a' t t' :
  has_ampersand a = false -> has_ampersand a' = false ->
  a +:+ String "&" t = a' +:+ String "&" t' -> a = a' /\ t = t'.
Proof.
  revert a'. induction a as [|c a IH]; intros [|c' a'] Ha Ha' H.
  - injection H as H. auto.
  - rewrite append_cons in H. injection H as <- _. discriminate Ha'.
  - rewrite append_cons in H. injection H as -> _. discriminate Ha.
  - rewrite !append_cons in H. injection H as -> H.
    simpl in Ha, Ha'. apply orb_false_elim in Ha as [_ Ha]. apply orb_false_elim in Ha' as [_ Ha'].
    destruct (IH _ Ha Ha' H) as [-> ->]. auto.
Qed.

Lemma append_inj_l (p a b : string) : p +:+ a = p +:+ b -> a = b.
Proof.
  induction p as [|c p IH]; [auto |].
  rewrite !append_cons. intros H. injection H as H. exact (IH H).
Qed.

Lemma challenge_url_injective path content path' content' :
  BiometricManager.challenge_url path content = BiometricManager.challenge_url path' content' ->
  path = path' /\ content = content'.
Proof.
  unfold BiometricManager.challenge_url. intros H.
  apply append_inj_l in H.
  change ("&content=" +:+ encodeURIComponent content)
    with (String "&" ("content=" +:+ encodeURIComponent content)) in H.
  change ("&content=" +:+ encodeURIComponent content')
    with (String "&" ("content=" +:+ encodeURIComponent content')) in H.
  apply split_at_ampersand in H as [Hp Hc];
    [| apply encodeURIComponent_no_ampersand..].
  apply append_inj_l in Hc.
  split; apply encodeURIComponent_injective; assumption.
Qed.

End UriFacts.

(** ** [Utf16.encodeURIComponent] on every string *)

Section Utf16Facts.

Lemma byte_to_Z_of_Z z : 0 <= z < 256 -> byte_to_Z (byte_of_Z z) = z.
Proof.
  intros Hz. unfold byte_of_Z, byte_to_Z.
  rewrite Z.mod_small by lia.
  destruct (Byte.of_N (Z.to_N z)) as [b|] eqn:Hb.
  - apply Byte.to_of_N in Hb. rewrite Hb. lia.
  - apply Byte.of_N_None_iff in Hb. lia.
Qed.

Lemma byte_of_Z_to_Z b : byte_of_Z (byte_to_Z b) = b.
Proof. destruct b; reflexivity. Qed.

Lemma read_escape_byte b s : read_escape (percent b +:+ s) = Some (byte_to_Z b, s).
Proof. destruct b; reflexivity. Qed.

Lemma read_escape_percent z s :
  0 <= z < 256 -> read_escape (percent (byte_of_Z z) +:+ s) = Some (z, s).
Proof.
  intros Hz. rewrite read_escape_byte, byte_to_Z_of_Z by exact Hz. reflexivity.
Qed.

Lemma ampersand_percent b s : has_ampersand (percent b +:+ s) = has_ampersand s.
Proof. destruct b; reflexivity. Qed.

Lemma code_chr z : 0 <= z < 256 -> code (chr z) = z.
Proof.
  intros Hz. unfold code, chr.
  rewrite N_ascii_embedding by lia. lia.
Qed.

Lemma decode_units_literal c s :
  uri_unreserved c = true ->
  decode_units (String c s) = Some ([code c], s) /\ Ascii.eqb c "&" = false.
Proof.
  intros H.
  destruct c as [[] [] [] [] [] [] [] []];
    first [split; reflexivity | vm_compute in H; discriminate H].
Qed.


Ltac decide_lt :=
  repeat match goal with
         | |- context [if ?a <? ?b then _ else _] =>
             destruct (Z.ltb_spec a b); try (exfalso; euclid)
         end.

Ltac read_octet := rewrite read_escape_percent by euclid; cbv beta iota.

Lemma surrogate_ranges u :
  (Utf16.is_leading_surrogate u = true <-> 55296 <= u <= 56319)
  /\ (Utf16.is_trailing_surrogate u = true <-> 56320 <= u <= 57343)
  /\ (Utf16.is_code_unit u = true <-> 0 <= u < 65536).
Proof.
  unfold Utf16.is_leading_surrogate, Utf16.is_trailing_surrogate, Utf16.is_code_unit.
  rewrite !andb_true_iff, !Z.leb_le, !Z.ltb_lt. tauto.
Qed.

Lemma decode_units_single u s :
  0 <= u < 65536 -> Utf16.is_leading_surrogate u = false -> Utf16.is_trailing_surrogate u = false ->
  decode_units (Utf16.escape u +:+ s) = Some ([u], s).
Proof.
  intros Hu Hl Ht.
  assert (Hns : u < 55296 \/ 57344 <= u).
  { destruct (surrogate_ranges u) as (H1 & H2 & _).
    destruct (Z_lt_dec u 55296); [auto |]. destruct (Z_le_dec 57344 u); [auto |].
    destruct (Z_le_dec u 56319).
    - rewrite (proj2 H1) in Hl by lia. discriminate Hl.
    - rewrite (proj2 H2) in Ht by lia. discriminate Ht. }
  clear Hl Ht.
  unfold Utf16.escape, Utf16.utf8.
  destruct (Z.ltb_spec u 128); [| destruct (Z.ltb_spec u 2048); [| destruct (Z.ltb_spec u 65536)]];
    cbn [fold_right]; rewrite ?append_assoc_string; change (EmptyString +:+ s) with s;
    unfold decode_units.
  - read_octet. decide_lt. reflexivity.
  - read_octet. decide_lt. read_octet. decide_lt. do 3 f_equal. euclid.
  - read_octet. decide_lt. read_octet. decide_lt. read_octet. decide_lt. do 3 f_equal. euclid.
  - lia.
Qed.

Lemma decode_units_pair u v s :
  Utf16.is_leading_surrogate u = true -> Utf16.is_trailing_surrogate v = true ->
  decode_units (Utf16.escape (Utf16.pair_code_point u v) +:+ s) = Some ([u; v], s).
Proof.
  intros Hl Ht.
  apply (proj1 (surrogate_ranges u)) in Hl. apply (proj1 (proj2 (surrogate_ranges v))) in Ht.
  unfold Utf16.escape, Utf16.utf8, Utf16.pair_code_point.
  set (cp := (u - 55296) * 1024 + (v - 56320) + 65536).
  assert (Hcp : 65536 <= cp < 1114112) by (subst cp; lia).
  destruct (Z.ltb_spec cp 128); [lia |]. destruct (Z.ltb_spec cp 2048); [lia |].
  destruct (Z.ltb_spec cp 65536); [lia |].
  cbn [fold_right]. rewrite ?append_assoc_string. change (EmptyString +:+ s) with s.
  unfold decode_units.
  read_octet. decide_lt. read_octet. decide_lt. read_octet. decide_lt. read_octet.
  replace ((240 + cp / 262144 - 240) * 262144 + (128 + cp / 4096 mod 64 - 128) * 4096
           + (128 + cp / 64 mod 64 - 128) * 64 + (128 + cp mod 64 - 128)) with cp by euclid.
  do 2 f_equal. subst cp. f_equal; [| f_equal]; euclid.
Qed.

Lemma ampersand_escape cp s : has_ampersand (Utf16.escape cp +:+ s) = has_ampersand s.
Proof.
  unfold Utf16.escape, Utf16.utf8.
  destruct (cp <? 128); [| destruct (cp <? 2048); [| destruct (cp <? 65536)]];
    cbn [fold_right]; rewrite ?append_assoc_string; change (EmptyString +:+ s) with s;
    rewrite !ampersand_percent; reflexivity.
Qed.

(** What the head of an encoded text tells: the first code point's code
    units, and the encoding of the rest. *)
Lemma encode_head u r s :
  Utf16.is_text (u :: r) = true ->
  Utf16.encodeURIComponent (u :: r) = Ok s ->
  exists h tl s',
    u :: r = h ++ tl /\ (length tl < length (u :: r))%nat
    /\ Utf16.is_text tl = true
    /\ Utf16.encodeURIComponent tl = Ok s'
    /\ decode_units s = Some (h, s')
    /\ has_ampersand s = has_ampersand s'.
Proof.
  intros Ht He. cbn [Utf16.is_text forallb] in Ht. apply andb_prop in Ht as [Hu Hr].
  fold (Utf16.is_text r) in Hr.
  apply (proj1 (proj2 (proj2 (surrogate_ranges u)))) in Hu.
  cbn [Utf16.encodeURIComponent] in He.
  destruct (Utf16.unescaped u) eqn:Hun.
  - destruct (Utf16.encodeURIComponent r) as [s1 |] eqn:Hs1; [| discriminate He].
    injection He as <-.
    unfold Utf16.unescaped in Hun. apply andb_prop in Hun as [Hrange Hc].
    apply andb_prop in Hrange as [H0 H128]. apply Z.leb_le in H0. apply Z.ltb_lt in H128.
    destruct (decode_units_literal (chr u) s1 Hc) as [Hd Ha].
    rewrite code_chr in Hd by lia.
    exists [u], r, s1. repeat apply conj; auto.
    simpl. rewrite Ha. reflexivity.
  - destruct (Utf16.is_trailing_surrogate u) eqn:Htr; [discriminate He |].
    destruct (Utf16.is_leading_surrogate u) eqn:Hle.
    + destruct r as [|v r']; [discriminate He |].
      destruct (Utf16.is_trailing_surrogate v) eqn:Hv; [| discriminate He].
      destruct (Utf16.encodeURIComponent r') as [s1 |] eqn:Hs1; [| discriminate He].
      injection He as <-.
      cbn [Utf16.is_text forallb] in Hr. apply andb_prop in Hr as [_ Hr'].
      exists [u; v], r', s1. repeat apply conj; auto.
      * simpl. lia.
      * apply decode_units_pair; assumption.
      * apply ampersand_escape.
    + destruct (Utf16.encodeURIComponent r) as [s1 |] eqn:Hs1; [| discriminate He].
      injection He as <-.
      exists [u], r, s1. repeat apply conj; auto.
      * apply decode_units_single; assumption.
      * apply ampersand_escape.
Qed.

Lemma encode_no_ampersand n : forall t s,
  (length t <= n)%nat -> Utf16.is_text t = true -> Utf16.encodeURIComponent t = Ok s ->
  has_ampersand s = false.
Proof.
  induction n as [|n IH]; intros [|u r] s Hn Ht He;
    try (injection He as <-; reflexivity); [simpl in Hn; lia |].
  destruct (encode_head u r s Ht He) as (h & tl & s' & _ & Hlen & Htl & Hs' & _ & ->).
  apply (IH tl s'); [simpl in Hn, Hlen; lia | exact Htl | exact Hs'].
Qed.

Lemma encode_injective n : forall t t' s,
  (length t <= n)%nat -> Utf16.is_text t = true -> Utf16.is_text t' = true ->
  Utf16.encodeURIComponent t = Ok s -> Utf16.encodeURIComponent t' = Ok s -> t = t'.
Proof.
  induction n as [|n IH]; intros [|u r] [|u' r'] s Hn Ht Ht' He He';
    try reflexivity; try (simpl in Hn; lia).
  - injection He as <-.
    destruct (encode_head u' r' _ Ht' He') as (h & tl & s' & _ & _ & _ & _ & Hd & _).
    discriminate Hd.
  - injection He as <-.
    destruct (encode_head u' r' _ Ht' He') as (h & tl & s' & _ & _ & _ & _ & Hd & _).
    discriminate Hd.
  - injection He' as <-.
    destruct (encode_head u r _ Ht He) as (h & tl & s' & _ & _ & _ & _ & Hd & _).
    discriminate Hd.
  - destruct (encode_head u r s Ht He) as (h & tl & s1 & E & Hlen & Htl & Hs1 & Hd & _).
    destruct (encode_head u' r' s Ht' He') as (h' & tl' & s1' & E' & _ & Htl' & Hs1' & Hd' & _).
    rewrite Hd in Hd'. injection Hd' as <- <-.
    rewrite E, E'. f_equal.
    apply (IH tl tl' s1); try assumption.
    simpl in Hn, Hlen. lia.
Qed.

(** On a [string] the function is the one the scripts are modelled with. *)
Lemma encode_of_string s :
  Utf16.encodeURIComponent (Utf16.of_string s) = Ok (encodeURIComponent s)
  /\ Utf16.is_text (Utf16.of_string s) = true.
Proof.
  induction s as [|c s [IH IHt]]; [split; reflexivity |].
  split.
  - change (Utf16.of_string (String c s)) with (code c :: Utf16.of_string s).
    rewrite encodeURIComponent_cons. cbn [Utf16.encodeURIComponent]. rewrite IH.
    destruct c as [[] [] [] [] [] [] [] []]; reflexivity.
  - change (Utf16.of_string (String c s)) with (code c :: Utf16.of_string s).
    cbn [Utf16.is_text forallb]. fold (Utf16.is_text (Utf16.of_string s)). rewrite IHt.
    pose proof (code_range c). unfold Utf16.is_code_unit.
    rewrite (proj2 (Z.leb_le _ _)), (proj2 (Z.ltb_lt _ _)) by lia. reflexivity.
Qed.

End Utf16Facts.

Section Utf16Errors.

Lemma encode_throws n : forall t e,
  (length t <= n)%nat -> Utf16.encodeURIComponent t = Throw e ->
  e = Utf16.URIError
  /\ exists u, In u t
       /\ (Utf16.is_leading_surrogate u || Utf16.is_trailing_surrogate u) = true.
Proof.
  induction n as [|n IH]; intros [|u r] e Hn He;
    try discriminate He; [simpl in Hn; lia |].
  assert (Hrec : forall tl, (length tl < length (u :: r))%nat -> (forall x, In x tl -> In x (u :: r)) ->
                 Utf16.encodeURIComponent tl = Throw e ->
                 e = Utf16.URIError
                 /\ exists x, In x (u :: r)
                      /\ (Utf16.is_leading_surrogate x || Utf16.is_trailing_surrogate x) = true).
  { intros tl Hlen Hsub Htl.
    destruct (IH tl e) as (He1 & x & Hx & Hs); [simpl in Hn, Hlen; lia | exact Htl |].
    split; [exact He1 |]. exists x. split; [apply Hsub, Hx | exact Hs]. }
  cbn [Utf16.encodeURIComponent] in He.
  destruct (Utf16.unescaped u).
  - destruct (Utf16.encodeURIComponent r) as [s1 | e1] eqn:Hs1; [discriminate He |].
    injection He as <-. apply (Hrec r); [simpl; lia | intros x Hx; right; exact Hx | exact Hs1].
  - destruct (Utf16.is_trailing_surrogate u) eqn:Htr.
    { injection He as <-. split; [reflexivity |]. exists u. split; [left; reflexivity |].
      rewrite Htr. apply orb_true_r. }
    destruct (Utf16.is_leading_surrogate u) eqn:Hle.
    + assert (Hu : exists x, In x (u :: r)
                     /\ (Utf16.is_leading_surrogate x || Utf16.is_trailing_surrogate x) = true).
      { exists u. split; [left; reflexivity |]. rewrite Hle. reflexivity. }
      destruct r as [|v r']; [injection He as <-; auto |].
      destruct (Utf16.is_trailing_surrogate v); [| injection He as <-; auto].
      destruct (Utf16.encodeURIComponent r') as [s1 | e1] eqn:Hs1; [discriminate He |].
      injection He as <-.
      apply (Hrec r'); [simpl; lia | intros x Hx; right; right; exact Hx | exact Hs1].
    + destruct (Utf16.encodeURIComponent r) as [s1 | e1] eqn:Hs1; [discriminate He |].
      injection He as <-. apply (Hrec r); [simpl; lia | intros x Hx; right; exact Hx | exact Hs1].
Qed.

Lemma challenge_url_of_string p c :
  Utf16.challenge_url (Utf16.of_string p) (Utf16.of_string c)
  = Ok (BiometricManager.challenge_url p c).
Proof.
  unfold Utf16.challenge_url.
  rewrite (proj1 (encode_of_string p)), (proj1 (encode_of_string c)). reflexivity.
Qed.

Lemma challenge_url_text_injective path content path' content' url :
  Utf16.is_text path = true -> Utf16.is_text content = true ->
  Utf16.is_text path' = true -> Utf16.is_text content' = true ->
  Utf16.challenge_url path content = Ok url ->
  Utf16.challenge_url path' content' = Ok url ->
  path = path' /\ content = content'.
Proof.
  intros Hp Hc Hp' Hc' H H'. unfold Utf16.challenge_url in H, H'.
  destruct (Utf16.encodeURIComponent path) as [p |] eqn:Ep; [| discriminate H].
  destruct (Utf16.encodeURIComponent content) as [c |] eqn:Ec; [| discriminate H].
  destruct (Utf16.encodeURIComponent path') as [p' |] eqn:Ep'; [| discriminate H'].
  destruct (Utf16.encodeURIComponent content') as [c' |] eqn:Ec'; [| discriminate H'].
  injection H as <-. injection H' as H'.
  apply append_inj_l in H'.
  change ("&content=" +:+ c') with (String "&" ("content=" +:+ c')) in H'.
  change ("&content=" +:+ c) with (String "&" ("content=" +:+ c)) in H'.
  apply split_at_ampersand in H' as [<- Hcc].
  - apply append_inj_l in Hcc. subst c'.
    split.
    + exact (encode_injective _ _ _ _ (le_n _) Hp Hp' Ep Ep').
    + exact (encode_injective _ _ _ _ (le_n _) Hc Hc' Ec Ec').
  - exact (encode_no_ampersand _ _ _ (le_n _) Hp' Ep').
  - exact (encode_no_ampersand _ _ _ (le_n _) Hp Ep).
Qed.

End Utf16Errors.

Section DecodeFacts.
Import Base64 BiometricManager.

Lemma base64ToArrayBuffer_arrayBufferToBase64 (b : list byte) :
  _base64ToArrayBuffer (_arrayBufferToBase64 b) = Ok b.
Proof.
  rewrite arrayBufferToBase64_btoa.
  rewrite (base64ToArrayBuffer_atob _ _ (atob_btoa _)).
  unfold fromCharCode_apply.
  rewrite list_ascii_of_string_of_list_ascii, map_map.
  f_equal. rewrite <- (map_id b) at 2. apply map_ext.
  intros x. apply byte_of_ascii_of_byte.
Qed.

Lemma strip_end_keeps c l :
  In c l -> Ascii.eqb c "=" = false -> In c (strip_end l).
Proof.
  intros Hin Hc. induction l as [|d l IH]; [destruct Hin |].
  destruct Hin as [<- | Hin].
  - rewrite (strip_end_cons _ _ Hc). left; reflexivity.
  - specialize (IH Hin).
    destruct l as [|e [|f l]]; [destruct Hin | |].
    + destruct Hin as [<- | []].
      simpl. rewrite Hc, andb_false_r. right; left; reflexivity.
    + right. exact IH.
Qed.

Lemma sextets_of_outside c l :
  In c l -> index_of c = None -> sextets_of l = None.
Proof.
  induction l as [|d l IH]; [intros [] |].
  intros [-> | Hin] Hc; simpl.
  - rewrite Hc. reflexivity.
  - rewrite (IH Hin Hc). destruct (index_of d); reflexivity.
Qed.

Lemma atob_outside c s :
  In c (list_ascii_of_string s) -> index_of c = None ->
  is_ascii_whitespace c = false -> Ascii.eqb c "=" = false ->
  atob s = Throw InvalidCharacterError.
Proof.
  intros Hin Hidx Hws Heq. unfold atob.
  set (data := List.filter _ _).
  assert (Hd : In c data).
  { apply List.filter_In. split; [exact Hin | now rewrite Hws]. }
  destruct (length data mod 4 =? 0)%nat.
  - destruct (_ =? 1)%nat; [reflexivity |].
    rewrite (sextets_of_outside c _ (strip_end_keeps _ _ Hd Heq) Hidx). reflexivity.
  - destruct (_ =? 1)%nat; [reflexivity |].
    rewrite (sextets_of_outside c _ Hd Hidx). reflexivity.
Qed.

End DecodeFacts.

(** ** Availability and the current wallet *)

Section Availability.
Import BiometricManager.

Lemma isAvailable_run env w :
  isAvailable env w
  = if has_PublicKeyCredential env
    then (Ok (match isUVPAA env (trace w) with Ok b => b | Throw _ => false end),
          mkWorld (localStorage w) (sessionStorage w) (trace w ++ [EvIsUVPAA]))
    else (Ok false, w).
Proof.
  destruct w as [ls ss tr]. unfold isAvailable. run_script; reflexivity.
Qed.

Lemma register_unavailable env w walletAddress deviceName :
  fst (isAvailable env w) = Ok false ->
  register walletAddress deviceName env w
  = (Throw (Error "Biometric authentication not available"), snd (isAvailable env w)).
Proof.
  intros H. unfold register. unfold_monad.
  destruct (isAvailable env w) as [[[]|] w']; simpl in H; try discriminate H. reflexivity.
Qed.

Lemma signWriteProposal_unavailable env w path content tier :
  fst (isAvailable env w) = Ok false ->
  signWriteProposal path content tier env w
  = (Throw (Error "Biometric authentication not available"), snd (isAvailable env w)).
Proof.
  intros H. unfold signWriteProposal. unfold_monad.
  destruct (isAvailable env w) as [[[]|] w']; simpl in H; try discriminate H. reflexivity.
Qed.

Lemma prefix_0x_truthy s : String.prefix "0x" s = true -> truthy (JStr s) = true.
Proof. destruct s; [discriminate | reflexivity]. Qed.

Lemma getCurrentWalletAddress_session env w :
  ethereum env = None ->
  exists v,
    _getCurrentWalletAddress env w
    = (Ok v, mkWorld (localStorage w) (sessionStorage w)
               (trace w ++ [EvFetch session_info_request]))
    /\ ((exists userId, session_names env (trace w) userId /\ v = JStr userId)
        \/ ((forall userId, ~ session_names env (trace w) userId) /\ v = JNull)).
Proof.
  intros He. destruct w as [ls ss tr]. unfold _getCurrentWalletAddress, startsWith.
  run_script.
  all: try congruence.
  all: eexists; split; [reflexivity |].
  all: first
    [ left; eexists; split; [| reflexivity];
      do 2 eexists; repeat apply conj; eassumption
    | right; split; [| reflexivity];
      intros userId (response & data & Hf & Hok & Hj & Hu & Hp); cbn [trace] in Hf;
      pose proof (prefix_0x_truthy _ Hp); congruence ].
Qed.

End Availability.

(** ** The passkey variant: what [setupBiometricWallet] stores *)

Section PasskeySetup.
Import PasskeyWallet.


End PasskeySetup.

(** ** The prompt of [signWriteProposal] *)

Section PromptFacts.
Import BiometricManager.

Lemma proposal_body proposalId walletAddress credentialId signature publicKey challenge
    path content tier :
  body_field (proposal_request proposalId walletAddress credentialId signature publicKey
                challenge path content tier) "challenge" = challenge
  /\ body_field (proposal_request proposalId walletAddress credentialId signature publicKey
                   challenge path content tier) "credentialId" = JStr credentialId
  /\ body_field (proposal_request proposalId walletAddress credentialId signature publicKey
                   challenge path content tier) "walletAddress" = walletAddress.
Proof.
  destruct proposalId, walletAddress, challenge; repeat split; reflexivity.
Qed.

Lemma truthy_item_some s : truthy_item (Some s) = true -> s <> EmptyString.
Proof. intros H ->. discriminate H. Qed.

Ltac prompt_step :=
  match goal with
  | |- True => exact I
  | |- _ /\ _ => split
  | |- Forall _ [] => constructor
  | |- Forall _ (_ :: _) => constructor
  | |- exists _, _ => eexists
  | |- body_field _ _ = _ => apply proposal_body
  | |- _ <> EmptyString => apply truthy_item_some; assumption
  | |- _ \/ _ => first [left; reflexivity | right]
  | |- _ = _ => first [reflexivity | eassumption | congruence]
  end.

Lemma signWriteProposal_prompt env path content tier w :
  exists new,
    trace (world_after (signWriteProposal path content tier) env w) = trace w ++ new
    /\ prompt_run env (localStorage w) path content (trace w) new.
Proof.
  destruct w as [ls ss tr].
  unfold signWriteProposal, isAvailable, _getCurrentWalletAddress, _getStoredCredentialId.
  run_script.
  all: try match goal with
           | H : truthy_item ?o = true |- _ =>
               destruct o eqn:?; [cbn [from_option id] | discriminate H]
           end.
  all: eexists; (split; [new_events |]);
    cbn [prompt_run app]; unfold prompt_bound, passkey_on_file.
  all: repeat prompt_step.
Qed.

End PromptFacts.

Section PromptShape.
Import BiometricManager.
Variables (env : Env) (ls : gmap string string) (path content : string).




(** With no passkey on file there is neither a prompt nor a request
    other than the session lookup. *)
Lemma prompt_run_no_passkey new : forall tr,
  (forall walletAddress, ls !! credential_key walletAddress = None) ->
  prompt_run env ls path content tr new -> Forall lookup_only new.
Proof.
  intros tr Hnone. revert tr.
  assert (Hno : forall a c, passkey_on_file ls a c -> False).
  { intros a c (_ & H & _). rewrite Hnone in H. discriminate H. }
  induction new as [|e new IH]; intros tr Hrun; [constructor |].
  destruct e; try (constructor; [exact I | exact (IH _ Hrun)]).
  - destruct Hrun.
  - cbn [prompt_run] in Hrun.
    destruct new as [|e2 new].
    + destruct Hrun as [[-> | [_ (a & c & Hp)]] _]; [| destruct (Hno _ _ Hp)].
      constructor; [reflexivity | constructor].
    + destruct e2;
        try (destruct Hrun as [[-> | [_ (a & c & Hp)]] Hrun]; [| destruct (Hno _ _ Hp)];
             constructor; [reflexivity | exact (IH _ Hrun)]).
      destruct Hrun as [_ (a & c & r' & d & ch & cb & ib & Hp & _)].
      destruct (Hno _ _ Hp).
Qed.

End PromptShape.

(** ** What [register] asks for *)

Section RegistrationBinding.
Import BiometricManager.

Ltac binding_step :=
  match goal with
  | |- True => exact I
  | |- _ /\ _ => split
  | |- exists _, _ => eexists
  | H : ?x = _ |- context [match ?x with _ => _ end] => rewrite H
  | |- _ = _ => first [reflexivity | eassumption | congruence]
  end.

Lemma signed_then_posted_no_prompt env walletAddress deviceName c tr pre o rest :
  signed_then_posted env walletAddress deviceName c tr (pre ++ EvCreate o :: rest) -> False.
Proof.
  intros H. destruct pre as [|e1 pre]; cbn [app] in H; [exact H |].
  destruct e1; try exact H.
  destruct H as (_ & _ & H).
  destruct pre as [|e2 pre]; cbn [app] in H; [exact H |].
  destruct e2; try exact H.
  destruct pre; exact H.
Qed.

Lemma registration_run_shape env walletAddress deviceName new : forall tr pre o rest,
  registration_run env walletAddress deviceName tr new ->
  new = pre ++ EvCreate o :: rest ->
  exists pre',
    pre = pre' ++ [EvRandom 32]
    /\ o = creationOptions (getRandomValues env (tr ++ pre') 32) (hostname env) walletAddress
    /\ match credentials_create env (tr ++ pre) o with
       | Throw _ => rest = []
       | Ok c => signed_then_posted env walletAddress deviceName c
                   ((tr ++ pre) ++ [EvCreate o]) rest
       end.
Proof.
  induction new as [|e new IH]; intros tr pre o rest Hrun Hnew.
  - destruct pre; discriminate Hnew.
  - destruct pre as [|e' pre].
    + injection Hnew as -> ->. destruct Hrun.
    + injection Hnew as <- ->.
      assert (Hrec : registration_run env walletAddress deviceName (tr ++ [e])
                       (pre ++ EvCreate o :: rest) ->
                     exists pre',
                       e :: pre = pre' ++ [EvRandom 32]
                       /\ o = creationOptions (getRandomValues env (tr ++ pre') 32)
                                (hostname env) walletAddress
                       /\ match credentials_create env (tr ++ e :: pre) o with
                          | Throw _ => rest = []
                          | Ok c => signed_then_posted env walletAddress deviceName c
                                      ((tr ++ e :: pre) ++ [EvCreate o]) rest
                          end).
      { intros H. destruct (IH _ _ _ _ H eq_refl) as (pre' & -> & Ho & Hc).
        exists (e :: pre'). split; [reflexivity |].
        replace ((tr ++ [e]) ++ pre') with (tr ++ e :: pre') in Ho
          by (rewrite <- app_assoc; reflexivity).
        split; [exact Ho |].
        replace ((tr ++ [e]) ++ pre' ++ [EvRandom 32])
          with (tr ++ e :: pre' ++ [EvRandom 32]) in Hc
          by (rewrite <- app_assoc; reflexivity).
        exact Hc. }
      destruct e; try exact (Hrec Hrun).
      * cbn [registration_run] in Hrun.
        destruct pre as [|e2 pre].
        -- cbn [app] in Hrun. destruct Hrun as (-> & Ho & Hc).
           exists []. split; [reflexivity |]. rewrite app_nil_r.
           split; [exact Ho | exact Hc].
        -- cbn [app] in Hrun.
           destruct e2; try (destruct Hrun; fail).
           destruct Hrun as (_ & _ & Hc).
           destruct (credentials_create env (tr ++ [EvRandom n]) o0) as [c | err].
           ++ destruct (signed_then_posted_no_prompt _ _ _ _ _ _ _ _ Hc).
           ++ destruct pre; discriminate Hc.
      * destruct Hrun.
Qed.

Lemma register_binding env walletAddress deviceName w :
  exists new,
    trace (world_after (register walletAddress deviceName) env w) = trace w ++ new
    /\ registration_run env walletAddress deviceName (trace w) new.
Proof.
  destruct w as [ls ss tr].
  unfold register, isAvailable, _storeCredentialId.
  run_script.
  all: eexists; (split; [new_events |]);
    cbn [registration_run signed_then_posted app];
    unfold registrationMessage, posted_deviceName.
  all: repeat binding_step.
Qed.

End RegistrationBinding.

(** * Further properties of the scripts *)

(** ** The passkey address and the text forms *)

(** X1. [deriveEthereumAddress] reads bytes 1 to 64 of its input and
    nothing else: the address is [0x] and the first 40 hex digits of the
    SHA-256 digest of those bytes, zeroes standing in for missing ones; so
    the first byte (the point-format prefix) does not matter, nor does
    anything after byte 64, and a short input gives the address of its
    zero-padded form. *)
Theorem passkey_address_reads_bytes_1_to_64 (k : list byte) (prefix prefix' : byte) :
  PasskeyWallet.deriveEthereumAddress k
  = truncated_hash_address (take 64 (drop 1 k ++ repeat x00 64))
  /\ PasskeyWallet.deriveEthereumAddress (prefix :: k)
     = PasskeyWallet.deriveEthereumAddress (prefix' :: k)
  /\ PasskeyWallet.deriveEthereumAddress k = PasskeyWallet.deriveEthereumAddress (take 65 k)
  /\ PasskeyWallet.deriveEthereumAddress k
     = PasskeyWallet.deriveEthereumAddress (k ++ repeat x00 (65 - length k)).
Proof.
  split; [apply passkey_address_normal_form |].
  split; [rewrite !passkey_address_normal_form; reflexivity |].
  split.
  - rewrite !passkey_address_normal_form. f_equal.
    do 66 (destruct k as [|? k]; [reflexivity |]). reflexivity.
  - rewrite !passkey_address_normal_form. f_equal.
    do 66 (destruct k as [|? k]; [reflexivity |]). reflexivity.
Qed.

(** X2. The hex form of a byte array ([b.toString(16).padStart(2, '0')]
    joined) has two characters per byte, all of them lowercase hex digits,
    and different arrays have different hex forms; so the private key
    string handed to [ethers.Wallet] has 66 characters and determines the
    digest it was made from. *)
Theorem hex_form_is_faithful (a b : list byte) (k k' : list byte) :
  String.length (to_hex a) = (2 * length a)%nat
  /\ forallb is_lower_hex (list_ascii_of_string (to_hex a)) = true
  /\ (to_hex a = to_hex b -> a = b)
  /\ String.length ("0x" +:+ to_hex (SHA256.digest k)) = 66%nat
  /\ (("0x" +:+ to_hex (SHA256.digest k) = "0x" +:+ to_hex (SHA256.digest k'))%string
      -> SHA256.digest k = SHA256.digest k').
Proof.
  split; [apply to_hex_length |].
  split; [apply to_hex_lower |].
  split; [apply to_hex_injective |].
  split; [apply private_key_hex_length |].
  intros H. apply to_hex_injective. injection H as H. exact H.
Qed.

(** X3. [_base64UrlToArrayBuffer] undoes the base64url form without
    padding in which the browser gives [credential.id]: for every byte
    string [b] it returns [b], because [_base64UrlToBase64] rebuilds the
    very text [_arrayBufferToBase64 b]; and whatever text it is given,
    [_base64UrlToBase64] returns one whose length is a multiple of four. *)
Theorem base64url_credential_id_decodes (b : list byte) (s : string) :
  BiometricManager._base64UrlToArrayBuffer (base64url b) = Ok b
  /\ BiometricManager._base64UrlToBase64 (base64url b) = BiometricManager._arrayBufferToBase64 b
  /\ (String.length (BiometricManager._base64UrlToBase64 s) mod 4 = 0)%nat.
Proof.
  repeat apply conj.
  - unfold BiometricManager._base64UrlToArrayBuffer.
    rewrite base64UrlToBase64_base64url. apply base64ToArrayBuffer_arrayBufferToBase64.
  - apply base64UrlToBase64_base64url.
  - apply base64UrlToBase64_length.
Qed.

(** X4. The text [_arrayBufferToBase64] returns for [n] bytes has
    [4 * ceil (n / 3)] characters: four for every three bytes, a last
    group of one or two bytes being padded to four. *)
Theorem base64_text_length (b : list byte) :
  String.length (BiometricManager._arrayBufferToBase64 b)
  = (4 * ((length b + 2) / 3))%nat.
Proof.
  rewrite arrayBufferToBase64_btoa. unfold Base64.btoa, fromCharCode_apply.
  rewrite list_ascii_of_string_of_list_ascii, length_string_of, encode_length, length_map.
  reflexivity.
Qed.

(** X5. [_base64ToArrayBuffer] rejects a text that holds a character which
    is neither of the base64 alphabet, nor white space, nor [=]: it throws
    the InvalidCharacterError of [atob]. The [-] and [_] of base64url are
    such characters. *)
Theorem invalid_base64_is_rejected (s : string) (c : ascii) :
  In c (list_ascii_of_string s) ->
  Base64.index_of c = None -> Base64.is_ascii_whitespace c = false -> c <> "="%char ->
  BiometricManager._base64ToArrayBuffer s = Throw Base64.InvalidCharacterError.
Proof.
  intros Hin Hidx Hws Hne. unfold BiometricManager._base64ToArrayBuffer.
  rewrite (atob_outside c s Hin Hidx Hws); [reflexivity |].
  apply Ascii.eqb_neq. exact Hne.
Qed.

Lemma invalid_base64_is_rejected_witness :
  In "-"%char (list_ascii_of_string "ab-_")
  /\ Base64.index_of "-" = None
  /\ BiometricManager._base64ToArrayBuffer "ab-_" = Throw Base64.InvalidCharacterError
  /\ BiometricManager._base64UrlToArrayBuffer "ab-_" = Ok [x69; xbf; xbf].
Proof.
  assert (Hin : In "-"%char (list_ascii_of_string "ab-_"))
    by (simpl; right; right; left; reflexivity).
  split; [exact Hin |]. split; [reflexivity |].
  split; [| vm_compute; reflexivity].
  apply (invalid_base64_is_rejected "ab-_" "-").
  - exact Hin.
  - reflexivity.
  - reflexivity.
  - discriminate.
Defined.

(** X6. The URL of the challenge request determines the path and the
    content it was built from, whatever text they are (any sequence of
    UTF-16 code units): [encodeURIComponent] loses nothing and its result
    holds no [&], so two calls of [signWriteProposal] whose URL can be
    built request the same URL only for the same path and the same
    content. The URL cannot be built only when the path or the content
    holds a surrogate code unit, and the error is then a URIError. On text
    within U+00FF the URL is the one of the embedded script. *)
Theorem challenge_request_determines_path_and_content
    (path content path' content' : Utf16.Text) (url : string) (e : JsError)
    (p c p' c' : string) :
  (Utf16.is_text path = true -> Utf16.is_text content = true ->
   Utf16.is_text path' = true -> Utf16.is_text content' = true ->
   Utf16.challenge_url path content = Ok url ->
   Utf16.challenge_url path' content' = Ok url ->
   path = path' /\ content = content')
  /\ (Utf16.challenge_url path content = Throw e ->
      e = Utf16.URIError
      /\ exists u, In u (path ++ content)
           /\ (Utf16.is_leading_surrogate u || Utf16.is_trailing_surrogate u) = true)
  /\ Utf16.challenge_url (Utf16.of_string p) (Utf16.of_string c)
     = Ok (BiometricManager.challenge_url p c)
  /\ (BiometricManager.challenge_request p c = BiometricManager.challenge_request p' c'
      <-> p = p' /\ c = c').
Proof.
  repeat apply conj.
  - apply challenge_url_text_injective.
  - unfold Utf16.challenge_url. intros H.
    destruct (Utf16.encodeURIComponent path) as [s |] eqn:Ep.
    + destruct (Utf16.encodeURIComponent content) as [s' |] eqn:Ec; [discriminate H |].
      injection H as ->.
      destruct (encode_throws _ _ _ (le_n _) Ec) as (He & u & Hu & Hs).
      split; [exact He |]. exists u. split; [apply in_or_app; right; exact Hu | exact Hs].
    + injection H as ->.
      destruct (encode_throws _ _ _ (le_n _) Ep) as (He & u & Hu & Hs).
      split; [exact He |]. exists u. split; [apply in_or_app; left; exact Hu | exact Hs].
  - apply challenge_url_of_string.
  - intros H. apply challenge_url_injective. exact (f_equal req_url H).
  - intros [-> ->]. reflexivity.
Qed.

Lemma challenge_request_determines_path_and_content_witness :
  Utf16.is_text [47; 10003] = true
  /\ Utf16.is_text [55357; 56592] = true
  /\ Utf16.challenge_url [47; 10003] [55357; 56592]
     = Ok "/bin/blockchain-aem/propose-write-biometric?path=%2F%E2%9C%93&content=%F0%9F%94%90"%string
  /\ Utf16.challenge_url [47; 10003] [55357] = Throw Utf16.URIError
  /\ ([47; 10003] = [47; 10003] /\ [55357; 56592] = [55357; 56592]).
Proof.
  assert (Hp : Utf16.is_text [47; 10003] = true) by reflexivity.
  assert (Hc : Utf16.is_text [55357; 56592] = true) by reflexivity.
  assert (Hurl : Utf16.challenge_url [47; 10003] [55357; 56592]
                 = Ok "/bin/blockchain-aem/propose-write-biometric?path=%2F%E2%9C%93&content=%F0%9F%94%90"%string)
    by (vm_compute; reflexivity).
  split; [exact Hp |]. split; [exact Hc |]. split; [exact Hurl |].
  split; [vm_compute; reflexivity |].
  destruct (challenge_request_determines_path_and_content
              [47; 10003] [55357; 56592] [47; 10003] [55357; 56592]
              "/bin/blockchain-aem/propose-write-biometric?path=%2F%E2%9C%93&content=%F0%9F%94%90"
              Utf16.URIError EmptyString EmptyString EmptyString EmptyString)
    as (H & _).
  exact (H Hp Hc Hp Hc Hurl Hurl).
Defined.

(** ** Availability and the current wallet *)

(** X7. [isAvailable] never rejects, and when it answers false (no
    [PublicKeyCredential] in the window, or the platform check not
    answering true), [register] and [signWriteProposal] reject with
    "Biometric authentication not available" having done nothing but that
    check: no random draw, no prompt, no request, no change of storage. *)
Theorem unavailable_authenticator_stops_the_scripts (env : Env) (w : World)
    (walletAddress : string) (deviceName : option string)
    (path content : string) (tier : option Z) :
  has_PublicKeyCredential env = false \/ isUVPAA env (trace w) <> Ok true ->
  result_of BiometricManager.isAvailable env w = Ok false
  /\ events_of BiometricManager.isAvailable env w
     = (if has_PublicKeyCredential env then [EvIsUVPAA] else [])
  /\ BiometricManager.register walletAddress deviceName env w
     = (Throw (Error "Biometric authentication not available"),
        world_after BiometricManager.isAvailable env w)
  /\ BiometricManager.signWriteProposal path content tier env w
     = (Throw (Error "Biometric authentication not available"),
        world_after BiometricManager.isAvailable env w)
  /\ localStorage (world_after BiometricManager.isAvailable env w) = localStorage w
  /\ sessionStorage (world_after BiometricManager.isAvailable env w) = sessionStorage w.
Proof.
  intros H.
  assert (Hr : result_of BiometricManager.isAvailable env w = Ok false).
  { unfold result_of. rewrite isAvailable_run.
    destruct (has_PublicKeyCredential env); [| reflexivity].
    destruct H as [H | H]; [discriminate H |].
    simpl. destruct (isUVPAA env (trace w)) as [[] |]; congruence. }
  repeat apply conj.
  - exact Hr.
  - unfold events_of, world_after. rewrite isAvailable_run.
    destruct (has_PublicKeyCredential env); simpl.
    + apply drop_app_length.
    + rewrite drop_all. reflexivity.
  - apply register_unavailable. exact Hr.
  - apply signWriteProposal_unavailable. exact Hr.
  - unfold world_after. rewrite isAvailable_run.
    destruct (has_PublicKeyCredential env); reflexivity.
  - unfold world_after. rewrite isAvailable_run.
    destruct (has_PublicKeyCredential env); reflexivity.
Qed.

Lemma unavailable_authenticator_stops_the_scripts_witness :
  has_PublicKeyCredential Demo.without_authenticator = false
  /\ BiometricManager.register Demo.wallet None Demo.without_authenticator Demo.registered
  = (Throw (Error "Biometric authentication not available"), Demo.registered)
  /\ BiometricManager.signWriteProposal "/x" "c" (Some 2) Demo.without_authenticator
       Demo.registered
     = (Throw (Error "Biometric authentication not available"), Demo.registered).
Proof.
  destruct (unavailable_authenticator_stops_the_scripts Demo.without_authenticator
              Demo.registered Demo.wallet None "/x" "c" (Some 2) (or_introl eq_refl))
    as (_ & _ & Hr & Hs & _).
  split; [reflexivity | split; [exact Hr | exact Hs]].
Defined.

(** X8. In a browser without a wallet extension [_getCurrentWalletAddress]
    never rejects and makes the one session request: when that request is
    answered, ok, with a [userID] that is a string starting with [0x], it
    returns that very string, and in every other case (request failed, not
    ok, no or another user id) it returns [null]. *)
Theorem current_wallet_without_extension (env : Env) (w : World) :
  ethereum env = None ->
  exists v,
    result_of BiometricManager._getCurrentWalletAddress env w = Ok v
    /\ ((exists userId, session_names env (trace w) userId /\ v = JStr userId)
        \/ ((forall userId, ~ session_names env (trace w) userId) /\ v = JNull))
    /\ events_of BiometricManager._getCurrentWalletAddress env w
       = [EvFetch BiometricManager.session_info_request]
    /\ localStorage (world_after BiometricManager._getCurrentWalletAddress env w)
       = localStorage w
    /\ sessionStorage (world_after BiometricManager._getCurrentWalletAddress env w)
       = sessionStorage w.
Proof.
  intros He.
  destruct (getCurrentWalletAddress_session env w He) as (v & Hrun & Hv).
  exists v. unfold result_of, events_of, world_after. rewrite Hrun. simpl.
  repeat apply conj; auto.
  apply drop_app_length.
Qed.

Lemma current_wallet_without_extension_witness :
  ethereum Demo.without_extension = None
  /\ session_names Demo.without_extension (trace Demo.fresh) Demo.wallet
  /\ result_of BiometricManager._getCurrentWalletAddress Demo.without_extension Demo.fresh
     = Ok (JStr Demo.wallet)
  /\ exists v,
       result_of BiometricManager._getCurrentWalletAddress Demo.without_extension Demo.fresh
       = Ok v
       /\ ((exists userId,
              session_names Demo.without_extension (trace Demo.fresh) userId /\ v = JStr userId)
           \/ ((forall userId,
                  ~ session_names Demo.without_extension (trace Demo.fresh) userId)
               /\ v = JNull)).
Proof.
  split; [reflexivity |].
  split; [exists Demo.session_response, (JObj [("userID", JStr Demo.wallet)]);
          repeat apply conj; reflexivity |].
  split; [vm_compute; reflexivity |].
  destruct (current_wallet_without_extension Demo.without_extension Demo.fresh eq_refl)
    as (v & Hr & Hv & _).
  exists v. split; [exact Hr | exact Hv].
Defined.

(** ** Registration *)

Section RegistrationFacts.
Import BiometricManager.

Lemma before_registration_no_fetch pre req :
  Forall before_registration pre -> In (EvFetch req) pre -> False.
Proof.
  intros Hpre Hin. rewrite List.Forall_forall in Hpre.
  destruct (Hpre _ Hin) as [H | H]; discriminate H.
Qed.

Lemma register_request_fields walletAddress c device signature :
  let req := register_request walletAddress (cred_id c)
               (_arrayBufferToBase64 (_extractPublicKey c)) device signature in
  req_method req = "POST"%string
  /\ req_url req = "/bin/blockchain-aem/register-biometric"%string
  /\ body_field req "walletAddress" = JStr walletAddress
  /\ body_field req "credentialId" = JStr (cred_id c)
  /\ body_field req "publicKey" = JStr (_arrayBufferToBase64 (_extractPublicKey c)).
Proof. repeat split; reflexivity. Qed.

End RegistrationFacts.

(** X9. [register] stores the credential id on success only, and under
    the wallet's key only: when it resolves, the result names the wallet
    and [_getStoredCredentialId] of that wallet then returns the result's
    credential id; when it rejects, [localStorage] is as before. No other
    key of [localStorage] and nothing of [sessionStorage] changes. *)
Theorem register_stores_on_success_only (env : Env) (w : World)
    (walletAddress : string) (deviceName : option string) :
  sessionStorage (world_after (BiometricManager.register walletAddress deviceName) env w)
  = sessionStorage w
  /\ (forall key, key <> BiometricManager.credential_key walletAddress ->
        localStorage (world_after (BiometricManager.register walletAddress deviceName) env w)
          !! key = localStorage w !! key)
  /\ match result_of (BiometricManager.register walletAddress deviceName) env w with
     | Ok r =>
         BiometricManager.rr_success r = true /\ BiometricManager.rr_walletAddress r = walletAddress
         /\ BiometricManager.rr_deviceName r = deviceName
         /\ result_of (BiometricManager._getStoredCredentialId walletAddress) env
              (world_after (BiometricManager.register walletAddress deviceName) env w)
            = Ok (Some (BiometricManager.rr_credentialId r))
     | Throw _ =>
         localStorage (world_after (BiometricManager.register walletAddress deviceName) env w)
         = localStorage w
     end.
Proof.
  destruct (register_runs env walletAddress deviceName w)
    as (new & stored & Ht & Hls & Hss & Hrun).
  split; [exact Hss |].
  split.
  { intros key Hkey. rewrite Hls. destruct stored as [c|]; [| reflexivity].
    simpl. apply lookup_insert_ne. congruence. }
  apply register_run_shape in Hrun.
  destruct Hrun as (pre & _ & [(_ & -> & e & Hr) | [(o & err & _ & _ & -> & Hr)
                                | (o & c & rest & _ & _ & _ & [(-> & e & Hr) | (-> & Hr)])]]);
    rewrite Hr.
  - exact Hls.
  - exact Hls.
  - exact Hls.
  - repeat apply conj; try reflexivity.
    unfold result_of, BiometricManager._getStoredCredentialId, localStorage_getItem.
    cbn [fst BiometricManager.rr_credentialId]. rewrite Hls. simpl. rewrite lookup_insert_eq. reflexivity.
Qed.

(** X10. Whatever request [register] sends, it sends after the
    authenticator created a credential, as a POST to the registration
    endpoint that carries the wallet address, the id of that credential and
    the base64 text of its public key; the text decodes to the key
    [getPublicKey] gave, or to 65 zero bytes when the browser has no
    [getPublicKey]. *)
Theorem register_request_carries_created_credential (env : Env) (w : World)
    (walletAddress : string) (deviceName : option string) (req : Request) :
  In (EvFetch req) (events_of (BiometricManager.register walletAddress deviceName) env w) ->
  exists pre o c rest publicKey,
    events_of (BiometricManager.register walletAddress deviceName) env w
    = pre ++ EvCreate o :: rest
    /\ credentials_create env (trace w ++ pre) o = Ok c
    /\ In (EvFetch req) rest
    /\ req_method req = "POST"%string
    /\ req_url req = "/bin/blockchain-aem/register-biometric"%string
    /\ body_field req "walletAddress" = JStr walletAddress
    /\ body_field req "credentialId" = JStr (cred_id c)
    /\ body_field req "publicKey" = JStr publicKey
    /\ BiometricManager._base64ToArrayBuffer publicKey
       = Ok (match cred_getPublicKey c with Some key => key | None => repeat x00 65 end).
Proof.
  destruct (register_runs env walletAddress deviceName w)
    as (new & stored & Ht & _ & _ & Hrun).
  rewrite (events_of_new env _ w new Ht).
  apply register_run_shape in Hrun.
  destruct Hrun as (pre & Hpre & [(-> & _) | [(o & err & -> & _)
                                | (o & c & rest & -> & Hc & Hrest & _)]]);
    intros Hin.
  - destruct (before_registration_no_fetch _ _ Hpre Hin).
  - apply in_app_or in Hin as [Hin | [Hin | []]];
      [destruct (before_registration_no_fetch _ _ Hpre Hin) | discriminate Hin].
  - apply in_app_or in Hin as [Hin | [Hin | Hin]];
      [destruct (before_registration_no_fetch _ _ Hpre Hin) | discriminate Hin |].
    rewrite List.Forall_forall in Hrest.
    destruct (Hrest _ Hin) as [(message & Hm) | (device & signature & Hreq)];
      [discriminate Hm |].
    injection Hreq as ->.
    exists pre, o, c, rest,
      (BiometricManager._arrayBufferToBase64 (BiometricManager._extractPublicKey c)).
    destruct (register_request_fields walletAddress c device signature)
      as (H1 & H2 & H3 & H4 & H5).
    repeat apply conj; try assumption; try reflexivity.
    rewrite base64ToArrayBuffer_arrayBufferToBase64.
    unfold BiometricManager._extractPublicKey. destruct (cred_getPublicKey c); reflexivity.
Qed.

Lemma register_request_carries_created_credential_witness :
  In (EvFetch (BiometricManager.register_request Demo.wallet "AQID"
                 (BiometricManager._arrayBufferToBase64 P256.generator) "Browser"
                 (JStr "0xsignature")))
     (events_of (BiometricManager.register Demo.wallet None) Demo.granted Demo.fresh)
  /\ exists pre o c rest publicKey,
    events_of (BiometricManager.register Demo.wallet None) Demo.granted Demo.fresh
    = pre ++ EvCreate o :: rest
    /\ credentials_create Demo.granted (trace Demo.fresh ++ pre) o = Ok c
    /\ In (EvFetch (BiometricManager.register_request Demo.wallet "AQID"
                      (BiometricManager._arrayBufferToBase64 P256.generator) "Browser"
                      (JStr "0xsignature"))) rest
    /\ req_method (BiometricManager.register_request Demo.wallet "AQID"
                     (BiometricManager._arrayBufferToBase64 P256.generator) "Browser"
                     (JStr "0xsignature")) = "POST"%string
    /\ req_url (BiometricManager.register_request Demo.wallet "AQID"
                  (BiometricManager._arrayBufferToBase64 P256.generator) "Browser"
                  (JStr "0xsignature")) = "/bin/blockchain-aem/register-biometric"%string
    /\ body_field (BiometricManager.register_request Demo.wallet "AQID"
                     (BiometricManager._arrayBufferToBase64 P256.generator) "Browser"
                     (JStr "0xsignature")) "walletAddress" = JStr Demo.wallet
    /\ body_field (BiometricManager.register_request Demo.wallet "AQID"
                     (BiometricManager._arrayBufferToBase64 P256.generator) "Browser"
                     (JStr "0xsignature")) "credentialId" = JStr (cred_id c)
    /\ body_field (BiometricManager.register_request Demo.wallet "AQID"
                     (BiometricManager._arrayBufferToBase64 P256.generator) "Browser"
                     (JStr "0xsignature")) "publicKey" = JStr publicKey
    /\ BiometricManager._base64ToArrayBuffer publicKey
       = Ok (match cred_getPublicKey c with Some key => key | None => repeat x00 65 end).
Proof.
  assert (Hin : In (EvFetch (BiometricManager.register_request Demo.wallet "AQID"
                     (BiometricManager._arrayBufferToBase64 P256.generator) "Browser"
                     (JStr "0xsignature")))
                  (events_of (BiometricManager.register Demo.wallet None) Demo.granted
                     Demo.fresh)).
  { vm_compute. do 4 right. left. reflexivity. }
  split; [exact Hin |].
  exact (register_request_carries_created_credential Demo.granted Demo.fresh Demo.wallet None
           _ Hin).
Defined.

(** ** The login flow: what is kept of a wallet *)

Section Getters.
Import WalletCreation.




End Getters.


(** X12. The private key that [setupBiometricWallet] keeps in
    [sessionStorage] only can be computed again from what it leaves in
    [localStorage]: the stored [blockchain_aem_p256_pubkey] decodes to the
    passkey's public key, and the private key and address returned are
    those of ethers' wallet for 0x followed by the hex SHA-256 of that
    key. *)
Theorem private_key_follows_from_durable_storage (env : Env) (w : World)
    (res : WalletCreation.SetupResult) :
  result_of WalletCreation.setupBiometricWallet env w = Ok res ->
  exists stored key new_Wallet wallet,
    localStorage (end_session (world_after WalletCreation.setupBiometricWallet env w))
      !! "blockchain_aem_p256_pubkey" = Some stored
    /\ BiometricManager._base64ToArrayBuffer stored = Ok key
    /\ ethers env = Some new_Wallet
    /\ new_Wallet ("0x" +:+ to_hex (SHA256.digest key)) = Ok wallet
    /\ WalletCreation.sr_privateKey res = wallet_privateKey wallet
    /\ WalletCreation.sr_address res = wallet_address wallet
    /\ sessionStorage (end_session (world_after WalletCreation.setupBiometricWallet env w))
       = ∅.
Proof.
  intros Hres.
  pose proof (setupBiometricWallet_storage env w) as H. rewrite Hres in H.
  destruct H as (credential & key & new_Wallet & wallet & _ & He & Hw & -> & Hls & _).
  exists (Base64.btoa (fromCharCode_apply key)), key, new_Wallet, wallet.
  repeat apply conj; try assumption; try reflexivity.
  - cbn [end_session localStorage]. rewrite Hls.
    rewrite lookup_insert_ne by discriminate. apply lookup_insert_eq.
  - rewrite <- arrayBufferToBase64_btoa. apply base64ToArrayBuffer_arrayBufferToBase64.
Qed.

Lemma private_key_follows_from_durable_storage_witness :
  exists res,
    result_of WalletCreation.setupBiometricWallet Demo.granted Demo.fresh = Ok res
    /\ exists stored key new_Wallet wallet,
      localStorage (end_session (world_after WalletCreation.setupBiometricWallet Demo.granted
                                   Demo.fresh))
        !! "blockchain_aem_p256_pubkey" = Some stored
      /\ BiometricManager._base64ToArrayBuffer stored = Ok key
      /\ ethers Demo.granted = Some new_Wallet
      /\ new_Wallet ("0x" +:+ to_hex (SHA256.digest key)) = Ok wallet
      /\ WalletCreation.sr_privateKey res = wallet_privateKey wallet
      /\ WalletCreation.sr_address res = wallet_address wallet
      /\ sessionStorage (end_session (world_after WalletCreation.setupBiometricWallet
                                        Demo.granted Demo.fresh))
         = ∅.
Proof.
  assert (H : result_of WalletCreation.setupBiometricWallet Demo.granted Demo.fresh
              = Ok (match result_of WalletCreation.setupBiometricWallet Demo.granted Demo.fresh
                    with
                    | Ok res => res
                    | Throw _ => WalletCreation.mkSetupResult EmptyString EmptyString EmptyString
                    end))
    by (vm_compute; reflexivity).
  eexists. split; [exact H |].
  exact (private_key_follows_from_durable_storage Demo.granted Demo.fresh _ H).
Defined.

(** ** The prompt of a write proposal *)



(** X14. With no passkey on file, [signWriteProposal] rejects without
    prompting and without asking for a challenge or posting anything: the
    only request it may make is the session lookup, and both storage areas
    stay as they were. *)
Theorem no_passkey_no_prompt (env : Env) (w : World)
    (path content : string) (tier : option Z) :
  (forall walletAddress,
     localStorage w !! BiometricManager.credential_key walletAddress = None) ->
  (exists e, result_of (BiometricManager.signWriteProposal path content tier) env w = Throw e)
  /\ Forall lookup_only (events_of (BiometricManager.signWriteProposal path content tier) env w)
  /\ existsb is_prompt (events_of (BiometricManager.signWriteProposal path content tier) env w)
     = false
  /\ existsb is_post (events_of (BiometricManager.signWriteProposal path content tier) env w)
     = false
  /\ localStorage (world_after (BiometricManager.signWriteProposal path content tier) env w)
     = localStorage w
  /\ sessionStorage (world_after (BiometricManager.signWriteProposal path content tier) env w)
     = sessionStorage w.
Proof.
  intros Hnone.
  destruct (signWriteProposal_prompt env path content tier w) as (new & Ht & Hrun).
  destruct (signWriteProposal_runs env path content tier w) as (new' & Ht' & Hls & Hss & Hsign).
  assert (new' = new) as -> by (rewrite Ht in Ht'; exact (app_inv_head _ _ _ (eq_sym Ht'))).
  rewrite (events_of_new env _ w new Ht).
  pose proof (prompt_run_no_passkey env (localStorage w) path content new (trace w) Hnone Hrun)
    as Hquiet.
  assert (Hno : forall pre o rest, new = pre ++ EvGet o :: rest -> False).
  { intros pre o rest ->. apply Forall_app in Hquiet as [_ Hq].
    inversion Hq as [|? ? Hfalse _]. exact Hfalse. }
  apply sign_run_shape in Hsign.
  destruct Hsign as (pre & Hpre & [(-> & He) | [(o & err & Hnew & _)
                                              | (o & a & req & Hnew & _)]]).
  - destruct (quiet_filters path content pre Hpre) as (_ & _ & Hpost & Hprompt).
    repeat apply conj; assumption.
  - destruct (Hno _ _ _ Hnew).
  - destruct (Hno _ _ _ Hnew).
Qed.

Lemma no_passkey_no_prompt_witness :
  (forall walletAddress,
     localStorage Demo.fresh !! BiometricManager.credential_key walletAddress = None)
  /\ result_of (BiometricManager.signWriteProposal "/x" "c" (Some 2)) Demo.granted Demo.fresh
     = Throw (Error "No passkey registered for this wallet. Please register first.")
  /\ Forall lookup_only
       (events_of (BiometricManager.signWriteProposal "/x" "c" (Some 2)) Demo.granted
          Demo.fresh).
Proof.
  assert (H : forall walletAddress,
             localStorage Demo.fresh !! BiometricManager.credential_key walletAddress = None)
    by (intros a; apply lookup_empty).
  split; [exact H |].
  split; [vm_compute; reflexivity |].
  exact (proj1 (proj2 (no_passkey_no_prompt Demo.granted Demo.fresh "/x" "c" (Some 2) H))).
Defined.

(** ** The passkey variant *)


(** ** What registration sends *)

(** X16. When [register] prompts, the prompt comes right after the draw
    of 32 random bytes and asks for a credential with those bytes as the
    challenge, for this host and this wallet. If a credential is created,
    the wallet is asked only to [personal_sign] the message
    [Register biometric:<wallet>:<credential id>:<public key>], and a
    request is sent only with the signature the wallet gave to that very
    message. *)
Theorem registration_is_bound_to_created_credential (env : Env) (w : World)
    (walletAddress : string) (deviceName : option string)
    (pre rest : list Event) (o : CreationOptions) (c : Credential) :
  events_of (BiometricManager.register walletAddress deviceName) env w
  = pre ++ EvCreate o :: rest ->
  credentials_create env (trace w ++ pre) o = Ok c ->
  (exists pre',
     pre = pre' ++ [EvRandom 32]
     /\ o = BiometricManager.creationOptions (getRandomValues env (trace w ++ pre') 32)
              (hostname env) walletAddress)
  /\ (forall method params, In (EvEthereum method params) rest ->
        method = "personal_sign"%string
        /\ params = [JStr (registrationMessage walletAddress c); JStr walletAddress])
  /\ (forall req, In (EvFetch req) rest ->
        exists request walletSignature,
          ethereum env = Some request
          /\ request ((trace w ++ pre) ++ [EvCreate o]) "personal_sign"
               [JStr (registrationMessage walletAddress c); JStr walletAddress]
             = Ok walletSignature
          /\ req = BiometricManager.register_request walletAddress (cred_id c)
                     (BiometricManager._arrayBufferToBase64
                        (BiometricManager._extractPublicKey c))
                     (posted_deviceName env deviceName) walletSignature).
Proof.
  intros Hev Hc.
  destruct (register_binding env walletAddress deviceName w) as (new & Ht & Hrun).
  rewrite (events_of_new env _ w new Ht) in Hev.
  destruct (registration_run_shape env walletAddress deviceName new _ _ _ _ Hrun Hev)
    as (pre' & Hpre & Ho & Hrest).
  rewrite Hc in Hrest.
  split; [exists pre'; split; assumption |].
  destruct rest as [|e1 rest]; [split; [intros m ps [] | intros req []] |].
  destruct e1; try (exfalso; exact Hrest).
  destruct Hrest as (-> & -> & Htail).
  destruct rest as [|e2 rest].
  - split.
    + intros m ps [Hin | []]. injection Hin as <- <-. split; reflexivity.
    + intros req [Hin | []]. discriminate Hin.
  - destruct e2; try (exfalso; exact Htail).
    destruct rest; [| exfalso; exact Htail].
    destruct Htail as (request & walletSignature & He & Hsig & ->).
    split.
    + intros m ps [Hin | [Hin | []]]; [| discriminate Hin].
      injection Hin as <- <-. split; reflexivity.
    + intros req [Hin | [Hin | []]]; [discriminate Hin |].
      injection Hin as <-. exists request, walletSignature.
      repeat apply conj; [exact He | exact Hsig | reflexivity].
Qed.

Lemma registration_is_bound_to_created_credential_witness :
  events_of (BiometricManager.register Demo.wallet None) Demo.granted Demo.fresh
  = take 2 (events_of (BiometricManager.register Demo.wallet None) Demo.granted Demo.fresh)
    ++ EvCreate (BiometricManager.creationOptions (repeat x2a 32) "localhost" Demo.wallet)
    :: drop 3 (events_of (BiometricManager.register Demo.wallet None) Demo.granted Demo.fresh)
  /\ credentials_create Demo.granted
       (trace Demo.fresh
        ++ take 2 (events_of (BiometricManager.register Demo.wallet None) Demo.granted
                     Demo.fresh))
       (BiometricManager.creationOptions (repeat x2a 32) "localhost" Demo.wallet)
     = Ok Demo.credential
  /\ exists pre',
       take 2 (events_of (BiometricManager.register Demo.wallet None) Demo.granted Demo.fresh)
       = pre' ++ [EvRandom 32].
Proof.
  assert (H : events_of (BiometricManager.register Demo.wallet None) Demo.granted Demo.fresh
              = take 2 (events_of (BiometricManager.register Demo.wallet None) Demo.granted
                          Demo.fresh)
                ++ EvCreate (BiometricManager.creationOptions (repeat x2a 32) "localhost"
                               Demo.wallet)
                :: drop 3 (events_of (BiometricManager.register Demo.wallet None) Demo.granted
                             Demo.fresh))
    by (vm_compute; reflexivity).
  assert (Hc : credentials_create Demo.granted
                 (trace Demo.fresh
                  ++ take 2 (events_of (BiometricManager.register Demo.wallet None)
                               Demo.granted Demo.fresh))
                 (BiometricManager.creationOptions (repeat x2a 32) "localhost" Demo.wallet)
               = Ok Demo.credential)
    by reflexivity.
  split; [exact H |]. split; [exact Hc |].
  destruct (registration_is_bound_to_created_credential Demo.granted Demo.fresh Demo.wallet
              None _ _ _ _ H Hc) as ((pre' & Hpre & _) & _).
  exists pre'. exact Hpre.
Defined.

(** ** What the login flow sends *)

(** X17. [setupBiometricWallet] of the login flow sends at most one
    request, the registration POST, after its one prompt, and that request
    carries, next to the wallet address and the id of the credential the
    authenticator returned to that prompt, the bytes of that credential's
    public key: the bytes whose SHA-256 is the private key given to
    ethers. *)
Theorem login_registration_carries_key_material (env : Env) (w : World) (req : Request) :
  In (EvFetch req) (events_of WalletCreation.setupBiometricWallet env w) ->
  exists credential p256PubKey new_Wallet wallet,
    List.filter is_fetch (events_of WalletCreation.setupBiometricWallet env w) = [EvFetch req]
    /\ req_method req = "POST"%string
    /\ req_url req = "/bin/blockchain-aem/biometric-register"%string
    /\ cred_getPublicKey credential = Some p256PubKey
    /\ body_field req "p256PubKey" = bytes_array p256PubKey
    /\ body_field req "credentialId" = JStr (cred_id credential)
    /\ ethers env = Some new_Wallet
    /\ new_Wallet ("0x" +:+ to_hex (SHA256.digest p256PubKey)) = Ok wallet
    /\ body_field req "address" = JStr (wallet_address wallet)
    /\ body_field req "secp256k1PubKey" = JStr (wallet_publicKey wallet)
    /\ exists pre o rest,
         events_of WalletCreation.setupBiometricWallet env w = pre ++ EvCreate o :: rest
         /\ credentials_create env (trace w ++ pre) o = Ok credential
         /\ In (EvFetch req) rest.
Proof.
  destruct (setupBiometricWallet_prompt env w) as (new & Ht & Hnew).
  rewrite (events_of_new env _ w new Ht).
  intros Hin.
  assert (Hf : In (EvFetch req) (List.filter is_fetch new))
    by (apply List.filter_In; split; [exact Hin | reflexivity]).
  destruct Hnew as [(Hnone & _) | (pre & o & rest & credential & key & new_Wallet & wallet & Hpre
                                   & _ & Hq & _ & Hc & Hk & He & Hw & Hone & _)].
  - rewrite Hnone in Hf. destruct Hf.
  - rewrite Hone in Hf |- *. destruct Hf as [Hf | []]. injection Hf as <-.
    exists credential, key, new_Wallet, wallet.
    repeat apply conj; try assumption; try reflexivity.
    exists pre, o, rest. repeat apply conj; try assumption.
    rewrite Hpre in Hin. apply in_app_or in Hin as [Hin | [Hin | Hin]].
    + destruct (no_fetch_in _ _ Hq Hin).
    + discriminate Hin.
    + exact Hin.
Qed.

Lemma login_registration_carries_key_material_witness :
  exists req,
    In (EvFetch req) (events_of WalletCreation.setupBiometricWallet Demo.granted Demo.fresh)
    /\ body_field req "p256PubKey" = bytes_array P256.generator.
Proof.
  pose (req := match List.filter is_fetch
                       (events_of WalletCreation.setupBiometricWallet Demo.granted Demo.fresh)
               with
               | [EvFetch r] => r
               | _ => BiometricManager.session_info_request
               end).
  assert (Hin : In (EvFetch req)
                  (events_of WalletCreation.setupBiometricWallet Demo.granted Demo.fresh)).
  { vm_compute. do 7 right. left. reflexivity. }
  exists req. split; [exact Hin |].
  destruct (login_registration_carries_key_material Demo.granted Demo.fresh req Hin)
    as (credential & key & new_Wallet & wallet & _ & _ & _ & _ & _ & _ & _ & _ & _ & _).
  vm_compute. reflexivity.
Defined.
